(** * IntegralQ-BI backend: cleaning, statistics and chart synthesis

    A shallow embedding of the Python services of the backend
    ([services/cleaner.py], [services/analyzer.py], [main.py],
    [sop_service.py], [domain_models.py]) together with the properties
    the design document states about them.

    Conventions of the embedding:
    - a Python [str] is a list of Unicode code points ([PyStr.str]);
    - a Python [float] is an exact rational extended with the two
      infinities and NaN ([PyFloat.float]): comparisons, [abs], [max]
      and [int()] are exact on doubles, sums and products are taken
      without rounding error;
    - a raised exception is the [Raise] branch of [result];
    - what pandas, scipy, json and pydantic compute is either modelled
      by its documented behaviour or taken as an argument. *)

From Stdlib Require Import List Bool Arith ZArith NArith QArith Qround Qabs.
From Stdlib Require Import String Ascii Lia Lqa Permutation Sorted.
From Stdlib Require DecimalString.
Import ListNotations.

Set Implicit Arguments.

Close Scope Q_scope.
Open Scope list_scope.

(* ===================================================================== *)
(** * Python strings *)
(* ===================================================================== *)

Module PyStr.

(** A code point; a [str] is a sequence of them. *)
Definition codepoint := N.
Definition str := list codepoint.

(** ASCII literals are written as Rocq strings. *)
Definition lit (s : string) : str :=
  List.map N_of_ascii (list_ascii_of_string s).

Definition len (s : str) : Z := Z.of_nat (List.length s).

Definition eqb (a b : str) : bool :=
  if list_eq_dec N.eq_dec a b then true else false.

(** [x in xs] on a list of strings. *)
Definition mem (x : str) (xs : list str) : bool := existsb (eqb x) xs.

(** ** The Unicode tables used by [str.strip], [str.lower], [\s], [\w]

    [isspace] is the complete whitespace list of CPython.  [isalnum] and
    the two case mappings are exact on U+0000..U+00FF and on the two
    code points U+0130 (LATIN CAPITAL LETTER I WITH DOT ABOVE) and U+0307
    (COMBINING DOT ABOVE); any other code point is answered as an
    uncased letter.  General statements about headers quantify over
    ASCII strings only. *)

Definition between (lo hi c : N) : bool := (lo <=? c)%N && (c <=? hi)%N.

Definition is_ascii (c : codepoint) : bool := (c <? 128)%N.

Definition isspace (c : codepoint) : bool :=
  between 9 13 c || between 28 32 c || (c =? 133)%N || (c =? 160)%N
  || (c =? 5760)%N || between 8192 8202 c || (c =? 8232)%N
  || (c =? 8233)%N || (c =? 8239)%N || (c =? 8287)%N || (c =? 12288)%N.

Definition isalnum (c : codepoint) : bool :=
  if (c <? 128)%N then
    between 48 57 c || between 65 90 c || between 97 122 c
  else if (c <? 256)%N then
    (c =? 170)%N || (c =? 178)%N || (c =? 179)%N || (c =? 181)%N
    || (c =? 185)%N || (c =? 186)%N || between 188 190 c
    || between 192 214 c || between 216 246 c || between 248 255 c
  else if (c =? 775)%N then false
  else true.

(** [\w]: alphanumeric or underscore. *)
Definition isword (c : codepoint) : bool := isalnum c || (c =? 95)%N.

(** [\d]: a decimal digit (ASCII part of the table). *)
Definition isdigit (c : codepoint) : bool := between 48 57 c.

(** Lowercase mapping of one code point; U+0130 maps to two. *)
Definition lower_cp (c : codepoint) : list codepoint :=
  if between 65 90 c then [(c + 32)%N]
  else if between 192 214 c || between 216 222 c then [(c + 32)%N]
  else if (c =? 304)%N then [105%N; 775%N]
  else [c].

(** Uppercase mapping; sharp s maps to two letters. *)
Definition upper_cp (c : codepoint) : list codepoint :=
  if between 97 122 c then [(c - 32)%N]
  else if between 224 246 c || between 248 254 c then [(c - 32)%N]
  else if (c =? 223)%N then [83%N; 83%N]
  else if (c =? 255)%N then [376%N]
  else if (c =? 181)%N then [924%N]
  else [c].

Definition lower (s : str) : str := flat_map lower_cp s.
Definition upper (s : str) : str := flat_map upper_cp s.

Fixpoint lstrip (s : str) : str :=
  match s with
  | c :: s' => if isspace c then lstrip s' else s
  | [] => []
  end.

Definition rstrip (s : str) : str := rev (lstrip (rev s)).

(** [s.strip()] *)
Definition strip (s : str) : str := rstrip (lstrip s).

(** [s.startswith(p)] *)
Fixpoint startswith (p s : str) : bool :=
  match p, s with
  | [], _ => true
  | a :: p', b :: s' => (a =? b)%N && startswith p' s'
  | _ :: _, [] => false
  end.

(** [p in s] for strings. *)
Fixpoint contains (p s : str) : bool :=
  startswith p s ||
  match s with
  | [] => false
  | _ :: s' => contains p s'
  end.

(** [s.replace(old, new)] for a non-empty [old]: occurrences are found
    left to right and do not overlap; [skip] counts the characters of
    the current occurrence still to be consumed. *)
Fixpoint replace_from (old new : str) (skip : nat) (s : str) : str :=
  match s with
  | [] => []
  | c :: s' =>
      match skip with
      | S k => replace_from old new k s'
      | O =>
          if startswith old s
          then new ++ replace_from old new (List.length old - 1) s'
          else c :: replace_from old new 0 s'
      end
  end.

Definition replace (old new s : str) : str := replace_from old new 0 s.

(** [str(n)] of an integer. *)
Definition of_Z (z : Z) : str := lit (DecimalString.NilZero.string_of_int (Z.to_int z)).

(** [sep.join(xs)] *)
Fixpoint join (sep : str) (xs : list str) : str :=
  match xs with
  | [] => []
  | [x] => x
  | x :: rest => x ++ sep ++ join sep rest
  end.

End PyStr.

Import PyStr.

(* ===================================================================== *)
(** * Header standardization ([UniversalCleaner._standardize_header]) *)
(* ===================================================================== *)

Module Header.

(** [re.sub(r'[^\w\s]', '', header)] *)
Definition drop_nonword (s : str) : str :=
  filter (fun c => isword c || isspace c) s.

(** [re.sub(r'\s+', '_', header)]: every maximal run of whitespace
    becomes one underscore; [in_run] tells that the previous character
    belonged to the run already replaced. *)
Fixpoint sub_ws (in_run : bool) (s : str) : str :=
  match s with
  | [] => []
  | c :: s' =>
      if isspace c
      then (if in_run then sub_ws true s' else 95%N :: sub_ws true s')
      else c :: sub_ws false s'
  end.

Definition _standardize_header (header : str) : str :=
  let header := strip header in
  let header := drop_nonword header in
  let header := sub_ws false header in
  lower header.



End Header.

Import Header.

(* ===================================================================== *)
(** * Exceptions *)
(* ===================================================================== *)

Inductive exn : Type :=
| ValueError | OverflowError | TypeError | AttributeError | IndexError
| JSONDecodeError | ValidationError.

Inductive result (A : Type) : Type :=
| Ok (a : A)
| Raise (e : exn).
Arguments Ok {A} a.
Arguments Raise {A} e.

Definition bind {A B} (r : result A) (k : A -> result B) : result B :=
  match r with
  | Ok a => k a
  | Raise e => Raise e
  end.

Notation "x <- r ;; k" := (bind r (fun x => k))
  (at level 61, r at next level, right associativity).

(** [for x in xs: acc = step(x, acc)], stopping at the first exception. *)
Fixpoint foldM {A S} (step : A -> S -> result S) (xs : list A) (s : S)
  : result S :=
  match xs with
  | [] => Ok s
  | x :: rest => s' <- step x s ;; foldM step rest s'
  end.

(** [[f(x) for x in xs]], stopping at the first exception. *)
Fixpoint mapM {A B} (f : A -> result B) (xs : list A) : result (list B) :=
  match xs with
  | [] => Ok []
  | x :: rest => y <- f x ;; ys <- mapM f rest ;; Ok (y :: ys)
  end.

(** [try: body  except Exception: handler] *)
Definition try_except {A} (body : result A) (handler : exn -> result A)
  : result A :=
  match body with
  | Ok a => Ok a
  | Raise e => handler e
  end.

(* ===================================================================== *)
(** * Python floats *)
(* ===================================================================== *)

Module PyFloat.

Inductive float : Type :=
| NaN
| Inf (neg : bool)
| Fin (q : Q).

Definition of_Z (z : Z) : float := Fin (inject_Z z).

Definition isnan (f : float) : bool :=
  match f with NaN => true | _ => false end.

Definition Qltb (x y : Q) : bool := negb (Qle_bool y x).

(** [a < b]; every comparison with NaN is false. *)
Definition ltb (a b : float) : bool :=
  match a, b with
  | NaN, _ | _, NaN => false
  | Inf true, Inf true => false
  | Inf true, _ => true
  | _, Inf true => false
  | Inf false, _ => false
  | Fin _, Inf false => true
  | Fin x, Fin y => Qltb x y
  end.

Definition gtb (a b : float) : bool := ltb b a.

Definition abs (f : float) : float :=
  match f with
  | NaN => NaN
  | Inf _ => Inf false
  | Fin q => Fin (Qabs q)
  end.

Definition Qsign_neg (q : Q) : bool := Qltb q 0.

Definition mul (a b : float) : float :=
  match a, b with
  | NaN, _ | _, NaN => NaN
  | Inf s, Inf t => Inf (xorb s t)
  | Inf s, Fin y | Fin y, Inf s =>
      if Qeq_bool y 0 then NaN else Inf (xorb s (Qsign_neg y))
  | Fin x, Fin y => Fin (x * y)%Q
  end.

Definition add (a b : float) : float :=
  match a, b with
  | NaN, _ | _, NaN => NaN
  | Inf s, Inf t => if Bool.eqb s t then Inf s else NaN
  | Inf s, Fin _ | Fin _, Inf s => Inf s
  | Fin x, Fin y => Fin (x + y)%Q
  end.

Definition Qsum (qs : list Q) : Q := fold_right Qplus 0%Q qs.

(** [int(f)]: truncation toward zero. *)
Definition Qtrunc (q : Q) : Z := Z.quot (Qnum q) (Zpos (Qden q)).

Definition to_int (f : float) : result Z :=
  match f with
  | NaN => Raise ValueError
  | Inf _ => Raise OverflowError
  | Fin q => Ok (Qtrunc q)
  end.

(** Nearest integer, ties to the even one (Python's [round]). *)
Definition round_half_even (q : Q) : Z :=
  let f := Qfloor q in
  let r := (q - inject_Z f)%Q in
  if Qltb r (1 # 2)%Q then f
  else if Qltb (1 # 2)%Q r then (f + 1)%Z
  else if Z.even f then f else (f + 1)%Z.

(** [round(q, n)] for [n] decimals. *)
Definition Qround_nd (n : nat) (q : Q) : Q :=
  Qred (round_half_even (q * inject_Z (10 ^ Z.of_nat n))%Q
        # Pos.of_nat (10 ^ n))%Q.

Definition round_nd (n : nat) (f : float) : float :=
  match f with
  | Fin q => Fin (Qround_nd n q)
  | other => other
  end.

(** [max(0, f)]: Python keeps the first argument unless the second is
    strictly greater. *)
Definition max0 (f : float) : float :=
  if gtb f (of_Z 0) then f else of_Z 0.


End PyFloat.

Import PyFloat.

(* ===================================================================== *)
(** * Dates and scalar values *)
(* ===================================================================== *)

Module Calendar.

(** Day number of a proleptic Gregorian date, counted from 1970-01-01. *)
Definition days_from_civil (y m d : Z) : Z :=
  let y' := if (m <=? 2)%Z then (y - 1)%Z else y in
  let era := (y' / 400)%Z in
  let yoe := (y' - era * 400)%Z in
  let mp := if (m >? 2)%Z then (m - 3)%Z else (m + 9)%Z in
  let doy := ((153 * mp + 2) / 5 + d - 1)%Z in
  let doe := (yoe * 365 + yoe / 4 - yoe / 100 + doy)%Z in
  (era * 146097 + doe - 719468)%Z.

(** A [datetime] (or [pd.Timestamp], its subclass): days since
    1970-01-01T00:00, the fractional part being the time of day. *)
Definition datetime := Q.

Definition midnight (day : Z) : datetime := inject_Z day.

(** [t + timedelta(days=n)] *)
Definition add_days (t : datetime) (n : Z) : datetime :=
  Qred (t + inject_Z n)%Q.

(** The calendar day of [t], which is what [str(t)[:10]] prints. *)
Definition day_of (t : datetime) : Z := Qfloor t.

(** [pd.Timestamp('1899-12-30')], [datetime(1899, 12, 30)] *)
Definition excel_epoch : datetime := midnight (days_from_civil 1899 12 30).

End Calendar.

Import Calendar.

(** The scalars a cell of a parsed file or a function argument holds.
    A missing value is the float NaN; pandas' NaT, which only occurs in
    datetime-typed columns, is represented by the same marker. *)
Inductive pyval : Type :=
| VBool (b : bool)
| VInt (z : Z)
| VFloat (f : float)
| VStr (s : str)
| VTime (t : datetime).

(** [pd.isna(v)] *)
Definition isna (v : pyval) : bool :=
  match v with
  | VFloat NaN => true
  | _ => false
  end.

(** [isinstance(v, (int, float))]; [bool] is a subclass of [int]. *)
Definition is_int_or_float (v : pyval) : bool :=
  match v with
  | VBool _ | VInt _ | VFloat _ => true
  | _ => false
  end.

(** The number a numeric value compares as. *)
Definition num (v : pyval) : float :=
  match v with
  | VBool b => of_Z (if b then 1 else 0)
  | VInt z => of_Z z
  | VFloat f => f
  | _ => NaN
  end.

(** [int(v)] on a numeric value. *)
Definition py_int (v : pyval) : result Z :=
  match v with
  | VBool b => Ok (if b then 1 else 0)%Z
  | VInt z => Ok z
  | VFloat f => to_int f
  | _ => Raise TypeError
  end.

(** [20000 < value < 100000] *)
Definition serial_range (v : pyval) : bool :=
  ltb (of_Z 20000) (num v) && ltb (num v) (of_Z 100000).

Module ExcelDate.

(** [UniversalCleaner._convert_excel_date] *)
Definition _convert_excel_date (value : pyval) : pyval :=
  if isna value then value
  else if is_int_or_float value && serial_range value then
    match (n <- py_int value ;; Ok (VTime (add_days excel_epoch n))) with
    | Ok v => v
    | Raise _ => value
    end
  else value.

End ExcelDate.

Module ConvertDate.

Section ConvertDate.

(** [datetime.now()] and [pd.to_datetime(s).to_pydatetime()]. *)
Variable now : datetime.
Variable to_datetime : str -> result datetime.

(** [StatisticalAnalyzer._convert_date] *)
Definition _convert_date (value : pyval) : result datetime :=
  match value with
  | VTime t => Ok t
  | _ =>
      if is_int_or_float value && serial_range value then
        n <- py_int value ;; Ok (add_days excel_epoch n)
      else
        match value with
        | VStr s =>
            match to_datetime s with
            | Ok t => Ok t
            | Raise _ => Ok now
            end
        | _ => Ok now
        end
  end.

End ConvertDate.

End ConvertDate.

(** ** The serial-date rule in the words of the design document *)

(** The value is a number strictly between 20000 and 100000. *)
Definition in_serial_range (v : pyval) : Prop :=
  match v with
  | VBool b => (20000 < inject_Z (if b then 1 else 0) < 100000)%Q
  | VInt z => (20000 < z < 100000)%Z
  | VFloat (Fin q) => (20000 < q)%Q /\ (q < 100000)%Q
  | _ => False
  end.

(** The number of days a serial [v] stands for, fraction included. *)
Definition serial_days (v : pyval) : Q :=
  match num v with
  | Fin q => q
  | _ => 0
  end.

(** The whole days of a serial: its fractional part dropped. *)
Definition whole_days (v : pyval) : Z := Qfloor (serial_days v).

(** "[v] is converted iff [20000 < v < 100000], the date being
    1899-12-30 plus [v] days; any other value is returned unchanged." *)
Definition serial_rule_as_stated (convert : pyval -> pyval) : Prop :=
  forall v,
    (in_serial_range v ->
       exists t, convert v = VTime t /\ (t == excel_epoch + serial_days v)%Q)
    /\ (~ in_serial_range v -> convert v = v).

(** [xs[i]] with Python's negative indices. *)
Definition getitem {A} (xs : list A) (i : Z) : result A :=
  let n := Z.of_nat (List.length xs) in
  let j := if (i <? 0)%Z then (i + n)%Z else i in
  if (j <? 0)%Z then Raise IndexError
  else match nth_error xs (Z.to_nat j) with
       | Some x => Ok x
       | None => Raise IndexError
       end.

(* ===================================================================== *)
(** * [str()] and [float()] of scalars *)
(* ===================================================================== *)

(** What CPython prints for a float that is not NaN and for a datetime,
    and what [float(s)] parses, are taken from the interpreter. *)
Record interpreter : Type := {
  repr_float : float -> str;
  str_datetime : datetime -> str;
  float_of_str : str -> result float
}.

(** [str(v)]; in pandas this is also one cell of [astype(str)], where a
    missing value prints as the three letters [nan]. *)
Definition py_str (py : interpreter) (v : pyval) : str :=
  match v with
  | VBool b => if b then lit "True" else lit "False"
  | VInt z => PyStr.of_Z z
  | VFloat NaN => lit "nan"
  | VFloat f => repr_float py f
  | VStr s => s
  | VTime t => str_datetime py t
  end.

(* ===================================================================== *)
(** * Data frames *)
(* ===================================================================== *)

Module Frame.

(** The storage types pandas gives a parsed column. *)
Inductive dtype : Type :=
| DInt | DFloat | DBool | DObject | DCategory | DDatetime.

Record column : Type := {
  name : str;
  dtype_of : dtype;
  cells : list pyval
}.

(** A frame is the sequence of its columns, all of one length. *)
Definition frame := list column.

Definition columns (df : frame) : list str := List.map name df.

(** [len(df)] *)
Definition nrows (df : frame) : nat :=
  match df with
  | [] => 0
  | c :: _ => List.length (cells c)
  end.

(** Row [i], one cell per column, and [df.to_dict('records')]. *)
Definition row (df : frame) (i : nat) : list pyval :=
  List.map (fun c => nth i (cells c) (VFloat NaN)) df.

Definition records (df : frame) : list (list pyval) :=
  List.map (row df) (seq 0 (nrows df)).

(** [select_dtypes(include=[np.number])], [include=['number']] *)
Definition is_number (d : dtype) : bool :=
  match d with DInt | DFloat => true | _ => false end.

(** [select_dtypes(include=['object'])] *)
Definition is_object (d : dtype) : bool :=
  match d with DObject => true | _ => false end.

(** [select_dtypes(include=['object', 'category'])] *)
Definition is_object_or_category (d : dtype) : bool :=
  match d with DObject | DCategory => true | _ => false end.

(** [pd.api.types.is_datetime64_any_dtype] *)
Definition is_datetime64_any_dtype (d : dtype) : bool :=
  match d with DDatetime => true | _ => false end.

Definition select_dtypes (include : dtype -> bool) (df : frame) : frame :=
  filter (fun c => include (dtype_of c)) df.

(** Keep the cells whose row is marked. *)
Fixpoint select_rows (mask : list bool) (xs : list pyval) : list pyval :=
  match mask, xs with
  | m :: mask', x :: xs' =>
      if m then x :: select_rows mask' xs' else select_rows mask' xs'
  | _, _ => []
  end.

(** [df.dropna(how='all')]: a row goes when every cell of it is missing. *)
Definition all_missing (r : list pyval) : bool := forallb isna r.

Definition dropna_all (df : frame) : frame :=
  let mask := List.map (fun r => negb (all_missing r)) (records df) in
  List.map (fun c => {| name := name c; dtype_of := dtype_of c;
                        cells := select_rows mask (cells c) |}) df.

(** Every column has as many cells as the frame has rows. *)
Definition well_formed (df : frame) : Prop :=
  Forall (fun c => List.length (cells c) = nrows df) df.

(** Two frames with the same column names, in the same order. *)
Definition same_shape (a b : frame) : Prop :=
  Forall2 (fun x y => name x = name y) a b.

(** [df.isna().sum().sum()] *)
Definition null_count (df : frame) : nat :=
  list_sum (List.map (fun c => List.length (filter isna (cells c))) df).

End Frame.

Import Frame.

(* ===================================================================== *)
(** * [DataFrame.corr(method='pearson')] *)
(* ===================================================================== *)

Module Pandas.

(** The rows in which both columns hold a number; [None] when one of
    them is infinite, which makes the coefficient NaN. *)
Fixpoint observations (xs ys : list pyval) : option (list (Q * Q)) :=
  match xs, ys with
  | x :: xs', y :: ys' =>
      match observations xs' ys' with
      | None => None
      | Some rest =>
          if isna x || isna y then Some rest
          else match num x, num y with
               | Fin a, Fin b => Some ((a, b) :: rest)
               | _, _ => None
               end
      end
  | _, _ => Some []
  end.

Definition Qmean (qs : list Q) : Q :=
  (Qsum qs / inject_Z (Z.of_nat (List.length qs)))%Q.

(** The square root to fifteen decimals. *)
Definition Qsqrt15 (q : Q) : Q :=
  Qred (Z.sqrt (Qfloor (q * inject_Z (10 ^ 30))%Q) # 10 ^ 15).

(** One entry of the matrix: undefined without observations or when one
    of the two columns does not vary, the covariance over the geometric
    mean of the two sums of squares otherwise. *)
Definition nancorr (xs ys : list pyval) : float :=
  match observations xs ys with
  | None => NaN
  | Some obs =>
      if (List.length obs <? 1)%nat then NaN
      else
        let mx := Qmean (List.map fst obs) in
        let my := Qmean (List.map snd obs) in
        let ssx := Qsum (List.map (fun p => (fst p - mx) * (fst p - mx))%Q obs) in
        let ssy := Qsum (List.map (fun p => (snd p - my) * (snd p - my))%Q obs) in
        let cov := Qsum (List.map (fun p => (fst p - mx) * (snd p - my))%Q obs) in
        if Qeq_bool (ssx * ssy) 0 then NaN
        else
          let r := Qsqrt15 (cov * cov / (ssx * ssy)) in
          Fin (if Qltb cov 0 then Qred (- r) else r)
  end.

Definition find_column (x : str) (df : frame) : option column :=
  find (fun c => PyStr.eqb (name c) x) df.

(** [df.corr().loc[x, y]] *)
Definition pearson_matrix (df : frame) (x y : str) : float :=
  match find_column x df, find_column y df with
  | Some cx, Some cy => nancorr (cells cx) (cells cy)
  | _, _ => NaN
  end.

End Pandas.

Import Pandas.

(* ===================================================================== *)
(** * Correlation insights ([StatisticalAnalyzer._generate_insight]) *)
(* ===================================================================== *)

Module Insight.

(** A template is a format string with the named fields [{A}], [{B}],
    [{R}] and [{DIR}]. *)
Inductive piece : Type :=
| Text (s : str)
| FieldA | FieldB | FieldR | FieldDIR.

Definition template := list piece.

Definition weak_templates : list template :=
  [ [Text (lit "Minimal linear relationship between "); FieldA;
     Text (lit " and "); FieldB; Text (lit " (r="); FieldR; Text (lit ").")];
    [Text (lit "Analysis suggests "); FieldA; Text (lit " and "); FieldB;
     Text (lit " operate independently (r="); FieldR; Text (lit ").")];
    [Text (lit "No significant correlation found between "); FieldA;
     Text (lit " and "); FieldB; Text (lit " (r="); FieldR; Text (lit ").")];
    [FieldA; Text (lit " does not appear to be a strong driver of "); FieldB;
     Text (lit " (r="); FieldR; Text (lit ").")] ].

Definition strong_templates : list template :=
  [ [Text (lit "Strong "); FieldDIR; Text (lit " relationship between ");
     FieldA; Text (lit " and "); FieldB; Text (lit " (r="); FieldR;
     Text (lit ").")];
    [FieldA; Text (lit " is a significant indicator of "); FieldB;
     Text (lit " (r="); FieldR; Text (lit ").")];
    [Text (lit "Data correlation patterns link "); FieldA;
     Text (lit " closely with "); FieldB; Text (lit " (r="); FieldR;
     Text (lit ").")] ].

Definition moderate_templates : list template :=
  [ [Text (lit "Moderate "); FieldDIR; Text (lit " correlation between ");
     FieldA; Text (lit " and "); FieldB; Text (lit " (r="); FieldR;
     Text (lit ").")] ].

(** [template.format(A=a, B=b, R=r, DIR=dir)] *)
Definition format (t : template) (a b r dir : str) : str :=
  flat_map (fun p => match p with
                     | Text s => s
                     | FieldA => a
                     | FieldB => b
                     | FieldR => r
                     | FieldDIR => dir
                     end) t.

(** Two decimal digits, zero padded. *)
Definition two_digits (k : Z) : str :=
  (if (k <? 10)%Z then lit "0" else []) ++ PyStr.of_Z k.

(** [f"{x:.2f}"] *)
Definition format_2f (x : float) : str :=
  match x with
  | NaN => lit "nan"
  | Inf neg => if neg then lit "-inf" else lit "inf"
  | Fin q =>
      let k := round_half_even (Qabs q * 100)%Q in
      (if Qltb q 0 then lit "-" else [])
      ++ PyStr.of_Z (k / 100) ++ lit "." ++ two_digits (k mod 100)
  end.

(** The bucket of templates for a correlation. *)
Definition templates_for (corr : float) : list template :=
  if gtb (abs corr) (Fin (7 # 10)) then strong_templates
  else if ltb (abs corr) (Fin (3 # 10)) then weak_templates
  else moderate_templates.

Definition _generate_insight (col1 col2 : str) (corr : float) : result str :=
  let templates := templates_for corr in
  scaled <- to_int (mul corr (PyFloat.of_Z 100)) ;;
  let index := ((len col1 + len col2 + scaled)
                mod Z.of_nat (List.length templates))%Z in
  template <- getitem templates index ;;
  let direction :=
    if gtb corr (PyFloat.of_Z 0) then lit "positive" else lit "negative" in
  Ok (format template col1 col2 (format_2f corr) direction).



End Insight.

Import Insight.

(* ===================================================================== *)
(** * Sorting as [list.sort(key=..., reverse=True)] does *)
(* ===================================================================== *)

Section SortDesc.

Variable A : Type.
Variable key : A -> float.

(** Insertion before the first element whose key is not strictly
    greater: elements with equal keys keep their original order. *)
Fixpoint insert_desc (x : A) (l : list A) : list A :=
  match l with
  | [] => [x]
  | y :: l' =>
      if gtb (key y) (key x) then y :: insert_desc x l' else x :: y :: l'
  end.

Definition sort_desc (l : list A) : list A := fold_right insert_desc [] l.

(** [x] comes no later than [y]: finite keys, that of [x] not smaller. *)
Definition key_ge (x y : A) : Prop :=
  exists p q, key x = Fin p /\ key y = Fin q /\ (q <= p)%Q.

Definition finite_key (x : A) : Prop := exists p, key x = Fin p.

End SortDesc.

(* ===================================================================== *)
(** * Pairwise correlations ([StatisticalAnalyzer._calculate_correlations]) *)
(* ===================================================================== *)

Module Correlations.

Record correlation_record : Type := {
  feature_a : str;
  feature_b : str;
  correlation : float;
  insight : str
}.

Definition identifier_markers : list str :=
  [lit "id"; lit "code"; lit "key"; lit "extension"].

(** [any(x in c.lower() for x in ['id', 'code', 'key', 'extension'])] *)
Definition names_identifier (c : str) : bool :=
  existsb (fun x => contains x (lower c)) identifier_markers.

(** The pairs visited by
    [for i, col1 in enumerate(cols): for col2 in cols[i+1:]]. *)
Fixpoint pairs (cols : list str) : list (str * str) :=
  match cols with
  | [] => []
  | col1 :: rest => List.map (pair col1) rest ++ pairs rest
  end.

Section CalculateCorrelations.

(** [df.columns], and the entry [df[cols].corr().loc[a, b]] of the
    Pearson matrix pandas computes (pairwise, so independent of the
    other selected columns). *)
Variable df_columns : list str.
Variable corr_matrix : str -> str -> float.

Definition meaningful (c : str) : bool :=
  negb (names_identifier c) && mem c df_columns.

(** [pd.notna(corr) and abs(corr) > 0.3] *)
Definition significant (corr : float) : bool :=
  negb (isnan corr) && gtb (abs corr) (Fin (3 # 10)).

(** The body of the inner loop, [correlations] being the list built so
    far. *)
Definition visit (p : str * str) (correlations : list correlation_record)
  : result (list correlation_record) :=
  let '(col1, col2) := p in
  let corr := corr_matrix col1 col2 in
  if significant corr then
    text <- _generate_insight col1 col2 corr ;;
    Ok (correlations ++
        [ {| feature_a := col1; feature_b := col2;
             correlation := round_nd 3 corr; insight := text |} ])
  else Ok correlations.

Definition _calculate_correlations (numeric_cols : list str)
  : result (list correlation_record) :=
  let meaningful_cols := filter meaningful numeric_cols in
  if (List.length meaningful_cols <? 2)%nat then Ok []
  else
    correlations <- foldM visit (pairs meaningful_cols) [] ;;
    let correlations :=
      sort_desc (fun x => abs (correlation x)) correlations in
    Ok (firstn 10 correlations).

End CalculateCorrelations.

(** [x] is reported no later than [y]: both correlations are numbers and
    that of [x] is at least as large in absolute value. *)
Definition not_weaker (x y : correlation_record) : Prop :=
  exists p q, correlation x = Fin p /\ correlation y = Fin q
              /\ (Qabs q <= Qabs p)%Q.

(** The record a significant pair is reported with. *)
Definition reported (corr_matrix : str -> str -> float) (p : str * str)
    (x : correlation_record) : Prop :=
  exists r,
    corr_matrix (fst p) (snd p) = Fin r
    /\ (3 # 10 < Qabs r)%Q
    /\ feature_a x = fst p /\ feature_b x = snd p
    /\ correlation x = Fin (Qround_nd 3 r)
    /\ _generate_insight (fst p) (snd p) (Fin r) = Ok (insight x).

End Correlations.

Import Correlations.

(** ** A small frame used in examples

    r(x, z) = -1, r(x, y) = 0.6 and r(y, z) = -0.6; [w] does not vary and
    [uid] is an identifier. *)
Module CorrelationExample.

Definition ints (zs : list Z) : list pyval := List.map VInt zs.

Definition data : frame :=
  [ {| name := lit "x"; dtype_of := DInt; cells := ints [1; 2; 3; 4]%Z |};
    {| name := lit "uid"; dtype_of := DInt; cells := ints [1; 2; 3; 4]%Z |};
    {| name := lit "y"; dtype_of := DInt; cells := ints [2; 1; 4; 3]%Z |};
    {| name := lit "z"; dtype_of := DInt; cells := ints [4; 3; 2; 1]%Z |};
    {| name := lit "w"; dtype_of := DInt; cells := ints [7; 7; 7; 7]%Z |} ].

Definition numeric : list str :=
  [lit "x"; lit "uid"; lit "y"; lit "z"; lit "w"].

End CorrelationExample.

(* ===================================================================== *)
(** * Forecast ([StatisticalAnalyzer.forecast]) *)
(* ===================================================================== *)

Module Forecast.

Inductive trend_label : Type := Upward | Downward | Stable.

(** The ['date'] of a point: the ten characters [str(d)[:10]] of a
    datetime, identified with its calendar day, or a synthetic label. *)
Inductive date_label : Type :=
| IsoDate (day : Z)
| Label (s : str).

Record point : Type := {
  date : date_label;
  value : float;
  is_forecast : bool
}.

Record forecast_result : Type := {
  trend : trend_label;
  slope : float;
  historical_data : list point;
  forecast_data : list point
}.

(** ** numpy and scipy on a column of floats *)

Fixpoint finite_values (ys : list float) : option (list Q) :=
  match ys with
  | [] => Some []
  | Fin q :: rest =>
      match finite_values rest with
      | Some qs => Some (q :: qs)
      | None => None
      end
  | _ :: _ => None
  end.

Definition div_nat (f : float) (n : nat) : float :=
  match f with
  | Fin q => Fin (q / inject_Z (Z.of_nat n))%Q
  | other => other
  end.

(** [np.mean(y)] *)
Definition mean (ys : list float) : float :=
  div_nat (fold_left add ys (PyFloat.of_Z 0)) (List.length ys).

(** The abscissas [np.arange(n)]. *)
Definition arange (n : nat) : list Q :=
  List.map (fun i => inject_Z (Z.of_nat i)) (seq 0 n).

(** [stats.linregress(np.arange(n), y)]: slope and intercept of the
    least-squares line; one non-finite ordinate makes both NaN. *)
Definition linregress (ys : list float) : float * float :=
  match finite_values ys with
  | None => (NaN, NaN)
  | Some qs =>
      let n := inject_Z (Z.of_nat (List.length qs)) in
      let xs := arange (List.length qs) in
      let xmean := (Qsum xs / n)%Q in
      let ymean := (Qsum qs / n)%Q in
      let ssxm := Qsum (List.map (fun x => (x - xmean) * (x - xmean))%Q xs) in
      let ssxym :=
        Qsum (List.map (fun xy => (fst xy - xmean) * (snd xy - ymean))%Q
                (combine xs qs)) in
      let slope := (ssxym / ssxm)%Q in
      let intercept := (ymean - slope * xmean)%Q in
      (Fin slope, Fin intercept)
  end.

Section ForecastSorted.

Variable py : interpreter.

(** One element of [df_sorted[value_col].values.astype(float)]. *)
Definition astype_float (v : pyval) : result float :=
  match v with
  | VBool b => Ok (PyFloat.of_Z (if b then 1 else 0))
  | VInt z => Ok (PyFloat.of_Z z)
  | VFloat f => Ok f
  | VStr s => float_of_str py s
  | VTime _ => Raise TypeError
  end.

Definition classify_trend (slope mean_y : float) : trend_label :=
  if ltb (abs slope) (mul (Fin (1 # 100)) mean_y) then Stable
  else if gtb slope (PyFloat.of_Z 0) then Upward else Downward.

(** The point forecast for month [i], the frame having [n] rows. *)
Definition forecast_point (n : nat) (slope intercept : float)
    (last_date : pyval) (i : nat) : point :=
  let next_x := (Z.of_nat n - 1 + Z.of_nat i)%Z in
  let predicted := add (mul slope (PyFloat.of_Z next_x)) intercept in
  {| date :=
       match last_date with
       | VTime t => IsoDate (day_of (add_days t (30 * Z.of_nat i)))
       | _ => Label (lit "Month +" ++ PyStr.of_Z (Z.of_nat i))
       end;
     value := max0 (round_nd 2 predicted);
     is_forecast := true |}.

Definition historical_point (d : pyval) (y : float) : point :=
  {| date := match d with
             | VTime t => IsoDate (day_of t)
             | _ => Label (py_str py d)
             end;
     value := y;
     is_forecast := false |}.

(** Lines 188-244 of [forecast]: [df_sorted] is the two-column frame
    (date, value) after [dropna], [_convert_date] and [sort_values];
    [None] is the Python [None], also returned when the body raises. *)
Definition forecast_sorted (df_sorted : list (pyval * pyval))
    (months_ahead : nat) : option forecast_result :=
  match
    (if (List.length df_sorted <? 3)%nat then Ok None
     else
       y <- mapM astype_float (List.map snd df_sorted) ;;
       let n := List.length df_sorted in
       let '(slope, intercept) := linregress y in
       let trend := classify_trend slope (mean y) in
       last_date <- getitem (List.map fst df_sorted) (-1) ;;
       let forecast_data :=
         List.map (forecast_point n slope intercept last_date)
                  (seq 1 months_ahead) in
       let historical_data :=
         List.map (fun row => historical_point (fst (fst row)) (snd row))
                  (combine df_sorted y) in
       Ok (Some {| trend := trend;
                   slope := round_nd 2 slope;
                   historical_data := historical_data;
                   forecast_data := forecast_data |}))
  with
  | Ok r => r
  | Raise _ => None
  end.

End ForecastSorted.

(** [months_ahead: int = 6] *)
Definition default_months_ahead : nat := 6.

(** An interpreter for examples without float or date printing. *)
Definition plain_interpreter : interpreter :=
  {| repr_float := fun _ => [];
     str_datetime := fun _ => [];
     float_of_str := fun _ => Raise ValueError |}.

(** The revenue series of the design document: four monthly values. *)
Definition revenue_example : list (pyval * pyval) :=
  [ (VTime (midnight (days_from_civil 2024 1 1)), VInt 100);
    (VTime (midnight (days_from_civil 2024 2 1)), VInt 120);
    (VTime (midnight (days_from_civil 2024 3 1)), VInt 140);
    (VTime (midnight (days_from_civil 2024 4 1)), VInt 160) ].

End Forecast.

Import Forecast.

(* ===================================================================== *)
(** * The cleaner ([services/cleaner.py]) *)
(* ===================================================================== *)

Module Cleaner.

Export ExcelDate Header.

Inductive rule : Type :=
| remove_currency_symbols | convert_percentages | handle_nulls
| trim_whitespace | normalize_names | convert_dates.

(** [DOMAIN_RULES.get(domain, DOMAIN_RULES['general'])] *)
Definition general_rules : list rule := [handle_nulls; trim_whitespace].

Definition domain_rules (domain : str) : list rule :=
  if PyStr.eqb domain (lit "finance") then
    [remove_currency_symbols; convert_percentages; handle_nulls;
     trim_whitespace]
  else if PyStr.eqb domain (lit "hr") then
    [normalize_names; convert_dates; handle_nulls; trim_whitespace]
  else general_rules.

(** ** The two regular expressions of the finance rules *)

(** [$] matches at the end and before a final newline. *)
Definition chomp (s : str) : str :=
  match rev s with
  | 10%N :: r => rev r
  | _ => s
  end.

Definition is_currency_symbol (c : codepoint) : bool :=
  (c =? 36)%N || (c =? 163)%N || (c =? 8364)%N || (c =? 165)%N.

Definition is_nil {A} (l : list A) : bool :=
  match l with [] => true | _ => false end.

(** [re.match(r'^[\$£€¥][\d,\.]+$', s)] *)
Definition currency_match (s : str) : bool :=
  match s with
  | c :: rest =>
      let body := chomp rest in
      is_currency_symbol c && negb (is_nil body)
      && forallb (fun d => isdigit d || (d =? 44)%N || (d =? 46)%N) body
  | [] => false
  end.

Fixpoint skip_digits (s : str) : str :=
  match s with
  | c :: s' => if isdigit c then skip_digits s' else s
  | [] => []
  end.

(** [re.match(r'^\d+\.?\d*%$', s)] *)
Definition percent_match (s : str) : bool :=
  match rev (chomp s) with
  | 37%N :: r =>
      let body := rev r in
      match body with
      | c :: _ =>
          isdigit c &&
          match skip_digits body with
          | [] => true
          | d :: tail => (d =? 46)%N && forallb isdigit tail
          end
      | [] => false
      end
  | _ => false
  end.

(** [str.replace(r'[\$£€¥,]', '', regex=True)] and [str.replace('%', '')] *)
Definition strip_currency (s : str) : str :=
  filter (fun c => negb (is_currency_symbol c || (c =? 44)%N)) s.

Definition strip_percent (s : str) : str :=
  filter (fun c => negb (c =? 37)%N) s.

Section Rules.

Variable py : interpreter.

(** One object column under a finance rule: when some cell matches, the
    whole column is rewritten and cast to float, which raises on a cell
    that is not a number. *)
Definition convert_column (matches : str -> bool) (rewrite : str -> str)
    (scale : float -> float) (tag : str) (c : column)
  : result (column * list str) :=
  if is_object (dtype_of c) then
    let strings := List.map (py_str py) (cells c) in
    if existsb matches strings then
      floats <- mapM (fun s => float_of_str py (rewrite s)) strings ;;
      Ok ({| name := name c; dtype_of := DFloat;
             cells := List.map (fun f => VFloat (scale f)) floats |},
          [tag ++ name c])
    else Ok (c, [])
  else Ok (c, []).

(** [for col in ...: df[col] = ...], the log lines in column order. *)
Fixpoint each_column (f : column -> result (column * list str)) (df : frame)
  : result (frame * list str) :=
  match df with
  | [] => Ok ([], [])
  | c :: rest =>
      r <- f c ;;
      rs <- each_column f rest ;;
      Ok (fst r :: fst rs, snd r ++ snd rs)
  end.

(** [df[col].astype(str).str.strip()] on an object column. *)
Definition trim_column (c : column) : column :=
  if is_object (dtype_of c) then
    {| name := name c; dtype_of := DObject;
       cells := List.map (fun v => VStr (strip (py_str py v))) (cells c) |}
  else c.

(** One turn of the loop over the rules: the frame and the log so far. *)
Definition apply_rule (r : rule) (state : frame * list str)
  : result (frame * list str) :=
  let '(df, logs) := state in
  match r with
  | remove_currency_symbols =>
      out <- each_column
               (convert_column currency_match strip_currency (fun f => f)
                  (lit "[CURRENCY] Converted currency in ")) df ;;
      Ok (fst out, logs ++ snd out)
  | convert_percentages =>
      out <- each_column
               (convert_column percent_match strip_percent
                  (fun f => mul f (Fin (1 # 100)))
                  (lit "[PERCENT] Converted percentages in ")) df ;;
      Ok (fst out, logs ++ snd out)
  | handle_nulls =>
      let n := null_count df in
      if (0 <? n)%nat then
        Ok (df, logs ++ [lit "[NULL] Handled " ++ PyStr.of_Z (Z.of_nat n)
                         ++ lit " null/empty values"])
      else Ok (df, logs)
  | trim_whitespace => Ok (List.map trim_column df, logs)
  | normalize_names | convert_dates => Ok (df, logs)
  end.

(** [UniversalCleaner._apply_cleaning_rules] *)
Definition _apply_cleaning_rules (df : frame) (rules : list rule)
  : result (frame * list str) :=
  out <- foldM apply_rule rules (df, []) ;;
  Ok (fst out,
      snd out ++ [lit "[RULES] Applied "
                  ++ PyStr.of_Z (Z.of_nat (List.length rules))
                  ++ lit " domain-specific cleaning rules"]).

(** [UniversalCleaner._detect_date_columns] *)
Definition date_patterns : list str :=
  [lit "date"; lit "time"; lit "month"; lit "year"; lit "period"].

Definition is_date_column (c : column) : bool :=
  existsb (fun p => contains p (lower (name c))) date_patterns
  || is_datetime64_any_dtype (dtype_of c).

Definition _detect_date_columns (df : frame) : list str :=
  columns (filter is_date_column df).

Record cleaned : Type := {
  headers : list str;
  rows : list (list pyval);
  numeric_columns : list str;
  categorical_columns : list str;
  date_columns : list str;
  row_count : nat;
  column_count : nat;
  cleaning_log : list str;
  dataframe : frame
}.

Definition bullet : str := [8226%N; 32%N].
Definition quote : str := [34%N].

(** [f"[{', '.join(names[:5])}{'...' if len(names) > 5 else ''}]"] *)
Definition preview (names : list str) : str :=
  lit "[" ++ join (lit ", ") (firstn 5 names)
  ++ (if (5 <? List.length names)%nat then lit "..." else [])
  ++ lit "]".

Definition count (n : nat) : str := PyStr.of_Z (Z.of_nat n).

(** [UniversalCleaner.clean], from the frame [df] the parser returned
    for a file of extension [ext]. *)
Definition clean (df : frame) (ext filename domain : str) : result cleaned :=
  let cleaning_log :=
    [bullet ++ lit "Ingested file: " ++ quote ++ filename ++ quote;
     bullet ++ lit "Format detected: " ++ upper ext] in
  let initial_rows := nrows df in
  let cleaning_log :=
    cleaning_log ++ [bullet ++ lit "Initial row count: " ++ count initial_rows]
  in
  let rules := domain_rules domain in
  let cleaning_log :=
    cleaning_log
    ++ [bullet ++ lit "Applied " ++ upper domain ++ lit " domain protocols"]
  in
  out <- _apply_cleaning_rules df rules ;;
  let '(df, rule_logs) := out in
  let cleaning_log := cleaning_log ++ rule_logs in
  let df := dropna_all df in
  let removed_rows := initial_rows - nrows df in
  let cleaning_log :=
    if (0 <? removed_rows)%nat then
      cleaning_log ++ [lit "[CLEAN] Removed " ++ count removed_rows
                       ++ lit " invalid/empty rows"]
    else cleaning_log in
  let numeric_columns := columns (select_dtypes is_number df) in
  let categorical_columns := columns (select_dtypes is_object_or_category df) in
  let date_columns := _detect_date_columns df in
  let cleaning_log :=
    cleaning_log
    ++ [lit "[NUMERIC] Found " ++ count (List.length numeric_columns)
        ++ lit " columns: " ++ preview numeric_columns;
        lit "[CATEGORY] Found " ++ count (List.length categorical_columns)
        ++ lit " columns: " ++ preview categorical_columns] in
  let cleaning_log :=
    if is_nil date_columns then cleaning_log
    else cleaning_log
         ++ [bullet ++ lit "Found " ++ count (List.length date_columns)
             ++ lit " date columns: [" ++ join (lit ", ") date_columns
             ++ lit "]"] in
  let df :=
    List.map (fun c => {| name := _standardize_header (name c);
                          dtype_of := dtype_of c; cells := cells c |}) df in
  let cleaning_log :=
    cleaning_log ++ [bullet ++ lit "Standardized headers to snake_case"] in
  let cleaning_log :=
    cleaning_log
    ++ [bullet ++ lit "Final dataset: " ++ count (nrows df) ++ lit " rows x "
        ++ count (List.length df) ++ lit " columns"] in
  Ok {| headers := columns df;
        rows := records df;
        numeric_columns :=
          List.map _standardize_header
            (filter (fun c => negb (mem c date_columns)) numeric_columns);
        categorical_columns :=
          List.map _standardize_header categorical_columns;
        date_columns := List.map _standardize_header date_columns;
        row_count := nrows df;
        column_count := List.length df;
        cleaning_log := cleaning_log;
        dataframe := df |}.

End Rules.

End Cleaner.

Import Cleaner.

(** ** Frames used in examples *)

Module FrameExample.

(** A file with the columns Name, Score and Order Date whose second
    line is empty: [Name,Score,Order Date / ann,1,2024-01-01 / ,, /
    bob,2,2024-02-01]. *)
Definition people : frame :=
  [ {| name := lit "Name"; dtype_of := DObject;
       cells := [VStr (lit " ann "); VFloat NaN; VStr (lit "bob")] |};
    {| name := lit "Score"; dtype_of := DFloat;
       cells := [VFloat (Fin 1); VFloat NaN; VFloat (Fin 2)] |};
    {| name := lit "Order Date"; dtype_of := DObject;
       cells := [VStr (lit "2024-01-01"); VFloat NaN;
                 VStr (lit "2024-02-01")] |} ].

End FrameExample.

(* ===================================================================== *)
(** * The blueprint schema ([domain_models.py]) *)
(* ===================================================================== *)

Module Blueprint.

Record ChartRecommendation : Type := {
  title : str;
  chart_type : str;
  x_axis_col : str;
  y_axis_col : str;
  group_col : option str;
  reasoning : str
}.

Record DataBlueprint : Type := {
  domain : str;
  primary_grain : str;
  time_grain : option str;
  numeric_columns : list str;
  categorical_columns : list str;
  recommended_charts : list ChartRecommendation;
  summary_insight : str
}.

(** The two [Literal] vocabularies. *)
Definition chart_types : list str :=
  [lit "bar"; lit "line"; lit "area"; lit "pie"; lit "scatter";
   lit "heatmap"; lit "boxplot"; lit "radar"].

Definition domains : list str :=
  [lit "HR"; lit "Sales"; lit "Finance"; lit "Inventory"; lit "General"].

(** A parsed JSON document; an object keeps one value per key. *)
#[warnings="-register-all"]
Inductive json : Type :=
| JNull
| JBool (b : bool)
| JNum (f : float)
| JStr (s : str)
| JArr (items : list json)
| JObj (fields : list (str * json)).

Fixpoint lookup (k : str) (fields : list (str * json)) : option json :=
  match fields with
  | [] => None
  | (k', v) :: rest => if PyStr.eqb k k' then Some v else lookup k rest
  end.

(** ** Validation as pydantic performs it for these two models:
    a required [str] takes a string only, an [Optional[str]] may be
    absent or null, a [List[str]] takes an array of strings, a
    [Literal] one of its values, and unknown keys are ignored. *)

Definition as_str (j : json) : result str :=
  match j with
  | JStr s => Ok s
  | _ => Raise ValidationError
  end.

Definition required_str (k : str) (fields : list (str * json)) : result str :=
  match lookup k fields with
  | Some j => as_str j
  | None => Raise ValidationError
  end.

Definition optional_str (k : str) (fields : list (str * json))
  : result (option str) :=
  match lookup k fields with
  | None | Some JNull => Ok None
  | Some j => s <- as_str j ;; Ok (Some s)
  end.

Definition literal (allowed : list str) (k : str)
    (fields : list (str * json)) : result str :=
  s <- required_str k fields ;;
  if mem s allowed then Ok s else Raise ValidationError.

Definition str_list (k : str) (fields : list (str * json))
  : result (list str) :=
  match lookup k fields with
  | Some (JArr items) => mapM as_str items
  | _ => Raise ValidationError
  end.

Definition validate_chart (j : json) : result ChartRecommendation :=
  match j with
  | JObj fields =>
      t <- required_str (lit "title") fields ;;
      c <- literal chart_types (lit "chart_type") fields ;;
      x <- required_str (lit "x_axis_col") fields ;;
      y <- required_str (lit "y_axis_col") fields ;;
      g <- optional_str (lit "group_col") fields ;;
      r <- required_str (lit "reasoning") fields ;;
      Ok {| title := t; chart_type := c; x_axis_col := x; y_axis_col := y;
            group_col := g; reasoning := r |}
  | _ => Raise ValidationError
  end.

(** [DataBlueprint] built from the keyword arguments [data]: unpacking
    asks for a mapping. *)
Definition validate_blueprint (data : json) : result DataBlueprint :=
  match data with
  | JObj fields =>
      d <- literal domains (lit "domain") fields ;;
      g <- required_str (lit "primary_grain") fields ;;
      t <- optional_str (lit "time_grain") fields ;;
      n <- str_list (lit "numeric_columns") fields ;;
      c <- str_list (lit "categorical_columns") fields ;;
      charts <- match lookup (lit "recommended_charts") fields with
                | Some (JArr items) => mapM validate_chart items
                | _ => Raise ValidationError
                end ;;
      s <- required_str (lit "summary_insight") fields ;;
      Ok {| domain := d; primary_grain := g; time_grain := t;
            numeric_columns := n; categorical_columns := c;
            recommended_charts := charts; summary_insight := s |}
  | _ => Raise TypeError
  end.

End Blueprint.

(* ===================================================================== *)
(** * The recommendation engine ([sop_service.py]) *)
(* ===================================================================== *)

Module SOP.

Import Blueprint.

Definition fence : str := [96%N; 96%N; 96%N].

(** [SOPEngine._get_fallback_blueprint] *)
Definition _get_fallback_blueprint (columns : list str) : DataBlueprint :=
  {| domain := lit "General";
     primary_grain := lit "Unknown";
     time_grain := None;
     numeric_columns := [];
     categorical_columns := [];
     recommended_charts := [];
     summary_insight := lit "AI analysis failed. Using raw data view." |}.

Section Engine.

(** [json.loads] *)
Variable json_loads : str -> result json.

(** [raw_response.replace('```json', '').replace('```', '').strip()] *)
Definition clean_json (raw_response : str) : str :=
  strip (replace fence [] (replace (fence ++ lit "json") [] raw_response)).

(** The body of the [try]; a response that is not a string has no
    [replace]. *)
Definition parse_response (raw_response : option str) : result DataBlueprint :=
  match raw_response with
  | None => Raise AttributeError
  | Some raw =>
      data <- json_loads (clean_json raw) ;;
      validate_blueprint data
  end.

(** Step 4 of [SOPEngine.analyze_dataset_structure], [raw_response]
    being what the collaborator returned for the prompt. *)
Definition analyze_dataset_structure (columns : list str)
    (raw_response : option str) : result DataBlueprint :=
  try_except (parse_response raw_response)
             (fun _ => Ok (_get_fallback_blueprint columns)).

End Engine.

(** A parsed document that fits the schema. *)
Definition sales_document : json :=
  JObj [ (lit "domain", JStr (lit "Sales"));
         (lit "primary_grain", JStr (lit "OrderID"));
         (lit "numeric_columns", JArr [JStr (lit "Amount")]);
         (lit "categorical_columns", JArr [JStr (lit "Region")]);
         (lit "recommended_charts",
          JArr [ JObj [ (lit "title", JStr (lit "Amount by Region"));
                        (lit "chart_type", JStr (lit "bar"));
                        (lit "x_axis_col", JStr (lit "Region"));
                        (lit "y_axis_col", JStr (lit "Amount"));
                        (lit "reasoning", JStr (lit "totals")) ] ]);
         (lit "summary_insight", JStr (lit "Sales by region.")) ].


End SOP.

(* ===================================================================== *)
(** * Chart synthesis ([calculate_chart_data] of [main.py]) *)
(* ===================================================================== *)

Module Charts.

Import Blueprint.

Record heat_cell : Type := {
  heat_x : str;
  heat_y : str;
  heat_value : float
}.

Section MathEngine.

(** [df[cols].corr(method='pearson').loc[x, y]] *)
Variable corr_matrix : str -> str -> float.

(** [0 if pd.isna(val) else val] *)
Definition nan_to_zero (val : float) : float :=
  if isnan val then PyFloat.of_Z 0 else val.

(** The heatmap branch. *)
Definition heatmap_data (df : frame) : list heat_cell :=
  let numerics := select_dtypes is_number df in
  let cols := firstn 6 (columns numerics) in
  if (List.length cols <? 2)%nat then []
  else
    flat_map
      (fun x =>
         List.map
           (fun y =>
              let val := round_nd 2 (corr_matrix x y) in
              {| heat_x := x; heat_y := y; heat_value := nan_to_zero val |})
           cols)
      cols.

(** The other branches (bar, pie, line, area, waterfall, boxplot and
    the empty default) produce rows of another shape. *)
Variable other_row : Type.
Variable aggregate : frame -> ChartRecommendation -> result (list other_row).

Definition calculate_chart_data (df : frame) (req : ChartRecommendation)
  : result (list (heat_cell + other_row)) :=
  if PyStr.eqb (chart_type req) (lit "heatmap")
  then Ok (List.map inl (heatmap_data df))
  else rows <- aggregate df req ;; Ok (List.map inr rows).

End MathEngine.

(** ** An example: the column [a] does not vary. *)
Definition constant_frame : frame :=
  [ {| name := lit "a"; dtype_of := DInt;
       cells := [VInt 5; VInt 5; VInt 5] |};
    {| name := lit "b"; dtype_of := DInt;
       cells := [VInt 1; VInt 2; VInt 3] |} ].

Definition constant_matrix : str -> str -> float :=
  pearson_matrix constant_frame.

Definition heatmap_request : ChartRecommendation :=
  {| title := lit "Correlations"; chart_type := lit "heatmap";
     x_axis_col := lit "b"; y_axis_col := lit "b"; group_col := None;
     reasoning := [] |}.

End Charts.

(* ===================================================================== *)
(** * Domain detection ([services/detector.py]) *)
(* ===================================================================== *)

Module Detector.

(** [DomainDetector.DOMAIN_PATTERNS], in the order of the dictionary. *)
Definition DOMAIN_PATTERNS : list (str * list str) :=
  [ (lit "finance",
     List.map lit
       [ "revenue"; "profit"; "expense"; "budget"; "cost"; "price";
         "amount"; "balance"; "transaction"; "invoice"; "payment";
         "credit"; "debit"; "tax"; "gross"; "net"; "margin" ]%string);
    (lit "hr",
     List.map lit
       [ "employee"; "salary"; "department"; "hire"; "manager";
         "position"; "title"; "role"; "team"; "staff"; "worker";
         "performance"; "review"; "tenure"; "payroll"; "benefits" ]%string);
    (lit "education",
     List.map lit
       [ "student"; "grade"; "course"; "teacher"; "class";
         "subject"; "score"; "exam"; "semester"; "enrollment";
         "gpa"; "attendance"; "curriculum"; "academic" ]%string);
    (lit "biology",
     List.map lit
       [ "gene"; "protein"; "cell"; "species"; "dna"; "rna";
         "sequence"; "mutation"; "organism"; "sample"; "experiment";
         "concentration"; "ph"; "assay"; "culture" ]%string) ].

(** The inner loop [for header in headers: if pattern in header:
    score += 1], from the score reached so far. *)
Definition count_headers (pattern : str) (headers : list str) (score : nat)
  : nat :=
  fold_left
    (fun score header => if contains pattern header then S score else score)
    headers score.

(** The score of one domain: the loop over its patterns. *)
Definition score (patterns headers : list str) : nat :=
  fold_left (fun score pattern => count_headers pattern headers score)
            patterns 0.

(** [max(scores, key=scores.get)] over the keys that follow [best]: a
    later key replaces the best one only when its value is strictly
    larger. *)
Fixpoint max_from (best : str * nat) (rest : list (str * nat)) : str * nat :=
  match rest with
  | [] => best
  | x :: rest' =>
      max_from (if (snd best <? snd x)%nat then x else best) rest'
  end.

(** [DomainDetector.detect], [headers] being [data.get('headers', [])]. *)
Definition detect (headers : list str) : str :=
  let headers := List.map lower headers in
  if is_nil headers then lit "general"
  else
    let scores :=
      List.map (fun dp => (fst dp, score (snd dp) headers)) DOMAIN_PATTERNS in
    match scores with
    | [] => lit "general"
    | first :: rest =>
        let best_domain := max_from first rest in
        if (2 <=? snd best_domain)%nat then fst best_domain
        else lit "general"
    end.

(** [DomainDetector.detect_from_dataframe] *)
Definition detect_from_dataframe (df : frame) : str := detect (columns df).

End Detector.

(* ===================================================================== *)
(** * Reading a workbook ([UniversalCleaner._parse_excel_smart]) *)
(* ===================================================================== *)

Module ExcelParser.

(** [row.notna().sum()] *)
Definition non_empty (row : list pyval) : nat :=
  List.length (filter (fun v => negb (isna v)) row).

(** The loop over [range(min(5, len(raw_df)))], [i] being the index of
    the first of [rows]: the first row with three cells or more stops
    it. *)
Fixpoint scan (i : nat) (rows : list (list pyval)) : option nat :=
  match rows with
  | [] => None
  | row :: rest =>
      if (3 <=? non_empty row)%nat then Some i else scan (S i) rest
  end.

(** The header row found in the sheet read without a header; row 0 when
    the loop ends without a [break]. *)
Definition header_row (raw_rows : list (list pyval)) : nat :=
  match scan 0 (firstn 5 raw_rows) with
  | Some i => i
  | None => 0
  end.

(** [str.contains('Unnamed|__EMPTY')] *)
Definition unnamed (c : str) : bool :=
  contains (lit "Unnamed") c || contains (lit "__EMPTY") c.

Section ParseExcel.

(** [pd.read_excel(file_path, header=h)], and the dtype pandas gives
    the result of [Series.apply]. *)
Variable read_excel : nat -> frame.
Variable infer_dtype : list pyval -> dtype.

(** [df[col] = df[col].apply(self._convert_excel_date)] for a column
    whose name has [date] in it. *)
Definition serials_converted (c : column) : column :=
  if contains (lit "date") (lower (name c)) then
    let converted := List.map _convert_excel_date (cells c) in
    {| name := name c; dtype_of := infer_dtype converted;
       cells := converted |}
  else c.

Definition _parse_excel_smart (raw_rows : list (list pyval)) : frame :=
  let df := read_excel (header_row raw_rows) in
  let df := filter (fun c => negb (unnamed (name c))) df in
  List.map serials_converted df.

End ParseExcel.

(** A sheet whose first row is a title: [Company Budget 2025 / (empty) /
    Item, Date, Cost / rent, 45000, 10]. *)
Definition budget_sheet : list (list pyval) :=
  [ [VStr (lit "Company Budget 2025"); VFloat NaN; VFloat NaN];
    [VFloat NaN; VFloat NaN; VFloat NaN];
    [VStr (lit "Item"); VStr (lit "Date"); VStr (lit "Cost")];
    [VStr (lit "rent"); VInt 45000; VInt 10] ].

End ExcelParser.

(* ===================================================================== *)
(** * The analyzer: models and the columns of a forecast
      ([services/analyzer.py]) *)
(* ===================================================================== *)

Module Analyzer.

Record model : Type := {
  feature : str;
  model_correlation : float;
  model_insight : str;
  model_type : str
}.

(** [StatisticalAnalyzer._build_models] *)
Definition _build_models (correlations : list correlation_record)
  : list model :=
  List.map
    (fun corr =>
       {| feature := feature_a corr ++ lit "<->" ++ feature_b corr;
          model_correlation := correlation corr;
          model_insight := insight corr;
          model_type := lit "correlation" |})
    (firstn 5 correlations).

Definition priority_patterns : list str :=
  List.map lit
    [ "revenue"; "sales"; "amount"; "total"; "value"; "income";
      "salary" ]%string.

(** [if value_col:] on a variable that holds [None] or a string. *)
Definition truthy (value_col : option str) : bool :=
  match value_col with
  | Some (_ :: _) => true
  | _ => false
  end.

(** The inner loop [for col in numeric_cols: if pattern in col.lower():
    value_col = col; break]. *)
Fixpoint first_with (pattern : str) (numeric_cols : list str)
    (value_col : option str) : option str :=
  match numeric_cols with
  | [] => value_col
  | col :: rest =>
      if contains pattern (lower col) then Some col
      else first_with pattern rest value_col
  end.

(** The outer loop over the priority patterns, left as soon as
    [value_col] is set. *)
Fixpoint preferred (patterns numeric_cols : list str)
    (value_col : option str) : option str :=
  match patterns with
  | [] => value_col
  | pattern :: rest =>
      let value_col := first_with pattern numeric_cols value_col in
      if truthy value_col then value_col
      else preferred rest numeric_cols value_col
  end.

(** The pattern occurs in the lowercased name of none of the columns. *)
Definition unmatched (numeric_cols : list str) (pattern : str) : Prop :=
  Forall (fun c => contains pattern (lower c) = false) numeric_cols.

(** Lines 153-178 of [forecast]: the date and the value column the
    forecast is computed from, or [None]. *)
Definition forecast_columns (df_columns date_cols numeric_cols : list str)
  : option (str * str) :=
  match date_cols, numeric_cols with
  | [], _ | _, [] => None
  | date_col :: _, first :: _ =>
      let value_col := preferred priority_patterns numeric_cols None in
      let value_col :=
        if negb (truthy value_col) then Some first else value_col in
      match value_col with
      | Some col =>
          if negb (truthy value_col) || negb (mem date_col df_columns)
             || negb (mem col df_columns)
          then None
          else Some (date_col, col)
      | None => None
      end
  end.

End Analyzer.

(* ===================================================================== *)
(** * Rows of a frame by position *)
(* ===================================================================== *)

Module FrameRows.

(** The positions a boolean mask marks, [i] being the position of its
    first entry. *)
Fixpoint marked_from (i : nat) (mask : list bool) : list nat :=
  match mask with
  | [] => []
  | m :: mask' =>
      if m then i :: marked_from (S i) mask' else marked_from (S i) mask'
  end.

Definition marked (mask : list bool) : list nat := marked_from 0 mask.

(** The entries of a list at the given positions. *)
Definition take {A} (d : A) (positions : list nat) (xs : list A) : list A :=
  List.map (fun i => nth i xs d) positions.

(** [df.iloc[positions]] *)
Definition take_rows (positions : list nat) (df : frame) : frame :=
  List.map (fun c => {| name := name c; dtype_of := dtype_of c;
                        cells := take (VFloat NaN) positions (cells c) |})
           df.

(** Two frames whose columns have, one by one, as many cells. *)
Definition same_lengths (a b : frame) : Prop :=
  Forall2 (fun x y => List.length (cells x) = List.length (cells y)) a b.

End FrameRows.

(* ===================================================================== *)
(** * The alphabet of a standardized header *)
(* ===================================================================== *)

Module HeaderShape.

(** A lowercase ASCII letter, a digit or the underscore. *)
Definition snake (c : codepoint) : bool :=
  between 97 122 c || isdigit c || (c =? 95)%N.

(** An ASCII word character lowercases to characters of the alphabet. *)
Definition lowers_to_snake (c : codepoint) : bool :=
  negb (isword c && negb (isspace c)) || forallb snake (lower_cp c).

End HeaderShape.

(** ** A price list used in examples: one cell is not an amount. *)
Module PriceExample.

Definition prices : frame :=
  [ {| name := lit "Item"; dtype_of := DObject;
       cells := [VStr (lit "rent"); VStr (lit "power")] |};
    {| name := lit "Price"; dtype_of := DObject;
       cells := [VStr (lit "$1,200.50"); VStr (lit "TBD")] |} ].

End PriceExample.

(* ===================================================================== *)
(** * The language-model factory ([llm.py]) *)
(* ===================================================================== *)

Module LLM.

Record LLMFactory : Type := {
  provider : str;
  api_key : option str;
  model_name : str
}.

(** [not value] for a variable that holds [None] or a string. *)
Definition falsy (value : option str) : bool :=
  match value with
  | Some (_ :: _) => false
  | _ => true
  end.

Section Environment.

(** [os.getenv] *)
Variable getenv : str -> option str.

(** [os.getenv(key, default)] *)
Definition getenv_or (key default : str) : str :=
  match getenv key with
  | Some v => v
  | None => default
  end.

(** [LLMFactory.__init__] *)
Definition __init__ : LLMFactory :=
  let provider := lower (getenv_or (lit "LLM_PROVIDER") (lit "mock")) in
  if PyStr.eqb provider (lit "openai") then
    {| provider := provider;
       api_key := getenv (lit "OPENAI_API_KEY");
       model_name := getenv_or (lit "OPENAI_MODEL") (lit "gpt-3.5-turbo") |}
  else if PyStr.eqb provider (lit "claude") then
    {| provider := provider;
       api_key := getenv (lit "ANTHROPIC_API_KEY");
       model_name :=
         getenv_or (lit "CLAUDE_MODEL") (lit "claude-3-opus-20240229") |}
  else if PyStr.eqb provider (lit "gemini") then
    {| provider := provider;
       api_key := getenv (lit "GOOGLE_API_KEY");
       model_name := getenv_or (lit "GEMINI_MODEL") (lit "gemini-pro") |}
  else if PyStr.eqb provider (lit "ollama") then
    {| provider := provider;
       api_key := None;
       model_name := getenv_or (lit "OLLAMA_MODEL") (lit "llama3") |}
  else
    {| provider := provider; api_key := None; model_name := lit "mock" |}.

End Environment.

Definition mock_reply : str :=
  lit "Mock Chat: I see you are asking about data. (Configure a real provider to chat!)".

Definition apology : str :=
  lit "I'm having trouble connecting to my brain right now.".

(** [s.strip(chars)] *)
Fixpoint lstrip_chars (chars s : str) : str :=
  match s with
  | c :: s' => if existsb (N.eqb c) chars then lstrip_chars chars s' else s
  | [] => []
  end.

Definition strip_chars (chars s : str) : str :=
  rev (lstrip_chars chars (rev (lstrip_chars chars s))).

(** [s.split(sep)] for a separator of one character. *)
Fixpoint split (sep : codepoint) (s : str) : list str :=
  match s with
  | [] => [[]]
  | c :: s' =>
      if (c =? sep)%N then [] :: split sep s'
      else match split sep s' with
           | piece :: pieces => (c :: piece) :: pieces
           | [] => [[c]]
           end
  end.

(** [[line.strip('- *').strip() for line in raw_text.split('\n')
      if line.strip()]] *)
Definition bullets (raw_text : str) : list str :=
  List.map (fun line => strip (strip_chars (lit "- *") line))
           (filter (fun line => negb (is_nil (strip line)))
                   (split 10%N raw_text)).

(** The dictionary with the keys [title] and [summary]. *)
Record summary_card : Type := {
  card_title : str;
  card_summary : list str
}.

(** [LLMFactory._error_response] *)
Definition _error_response (error_msg : str) : summary_card :=
  {| card_title := lit "AI Generation Failed";
     card_summary := [lit "Configuration Error"; error_msg] |}.

(** The [stats] argument, with the two keys the prompt reads. *)
Record stats_dict : Type := {
  rowCount : option Z;
  numericColumns : option (list str)
}.

Definition indent : str := lit "        ".

(** [LLMFactory._build_prompt] *)
Definition _build_prompt (filename : str) (stats : stats_dict) (domain : str)
  : str :=
  let rows := match rowCount stats with Some n => n | None => 0%Z end in
  let numerics :=
    match numericColumns stats with Some l => l | None => [] end in
  join [10%N]
    [ [];
      indent ++ lit "You are a Senior Data Analyst.";
      indent ++ lit "CONTEXT:";
      indent ++ lit "- Domain: " ++ domain;
      indent ++ lit "- File: " ++ filename;
      indent ++ lit "- Rows: " ++ PyStr.of_Z rows;
      indent ++ lit "- Key Columns: " ++ join (lit ", ") (firstn 5 numerics);
      [];
      indent ++ lit "TASK:";
      indent ++ lit "Write exactly 3 distinct, professional bullet points summarizing this dataset. ";
      indent ++ lit "Focus on potential insights based on the column names.";
      indent ++ lit "Return ONLY the 3 bullets, nothing else.";
      indent ].

Section Providers.

(** The four clients: the text the provider answers, or the exception
    the call ends with. *)
Variable _chat_openai _chat_claude _chat_gemini _chat_ollama
  : LLMFactory -> str -> result str.

(** [LLMFactory.chat] *)
Definition chat (self : LLMFactory) (prompt : str) : result str :=
  try_except
    (if PyStr.eqb (provider self) (lit "openai") then
       _chat_openai self prompt
     else if PyStr.eqb (provider self) (lit "claude") then
       _chat_claude self prompt
     else if PyStr.eqb (provider self) (lit "gemini") then
       _chat_gemini self prompt
     else if PyStr.eqb (provider self) (lit "ollama") then
       _chat_ollama self prompt
     else Ok mock_reply)
    (fun _ => Ok apology).

(** [LLMFactory.generate_executive_summary]; [chat] returns a string,
    so the test for a dictionary never succeeds. *)
Definition generate_executive_summary (self : LLMFactory) (filename : str)
    (stats : stats_dict) (domain : str) : result summary_card :=
  if negb (mem (provider self) [lit "ollama"; lit "mock"])
     && falsy (api_key self)
  then
    Ok (_error_response
          (lit "Missing API Key for " ++ upper (provider self)
           ++ lit ". Check .env file."))
  else
    let prompt := _build_prompt filename stats domain in
    raw_text <- chat self prompt ;;
    Ok {| card_title :=
            lit "Executive Summary (" ++ upper (provider self) ++ lit ")";
          card_summary := firstn 3 (bullets raw_text) |}.

End Providers.

(** An environment without any of the variables, and one that names a
    provider the factory does not know. *)
Definition empty_env : str -> option str := fun _ => None.

Definition llama_env : str -> option str :=
  fun key => if PyStr.eqb key (lit "LLM_PROVIDER") then Some (lit "Llama")
             else None.

(** Clients that cannot reach their provider. *)
Definition offline : LLMFactory -> str -> result str :=
  fun _ _ => Raise ValueError.

End LLM.

(* ===================================================================== *)
(** * The HTTP handlers and the math engine ([main.py]) *)
(* ===================================================================== *)

Module Api.

Import Blueprint LLM.

(** [s.endswith(suffix)] *)
Definition endswith (suffix s : str) : bool :=
  startswith (rev suffix) (rev s).

(** What a handler raises: a Python exception, or FastAPI's
    [HTTPException] with its status code and detail. *)
Inductive raised : Type :=
| PyError (e : exn)
| HTTPException (status_code : Z) (detail : str).

Inductive outcome (A : Type) : Type :=
| Return (a : A)
| Throw (r : raised).
Arguments Return {A} a.
Arguments Throw {A} r.

Definition lift {A} (r : result A) : outcome A :=
  match r with
  | Ok a => Return a
  | Raise e => Throw (PyError e)
  end.

(** ** [SESSION_STORE]: a dictionary from session ids to frames *)

Definition session_store := list (str * frame).

Fixpoint session_get (session_id : str) (store : session_store)
  : option frame :=
  match store with
  | [] => None
  | (k, df) :: rest =>
      if PyStr.eqb k session_id then Some df else session_get session_id rest
  end.

(** [SESSION_STORE[session_id] = df] *)
Fixpoint session_set (session_id : str) (df : frame) (store : session_store)
  : session_store :=
  match store with
  | [] => [(session_id, df)]
  | (k, old) :: rest =>
      if PyStr.eqb k session_id then (k, df) :: rest
      else (k, old) :: session_set session_id df rest
  end.

(** ** Slices *)

(** A bound of a slice of a sequence of [n] elements: a negative bound
    counts from the end, and every bound is clipped to the sequence. *)
Definition slice_bound (n i : Z) : Z :=
  if (i <? 0)%Z then Z.max 0 (i + n) else Z.min i n.

(** [xs[start:stop]] *)
Definition slice {A} (xs : list A) (start stop : Z) : list A :=
  let n := Z.of_nat (List.length xs) in
  let lo := slice_bound n start in
  let hi := slice_bound n stop in
  firstn (Z.to_nat (hi - lo)) (skipn (Z.to_nat lo) xs).

(** [range(n)[start:stop]]: the positions a slice selects. *)
Definition slice_range (n : nat) (start stop : Z) : list nat :=
  let lo := slice_bound (Z.of_nat n) start in
  let hi := slice_bound (Z.of_nat n) stop in
  seq (Z.to_nat lo) (Nat.min (Z.to_nat (hi - lo)) (n - Z.to_nat lo)).

(** [df.iloc[start:stop]] *)
Definition iloc (df : frame) (start stop : Z) : frame :=
  List.map (fun c => {| name := name c; dtype_of := dtype_of c;
                        cells := slice (cells c) start stop |}) df.

(** [df.head(n)] *)
Definition head (n : Z) (df : frame) : frame := iloc df 0 n.

(** ** The pagination endpoint *)

Record data_page : Type := {
  page : Z;
  limit : Z;
  total_rows : nat;
  data : list (list pyval)
}.

(** [get_data_page] *)
Definition get_data_page (SESSION_STORE : session_store) (session_id : str)
    (page limit : Z) : outcome data_page :=
  match session_get session_id SESSION_STORE with
  | None => Throw (HTTPException 404 (lit "Session expired or not found."))
  | Some df =>
      let start := ((page - 1) * limit)%Z in
      let end_ := (start + limit)%Z in
      let paginated_data := records (iloc df start end_) in
      Return {| page := page; limit := limit; total_rows := nrows df;
                data := paginated_data |}
  end.

(** The rows of a page, none when the session is unknown. *)
Definition page_rows (SESSION_STORE : session_store) (session_id : str)
    (limit : Z) (page : nat) : list (list pyval) :=
  match get_data_page SESSION_STORE session_id (Z.of_nat page) limit with
  | Return r => data r
  | Throw _ => []
  end.

(** ** The loop that executes the recommended charts *)

Record chart (row : Type) : Type := {
  chart_id : str;
  chart_title : str;
  chart_kind : str;
  chart_data : list row;
  chart_insight : str;
  x_key : str;
  y_key : str
}.

Section ExecuteSOP.

Variable row : Type.

(** [calculate_chart_data(df, chart_req)] for the frame at hand. *)
Variable calculate : ChartRecommendation -> result (list row).

(** One turn of the loop: a chart is added when the calculation
    returned rows; an exception is printed and the loop goes on. *)
Definition add_chart (precomputed_charts : list (chart row))
    (chart_req : ChartRecommendation) : list (chart row) :=
  match calculate chart_req with
  | Ok rows =>
      if is_nil rows then precomputed_charts
      else
        precomputed_charts
        ++ [ {| chart_id :=
                  lit "chart_"
                  ++ PyStr.of_Z (Z.of_nat (List.length precomputed_charts));
                chart_title := title chart_req;
                chart_kind := chart_type chart_req;
                chart_data := rows;
                chart_insight := reasoning chart_req;
                x_key := x_axis_col chart_req;
                y_key := y_axis_col chart_req |} ]
  | Raise _ => precomputed_charts
  end.

Definition execute_sop (recommended : list ChartRecommendation)
  : list (chart row) :=
  fold_left add_chart recommended [].

(** The recommendations that give a chart. *)
Definition gives_rows (chart_req : ChartRecommendation) : bool :=
  match calculate chart_req with
  | Ok (_ :: _) => true
  | _ => false
  end.

End ExecuteSOP.

(** ** The floating bars of a waterfall chart *)

Record bar : Type := {
  bar_name : str;
  bar_value : float * float;
  displayValue : float;
  isNegative : bool
}.

Section Waterfall.

Variable py : interpreter.

(** The loop over the rows of [agg], each a category and its sum,
    [cumulative] being the running total. *)
Fixpoint floating_bars (cumulative : float) (agg : list (pyval * float))
  : list bar :=
  match agg with
  | [] => []
  | (category, val) :: rest =>
      let start := cumulative in
      let cumulative := add cumulative val in
      {| bar_name := py_str py category;
         bar_value := (start, cumulative);
         displayValue := val;
         isNegative := ltb val (PyFloat.of_Z 0) |}
      :: floating_bars cumulative rest
  end.

(** Lines 96-111 of [calculate_chart_data]: [sorted_sums] are the sums
    by category in decreasing order, of which six are kept. *)
Definition waterfall_data (sorted_sums : list (pyval * float)) : list bar :=
  floating_bars (PyFloat.of_Z 0) (firstn 6 sorted_sums).

End Waterfall.

(** ** Column types by name ([clean_data_types]) *)

Definition numeric_hints : list str :=
  List.map lit
    [ "salary"; "price"; "cost"; "age"; "rating"; "score"; "amount";
      "profit"; "sales" ]%string.

Definition hints_number (col : str) : bool :=
  existsb (fun x => contains x (lower col)) numeric_hints.

Definition hints_date (col : str) : bool :=
  contains (lit "date") (lower col) || contains (lit "time") (lower col).

(** [.fillna(0)] on the cells of a numeric column. *)
Definition fillna0 (xs : list pyval) : list pyval :=
  List.map (fun v => if isna v then VFloat (Fin 0) else v) xs.

Section CleanDataTypes.

(** [pd.to_numeric(s, errors='coerce')] and
    [pd.to_datetime(s, errors='coerce')]: the dtype and the cells of the
    series they return. *)
Variable to_numeric : column -> result (dtype * list pyval).
Variable to_datetime : column -> result (dtype * list pyval).

(** The body of the loop, for one column. *)
Definition typed_column (c : column) : result column :=
  c <- (if hints_number (name c) then
          r <- to_numeric c ;;
          Ok {| name := name c; dtype_of := fst r;
                cells := fillna0 (snd r) |}
        else Ok c) ;;
  if hints_date (name c) then
    r <- to_datetime c ;;
    Ok {| name := name c; dtype_of := fst r; cells := snd r |}
  else Ok c.

Definition clean_data_types (df : frame) : result frame :=
  mapM typed_column df.

End CleanDataTypes.

(** ** The analysis endpoint *)

Record stats : Type := {
  stats_rowCount : nat;
  stats_columnCount : nat;
  stats_numericColumns : list str;
  stats_categoryColumns : list str
}.

Record analysis (row : Type) : Type := {
  session_id : str;
  filename : str;
  analysis_stats : stats;
  preview_rows : list (list pyval);
  cleaning_log : list str;
  narrative_title : str;
  narrative_summary : list str;
  blueprint : DataBlueprint;
  charts : list (chart row)
}.

Section Handlers.

(** The bytes of an upload and the two readers of pandas. *)
Variable bytes : Type.
Variable read_csv read_excel : bytes -> result frame.

Variable to_numeric : column -> result (dtype * list pyval).
Variable to_datetime : column -> result (dtype * list pyval).

(** The singleton [llm_service] and its clients. *)
Variable llm_service : LLMFactory.
Variable _chat_openai _chat_claude _chat_gemini _chat_ollama
  : LLMFactory -> str -> result str.

(** The prompt [analyze_dataset_structure] builds from the first rows,
    the columns and the dtypes of the frame, and [json.loads]. *)
Variable sop_prompt : frame -> str -> str.
Variable json_loads : str -> result json.

(** [SOPEngine.analyze_dataset_structure]: the prompt is sent, and the
    answer parsed as in step 4. *)
Definition sop_engine (df : frame) (filename : str) : result DataBlueprint :=
  raw_response <-
    chat _chat_openai _chat_claude _chat_gemini _chat_ollama llm_service
         (sop_prompt df filename) ;;
  SOP.analyze_dataset_structure json_loads (columns df) (Some raw_response).

(** The Pearson matrix of a frame and the branches of
    [calculate_chart_data] other than the heatmap. *)
Variable corr : frame -> str -> str -> float.
Variable other_row : Type.
Variable aggregate : frame -> ChartRecommendation -> result (list other_row).

Definition chart_row : Type := (Charts.heat_cell + other_row)%type.

(** [str(e)], and what [JSONResponse(content=...)] renders, which
    raises on a value JSON cannot carry. *)
Variable str_of_exception : raised -> str.
Variable response : Type.
Variable JSONResponse : analysis chart_row -> result response.

(** Lines 154-159: the reader is chosen by the end of the file name. *)
Definition load (file_name : str) (contents : bytes) : outcome frame :=
  if endswith (lit ".csv") file_name then lift (read_csv contents)
  else if endswith (lit ".xls") file_name
          || endswith (lit ".xlsx") file_name
  then lift (read_excel contents)
  else Throw (HTTPException 400 (lit "Unsupported file format")).

Definition processed : str :=
  [9989%N] ++ lit " Processed by Python (Stateful Mode)".

(** The body of the [try] of [analyze_file]: the store it leaves and
    what it returns or raises; [uuid] is [str(uuid.uuid4())]. *)
Definition analyze_body (SESSION_STORE : session_store) (file_name : str)
    (contents : bytes) (uuid : str) : session_store * outcome response :=
  match load file_name contents with
  | Throw r => (SESSION_STORE, Throw r)
  | Return df =>
      let df := dropna_all df in
      match clean_data_types to_numeric to_datetime df with
      | Raise e => (SESSION_STORE, Throw (PyError e))
      | Ok df =>
          match sop_engine df file_name with
          | Raise e => (SESSION_STORE, Throw (PyError e))
          | Ok blueprint =>
              let precomputed_charts :=
                execute_sop
                  (Charts.calculate_chart_data (corr df) aggregate df)
                  (recommended_charts blueprint) in
              let session_id := uuid in
              let SESSION_STORE := session_set session_id df SESSION_STORE in
              let stats :=
                {| stats_rowCount := nrows df;
                   stats_columnCount := List.length (columns df);
                   stats_numericColumns :=
                     columns (select_dtypes is_number df);
                   stats_categoryColumns :=
                     columns (select_dtypes is_object df) |} in
              let preview_rows := records (head 100 df) in
              let content :=
                {| session_id := session_id;
                   filename := file_name;
                   analysis_stats := stats;
                   preview_rows := preview_rows;
                   cleaning_log :=
                     [ processed;
                       lit "Rows: " ++ PyStr.of_Z (Z.of_nat (nrows df));
                       lit "Domain: " ++ domain blueprint ];
                   narrative_title := domain blueprint ++ lit " Analysis";
                   narrative_summary := [summary_insight blueprint];
                   blueprint := blueprint;
                   charts := precomputed_charts |} in
              (SESSION_STORE, lift (JSONResponse content))
          end
      end
  end.

(** [analyze_file]: whatever the body raises is answered as status
    500. *)
Definition analyze_file (SESSION_STORE : session_store) (file_name : str)
    (contents : bytes) (uuid : str) : session_store * outcome response :=
  match analyze_body SESSION_STORE file_name contents uuid with
  | (store, Return r) => (store, Return r)
  | (store, Throw e) =>
      (store, Throw (HTTPException 500 (str_of_exception e)))
  end.

(** ** The chat endpoint *)

(** [df.describe(include='all').to_string()] *)
Variable describe : frame -> result str.

Definition margin : str := lit "    ".

Definition chat_prompt (headers stats_context message : str) : str :=
  join [10%N]
    [ [];
      margin ++ lit "You are a Data Analyst Assistant. ";
      margin ++ lit "A user is asking a question about a dataset they just uploaded.";
      margin;
      margin ++ lit "DATA METADATA:";
      margin ++ lit "- Columns: " ++ headers;
      margin ++ lit "- Statistical Summary:";
      margin ++ stats_context;
      margin;
      margin ++ lit "USER QUESTION: " ++ [34%N] ++ message ++ [34%N];
      margin;
      margin ++ lit "INSTRUCTIONS:";
      margin ++ lit "- Answer based ONLY on the summary stats above.";
      margin ++ lit "- If the user asks for specific row details you can't see, explain that you only see the summary statistics.";
      margin ++ lit "- Be concise, professional, and helpful.";
      margin ].

(** [chat_with_data]: the statistics are computed outside the [try]. *)
Definition chat_with_data (SESSION_STORE : session_store)
    (session_id message : str) : outcome str :=
  match session_get session_id SESSION_STORE with
  | None =>
      Throw (HTTPException 404 (lit "Session expired. Please re-upload."))
  | Some df =>
      match describe df with
      | Raise e => Throw (PyError e)
      | Ok stats_context =>
          let headers := join (lit ", ") (columns df) in
          let prompt := chat_prompt headers stats_context message in
          match chat _chat_openai _chat_claude _chat_gemini _chat_ollama
                     llm_service prompt with
          | Ok response_text => Return response_text
          | Raise _ =>
              Throw (HTTPException 500 (lit "AI processing failed."))
          end
      end
  end.

End Handlers.

(** ** Examples *)

(** Seven rows in one column. *)
Definition seven : frame :=
  [ {| name := lit "n"; dtype_of := DInt;
       cells := List.map VInt [1; 2; 3; 4; 5; 6; 7]%Z |} ].

Definition one_session : session_store := [(lit "s1", seven)].

(** A rating column with a text and a missing cell, and coercions that
    turn a text into a missing value and leave the other cells. *)
Definition rated : frame :=
  [ {| name := lit "Rating"; dtype_of := DObject;
       cells := [VInt 4; VStr (lit "n/a"); VFloat NaN] |} ].

Definition text_to_nan (c : column) : result (dtype * list pyval) :=
  Ok (DFloat,
      List.map (fun v => match v with VStr _ => VFloat NaN | other => other end)
               (cells c)).

Definition as_datetime (c : column) : result (dtype * list pyval) :=
  Ok (DDatetime, cells c).

(** The endpoint on a development machine: every upload reads as the
    frame [seven], the provider is the mock one, and the response is
    its content. *)
Definition demo_analyze_file
  : session_store -> str -> unit -> str
    -> session_store * outcome (analysis (Charts.heat_cell + unit)) :=
  analyze_file (fun _ : unit => Ok seven) (fun _ : unit => Ok seven)
    text_to_nan as_datetime (LLM.__init__ LLM.empty_env)
    LLM.offline LLM.offline LLM.offline LLM.offline
    (fun _ _ => []) (fun _ => Raise JSONDecodeError)
    pearson_matrix (fun _ _ => Ok ([] : list unit))
    (fun _ => []) (fun content => Ok content).

End Api.

(* ===================================================================== *)
(** * Configuration and the in-memory database
      ([database/config.py], [database/client.py]) *)
(* ===================================================================== *)

Module Database.

Import Blueprint.

Record SupabaseConfig : Type := {
  url : str;
  anon_key : str;
  service_key : option str
}.

Section Environment.

(** [os.getenv] *)
Variable getenv : str -> option str.

(** [SupabaseConfig.from_env] *)
Definition from_env : result SupabaseConfig :=
  let url := getenv (lit "SUPABASE_URL") in
  let anon_key := getenv (lit "SUPABASE_KEY") in
  let service_key := getenv (lit "SUPABASE_SERVICE_KEY") in
  match url, anon_key with
  | Some (c :: u), Some (d :: k) =>
      Ok {| url := c :: u; anon_key := d :: k; service_key := service_key |}
  | _, _ => Raise ValueError
  end.

(** [SupabaseConfig.mock] *)
Definition mock : SupabaseConfig :=
  {| url := lit "http://localhost:54321";
     anon_key := lit "mock-anon-key";
     service_key := Some (lit "mock-service-key") |}.

(** [get_config]: only a [ValueError] is caught. *)
Definition get_config : result SupabaseConfig :=
  try_except from_env
    (fun e => match e with
              | ValueError => Ok mock
              | other => Raise other
              end).

End Environment.

(** ** The four tables *)

Module Org.
Record t : Type := {
  id : str;
  name : str;
  slug : str;
  plan : str;
  row_quota : Z;
  rows_used : Z;
  created_at : str
}.
End Org.

Module User.
Record t : Type := {
  id : str;
  org_id : str;
  email : str;
  full_name : str;
  role : str;
  created_at : str
}.
End User.

Module Report.
Record t : Type := {
  id : str;
  user_id : str;
  org_id : str;
  title : str;
  domain : str;
  file_names : list str;
  row_count : Z;
  column_count : Z;
  summary : str;
  charts_json : option json;
  stats_json : option json;
  forecast_json : option json;
  cleaning_log : list str;
  created_at : str
}.
End Report.

(** An audit entry; the logger may pass [None] for the user and the
    organization. *)
Module Log.
Record t : Type := {
  id : Z;
  user_id : option str;
  org_id : option str;
  action : str;
  resource_type : str;
  resource_id : option str;
  details : option json;
  ip_address : option str;
  user_agent : option str;
  created_at : str
}.
End Log.

(** [SupabaseClient]: the configuration, the connection flag and the
    lists of [_mock_data]. *)
Record SupabaseClient : Type := {
  config : SupabaseConfig;
  _connected : bool;
  organizations : list Org.t;
  users : list User.t;
  reports : list Report.t;
  audit_logs : list Log.t
}.

(** The identifiers [str(uuid.uuid4())] and the times
    [datetime.now().isoformat()] a call draws are arguments of its
    model. *)

(** [SupabaseClient._setup_mock_data] *)
Definition _setup_mock_data (org_uuid org_now user_uuid user_now : str)
    (self : SupabaseClient) : SupabaseClient :=
  let default_org :=
    {| Org.id := org_uuid; Org.name := lit "Demo Organization";
       Org.slug := lit "demo"; Org.plan := lit "pro";
       Org.row_quota := 100000; Org.rows_used := 0;
       Org.created_at := org_now |} in
  let default_user :=
    {| User.id := user_uuid; User.org_id := Org.id default_org;
       User.email := lit "demo@integralq.ai";
       User.full_name := lit "Demo User"; User.role := lit "admin";
       User.created_at := user_now |} in
  {| config := config self; _connected := _connected self;
     organizations := organizations self ++ [default_org];
     users := users self ++ [default_user];
     reports := reports self; audit_logs := audit_logs self |}.

(** [SupabaseClient._connect]: a local URL selects the mock database;
    otherwise the client only records that it is connected. *)
Definition _connect (org_uuid org_now user_uuid user_now : str)
    (self : SupabaseClient) : SupabaseClient :=
  if startswith (lit "http://localhost") (url (config self)) then
    _setup_mock_data org_uuid org_now user_uuid user_now
      {| config := config self; _connected := true;
         organizations := organizations self; users := users self;
         reports := reports self; audit_logs := audit_logs self |}
  else
    {| config := config self; _connected := true;
       organizations := organizations self; users := users self;
       reports := reports self; audit_logs := audit_logs self |}.

Section Client.

Variable getenv : str -> option str.

(** [SupabaseClient.__init__]: [config or get_config()], empty tables,
    then [_connect]. *)
Definition __init__ (config : option SupabaseConfig)
    (org_uuid org_now user_uuid user_now : str) : result SupabaseClient :=
  config <- match config with
            | Some c => Ok c
            | None => get_config getenv
            end ;;
  Ok (_connect org_uuid org_now user_uuid user_now
        {| config := config; _connected := false; organizations := [];
           users := []; reports := []; audit_logs := [] |}).

(** [get_db] when no client exists yet. *)
Definition get_db (org_uuid org_now user_uuid user_now : str)
  : result SupabaseClient :=
  __init__ None org_uuid org_now user_uuid user_now.

End Client.

(** The first element of a list that passes a test: the loop
    [for x in xs: if test(x): return x] ending in [return None]. *)
Definition first_where {A} (test : A -> bool) (xs : list A) : option A :=
  find test xs.

(** [get_organization], [get_user], [get_user_by_email], [get_report] *)
Definition get_organization (self : SupabaseClient) (org_id : str)
  : option Org.t :=
  first_where (fun org => PyStr.eqb (Org.id org) org_id) (organizations self).

Definition get_user (self : SupabaseClient) (user_id : str)
  : option User.t :=
  first_where (fun user => PyStr.eqb (User.id user) user_id) (users self).

Definition get_user_by_email (self : SupabaseClient) (email : str)
  : option User.t :=
  first_where (fun user => PyStr.eqb (User.email user) email) (users self).

Definition get_report (self : SupabaseClient) (report_id : str)
  : option Report.t :=
  first_where (fun report => PyStr.eqb (Report.id report) report_id)
              (reports self).

(** [create_organization] *)
Definition create_organization (uuid now : str) (self : SupabaseClient)
    (name slug plan : str) : SupabaseClient * Org.t :=
  let org :=
    {| Org.id := uuid; Org.name := name; Org.slug := slug;
       Org.plan := plan;
       Org.row_quota :=
         if PyStr.eqb plan (lit "free") then 10000 else 100000;
       Org.rows_used := 0; Org.created_at := now |} in
  ({| config := config self; _connected := _connected self;
      organizations := organizations self ++ [org];
      users := users self; reports := reports self;
      audit_logs := audit_logs self |}, org).

(** [create_user] *)
Definition create_user (uuid now : str) (self : SupabaseClient)
    (email org_id full_name role : str) : SupabaseClient * User.t :=
  let user :=
    {| User.id := uuid; User.org_id := org_id; User.email := email;
       User.full_name := full_name; User.role := role;
       User.created_at := now |} in
  ({| config := config self; _connected := _connected self;
      organizations := organizations self;
      users := users self ++ [user]; reports := reports self;
      audit_logs := audit_logs self |}, user).

(** The organization [org] after [org['rows_used'] = rows_used]. *)
Definition with_rows_used (org : Org.t) (rows_used : Z) : Org.t :=
  {| Org.id := Org.id org; Org.name := Org.name org;
     Org.slug := Org.slug org; Org.plan := Org.plan org;
     Org.row_quota := Org.row_quota org; Org.rows_used := rows_used;
     Org.created_at := Org.created_at org |}.

(** [org['rows_used'] = org.get('rows_used', 0) + row_count] on the
    organization [get_organization] returns: the first one with the
    id, updated in place. *)
Fixpoint add_rows_used (org_id : str) (row_count : Z) (orgs : list Org.t)
  : list Org.t :=
  match orgs with
  | [] => []
  | org :: rest =>
      if PyStr.eqb (Org.id org) org_id then
        with_rows_used org (Org.rows_used org + row_count)%Z :: rest
      else org :: add_rows_used org_id row_count rest
  end.

(** [save_report]; a [cleaning_log] that is [None] or empty is stored
    as the empty list. *)
Definition save_report (uuid now : str) (self : SupabaseClient)
    (user_id org_id title domain : str) (file_names : list str)
    (row_count column_count : Z) (summary : str)
    (charts_json stats_json forecast_json : option json)
    (cleaning_log : option (list str)) : SupabaseClient * Report.t :=
  let report :=
    {| Report.id := uuid; Report.user_id := user_id;
       Report.org_id := org_id; Report.title := title;
       Report.domain := domain; Report.file_names := file_names;
       Report.row_count := row_count;
       Report.column_count := column_count; Report.summary := summary;
       Report.charts_json := charts_json;
       Report.stats_json := stats_json;
       Report.forecast_json := forecast_json;
       Report.cleaning_log :=
         match cleaning_log with Some l => l | None => [] end;
       Report.created_at := now |} in
  ({| config := config self; _connected := _connected self;
      organizations := add_rows_used org_id row_count (organizations self);
      users := users self; reports := reports self ++ [report];
      audit_logs := audit_logs self |}, report).

(** ** Ordering by time: [sorted(xs, key=..., reverse=True)[:limit]] *)

(** [a < b] on strings: by code points, a proper prefix first. *)
Fixpoint str_ltb (a b : str) : bool :=
  match a, b with
  | _, [] => false
  | [], _ :: _ => true
  | x :: a', y :: b' => (x <? y)%N || ((x =? y)%N && str_ltb a' b')
  end.

Section Newest.

Variable A : Type.
Variable key : A -> str.

(** Stable insertion: before the first element whose key is not
    strictly greater. *)
Fixpoint insert_newest (x : A) (l : list A) : list A :=
  match l with
  | [] => [x]
  | y :: l' =>
      if str_ltb (key x) (key y) then y :: insert_newest x l'
      else x :: y :: l'
  end.

Definition sorted_newest (l : list A) : list A :=
  fold_right insert_newest [] l.

(** [x] is not older than [y]. *)
Definition not_older (x y : A) : Prop := str_ltb (key x) (key y) = false.

End Newest.

(** [xs[:limit]] *)
Definition up_to {A} (limit : Z) (xs : list A) : list A :=
  Api.slice xs 0 limit.

(** [get_reports] *)
Definition get_reports (self : SupabaseClient) (org_id : str) (limit : Z)
  : list Report.t :=
  let org_reports :=
    filter (fun r => PyStr.eqb (Report.org_id r) org_id) (reports self) in
  up_to limit (sorted_newest Report.created_at org_reports).

(** [log_action] *)
Definition log_action (now : str) (self : SupabaseClient)
    (user_id org_id : option str) (action resource_type : str)
    (resource_id : option str) (details : option json)
    (ip_address user_agent : option str) : SupabaseClient * Log.t :=
  let log_entry :=
    {| Log.id := (Z.of_nat (List.length (audit_logs self)) + 1)%Z;
       Log.user_id := user_id; Log.org_id := org_id;
       Log.action := action; Log.resource_type := resource_type;
       Log.resource_id := resource_id; Log.details := details;
       Log.ip_address := ip_address; Log.user_agent := user_agent;
       Log.created_at := now |} in
  ({| config := config self; _connected := _connected self;
      organizations := organizations self; users := users self;
      reports := reports self;
      audit_logs := audit_logs self ++ [log_entry] |}, log_entry).

(** [l['org_id'] == org_id] for an entry whose organization may be
    [None]. *)
Definition of_org (org_id : str) (l : Log.t) : bool :=
  match Log.org_id l with
  | Some o => PyStr.eqb o org_id
  | None => false
  end.

(** [if action:] with the filter that follows: [None] and the empty
    string select everything. *)
Definition passes (wanted : option str) (actual : str) : bool :=
  match wanted with
  | Some (c :: w) => PyStr.eqb actual (c :: w)
  | _ => true
  end.

(** [get_audit_logs] *)
Definition get_audit_logs (self : SupabaseClient) (org_id : str)
    (limit : Z) (action resource_type : option str) : list Log.t :=
  let logs := filter (of_org org_id) (audit_logs self) in
  let logs := filter (fun l => passes action (Log.action l)) logs in
  let logs :=
    filter (fun l => passes resource_type (Log.resource_type l)) logs in
  up_to limit (sorted_newest Log.created_at logs).

(** ** Examples *)

Definition no_env : str -> option str := fun _ => None.

(** The client of a development machine. *)
Definition demo_client : SupabaseClient :=
  _connect (lit "org-1") (lit "2025-01-01T09:00:00")
           (lit "user-1") (lit "2025-01-01T09:00:00")
    {| config := mock; _connected := false; organizations := [];
       users := []; reports := []; audit_logs := [] |}.

End Database.

(* ===================================================================== *)
(** * The audit logger ([services/audit.py]) *)
(* ===================================================================== *)

Module Audit.

Import Blueprint Database.

Definition ACTION_UPLOAD : str := lit "upload".
Definition ACTION_ANALYZE : str := lit "analyze".
Definition ACTION_EXPORT_PDF : str := lit "export_pdf".
Definition RESOURCE_FILE : str := lit "file".
Definition RESOURCE_REPORT : str := lit "report".

(** [AuditLogger.log] on the client [db]: an action without a user or
    an organization is attributed to the first ones of the tables. *)
Definition log (now : str) (db : SupabaseClient) (action resource_type : str)
    (user_id org_id resource_id : option str) (details : option json)
    (ip_address user_agent : option str) : SupabaseClient * Log.t :=
  let user_id :=
    if LLM.falsy user_id then
      match users db with
      | first :: _ => Some (User.id first)
      | [] => user_id
      end
    else user_id in
  let org_id :=
    if LLM.falsy org_id then
      match organizations db with
      | first :: _ => Some (Org.id first)
      | [] => org_id
      end
    else org_id in
  log_action now db user_id org_id action resource_type resource_id details
             ip_address user_agent.

(** [log_file_upload], [log_analysis], [log_pdf_export]; [stamp] is the
    time written into the details. *)
Definition log_file_upload (stamp now : str) (db : SupabaseClient)
    (filename : str) (file_size : Z) (ip_address user_agent : option str)
  : SupabaseClient * Log.t :=
  log now db ACTION_UPLOAD RESOURCE_FILE None None None
      (Some (JObj [ (lit "filename", JStr filename);
                    (lit "size_bytes", JNum (PyFloat.of_Z file_size));
                    (lit "timestamp", JStr stamp) ]))
      ip_address user_agent.

Definition log_analysis (stamp now : str) (db : SupabaseClient)
    (file_names : list str) (domain : str) (row_count : Z)
    (ip_address : option str) : SupabaseClient * Log.t :=
  log now db ACTION_ANALYZE RESOURCE_REPORT None None None
      (Some (JObj [ (lit "files", JArr (List.map JStr file_names));
                    (lit "domain", JStr domain);
                    (lit "row_count", JNum (PyFloat.of_Z row_count));
                    (lit "timestamp", JStr stamp) ]))
      ip_address None.

Definition log_pdf_export (stamp now : str) (db : SupabaseClient)
    (report_id : str) (ip_address : option str) : SupabaseClient * Log.t :=
  log now db ACTION_EXPORT_PDF RESOURCE_REPORT None None (Some report_id)
      (Some (JObj [ (lit "timestamp", JStr stamp) ]))
      ip_address None.

(** [AuditLogger.get_logs] *)
Definition get_logs (db : SupabaseClient) (limit : Z)
    (action resource_type : option str) : list Log.t :=
  match organizations db with
  | first :: _ => get_audit_logs db (Org.id first) limit action resource_type
  | [] => []
  end.

(** ** A history of calls on one client *)

Inductive call : Type :=
| CreateOrganization (uuid now name slug plan : str)
| CreateUser (uuid now email org_id full_name role : str)
| SaveReport (uuid now user_id org_id title domain : str)
    (file_names : list str) (row_count column_count : Z) (summary : str)
    (cleaning_log : option (list str))
| LogAction (now : str) (user_id org_id : option str)
    (action resource_type : str) (resource_id : option str)
| AuditLog (now action resource_type : str)
    (user_id org_id resource_id : option str)
| AuditUpload (stamp now filename : str) (file_size : Z)
| AuditAnalysis (stamp now : str) (file_names : list str) (domain : str)
    (row_count : Z)
| AuditExport (stamp now report_id : str).

Definition perform (db : SupabaseClient) (c : call) : SupabaseClient :=
  match c with
  | CreateOrganization uuid now name slug plan =>
      fst (create_organization uuid now db name slug plan)
  | CreateUser uuid now email org_id full_name role =>
      fst (create_user uuid now db email org_id full_name role)
  | SaveReport uuid now user_id org_id title domain file_names row_count
               column_count summary cleaning_log =>
      fst (save_report uuid now db user_id org_id title domain file_names
             row_count column_count summary None None None cleaning_log)
  | LogAction now user_id org_id action resource_type resource_id =>
      fst (log_action now db user_id org_id action resource_type
             resource_id None None None)
  | AuditLog now action resource_type user_id org_id resource_id =>
      fst (log now db action resource_type user_id org_id resource_id
             None None None)
  | AuditUpload stamp now filename file_size =>
      fst (log_file_upload stamp now db filename file_size None None)
  | AuditAnalysis stamp now file_names domain row_count =>
      fst (log_analysis stamp now db file_names domain row_count None)
  | AuditExport stamp now report_id =>
      fst (log_pdf_export stamp now db report_id None)
  end.

Definition history (db : SupabaseClient) (calls : list call)
  : SupabaseClient :=
  fold_left perform calls db.

(** One upload and one export on the development client. *)
Definition demo_calls : list call :=
  [ AuditUpload (lit "2025-01-02T10:00:00") (lit "2025-01-02T10:00:01")
                (lit "sales.csv") 2048;
    AuditExport (lit "2025-01-02T10:05:00") (lit "2025-01-02T10:05:01")
                (lit "report-1") ].

End Audit.

(* ===================================================================== *)
(** * Properties *)
(* ===================================================================== *)

Unset Implicit Arguments.

Module PyStrFacts.

Lemma eqb_eq a b : PyStr.eqb a b = true <-> a = b.
Proof.
  unfold PyStr.eqb. destruct (list_eq_dec N.eq_dec a b); split; congruence.
Qed.

Lemma mem_In x xs : mem x xs = true <-> In x xs.
Proof.
  unfold mem. rewrite existsb_exists. split.
  - intros [y [Hy He]]. apply eqb_eq in He. now subst.
  - intros H. exists x. split; [assumption | now apply eqb_eq].
Qed.

End PyStrFacts.

(* --------------------------------------------------------------------- *)
(** ** Header standardization *)
(* --------------------------------------------------------------------- *)

Module HeaderFacts.








Section Preserved.

(** A property of characters that the underscore has. *)
Variable P : codepoint -> Prop.
Hypothesis P_underscore : P 95%N.

Lemma lstrip_Forall s : Forall P s -> Forall P (lstrip s).
Proof.
  induction 1 as [| c s Hc Hs IH]; simpl; [constructor |].
  destruct (isspace c); [assumption | now constructor].
Qed.

Lemma strip_Forall s : Forall P s -> Forall P (strip s).
Proof.
  intros H. unfold strip, rstrip.
  apply Forall_rev, lstrip_Forall, Forall_rev, lstrip_Forall, H.
Qed.

Lemma drop_nonword_Forall s : Forall P s -> Forall P (drop_nonword s).
Proof.
  intros H. unfold drop_nonword. rewrite Forall_forall in *.
  intros c Hc. apply filter_In in Hc. now apply H.
Qed.

Lemma sub_ws_Forall s : Forall P s -> forall b, Forall P (sub_ws b s).
Proof.
  induction 1 as [| c s Hc Hs IH]; intros b; simpl; [constructor |].
  destruct (isspace c); [destruct b |]; auto.
Qed.

End Preserved.

(** After the two substitutions only non-space word characters remain. *)
Lemma sub_ws_word s :
  forall b, Forall (fun c => isword c = true /\ isspace c = false)
                   (sub_ws b (drop_nonword s)).
Proof.
  unfold drop_nonword.
  induction s as [| c s IH]; intros b; simpl; [constructor |].
  destruct (isword c) eqn:Hw, (isspace c) eqn:Hs; simpl;
    rewrite ?Hs; try apply IH.
  - destruct b; [apply IH |].
    apply Forall_cons; [split; reflexivity | apply IH].
  - apply Forall_cons; [now split | apply IH].
  - destruct b; [apply IH |].
    apply Forall_cons; [split; reflexivity | apply IH].
Qed.








End HeaderFacts.

(* --------------------------------------------------------------------- *)
(** ** Rationals and floats *)
(* --------------------------------------------------------------------- *)

Module FloatFacts.

Lemma Qltb_lt x y : Qltb x y = true <-> (x < y)%Q.
Proof.
  unfold Qltb. rewrite negb_true_iff. split.
  - intros H. apply Qnot_le_lt. intros Hle.
    apply Qle_bool_iff in Hle. congruence.
  - intros H. destruct (Qle_bool y x) eqn:E; [| reflexivity].
    apply Qle_bool_iff in E. exfalso. now apply (Qlt_not_le x y).
Qed.

Lemma Qltb_ge x y : Qltb x y = false <-> (y <= x)%Q.
Proof.
  unfold Qltb. rewrite negb_false_iff. apply Qle_bool_iff.
Qed.

Lemma Qltb_Z a b : Qltb (inject_Z a) (inject_Z b) = (a <? b)%Z.
Proof.
  destruct (a <? b)%Z eqn:E.
  - apply Qltb_lt. rewrite <- Zlt_Qlt. now apply Z.ltb_lt.
  - apply Qltb_ge. rewrite <- Zle_Qle. now apply Z.ltb_ge.
Qed.

(** Truncation is the floor on non-negative rationals. *)
Lemma Qtrunc_floor q : (0 <= q)%Q -> Qtrunc q = Qfloor q.
Proof.
  destruct q as [n d]. unfold Qtrunc, Qfloor, Qle. simpl.
  intros H. apply Z.quot_div_nonneg; lia.
Qed.

Lemma add_days_eq t n : (add_days t n == t + inject_Z n)%Q.
Proof. unfold add_days. apply Qred_correct. Qed.

End FloatFacts.

Import FloatFacts.

(* --------------------------------------------------------------------- *)
(** ** Excel serial dates *)
(* --------------------------------------------------------------------- *)

Module SerialDateFacts.

Import ExcelDate ConvertDate.

Example epoch_day_number : days_from_civil 1899 12 30 = (-25569)%Z.
Proof. reflexivity. Qed.

Example unix_day_number : days_from_civil 1970 1 1 = 0%Z.
Proof. reflexivity. Qed.

Lemma serial_range_iff v :
  is_int_or_float v && serial_range v = true <-> in_serial_range v.
Proof.
  unfold serial_range.
  destruct v as [b | z | f | s | t]; simpl.
  - destruct b; simpl; split; try discriminate;
      intros [H _]; exfalso; revert H; apply Qle_not_lt; discriminate.
  - rewrite !Qltb_Z, andb_true_iff, !Z.ltb_lt. tauto.
  - destruct f as [| [|] | q]; simpl; try (split; [discriminate | tauto]).
    rewrite andb_true_iff, !Qltb_lt. tauto.
  - split; [discriminate | tauto].
  - split; [discriminate | tauto].
Qed.

Lemma serial_int v :
  in_serial_range v -> isna v = false /\ py_int v = Ok (whole_days v).
Proof.
  unfold whole_days, serial_days.
  destruct v as [b | z | f | s | t]; simpl; try tauto.
  - destruct b; intros [H _]; exfalso; revert H; apply Qle_not_lt; discriminate.
  - intros _. split; [reflexivity |]. f_equal. symmetry. apply Qfloor_Z.
  - destruct f as [| [|] | q]; simpl; try tauto.
    intros [H _]. split; [reflexivity |]. f_equal. apply Qtrunc_floor.
    apply Qlt_le_weak. eapply Qlt_trans; [| exact H]. reflexivity.
Qed.

Lemma not_serial_range v :
  ~ in_serial_range v -> is_int_or_float v && serial_range v = false.
Proof.
  intros H. destruct (is_int_or_float v && serial_range v) eqn:E;
    [| reflexivity].
  exfalso. now apply H, serial_range_iff.
Qed.

(** C1 (amended): the bounds are exclusive and the epoch is 1899-12-30;
    a number in range becomes that epoch plus its whole days, in both
    converters.  The cleaner returns every other value unchanged; the
    analyzer, which always answers a datetime, keeps a date, and gives
    the current time for any other value that is not a string. *)
Theorem serial_date_rule (now : datetime)
    (to_datetime : str -> result datetime) (v : pyval) :
  (in_serial_range v ->
     _convert_excel_date v = VTime (add_days excel_epoch (whole_days v))
     /\ _convert_date now to_datetime v
        = Ok (add_days excel_epoch (whole_days v))
     /\ (add_days excel_epoch (whole_days v)
         == excel_epoch + inject_Z (whole_days v))%Q
     /\ (inject_Z (whole_days v) <= serial_days v)%Q
     /\ (serial_days v < inject_Z (whole_days v + 1))%Q)
  /\ (forall z, v = VInt z -> serial_days v = inject_Z z /\ whole_days v = z)
  /\ (~ in_serial_range v -> _convert_excel_date v = v)
  /\ (~ in_serial_range v ->
      _convert_date now to_datetime v =
      match v with
      | VTime t => Ok t
      | VStr s => match to_datetime s with Ok t => Ok t | Raise _ => Ok now end
      | _ => Ok now
      end).
Proof.
  split; [| split; [| split]].
  - intros H. destruct (serial_int v H) as [Hna Hint].
    pose proof (proj2 (serial_range_iff v) H) as Hr.
    repeat split.
    + unfold _convert_excel_date. now rewrite Hna, Hr, Hint.
    + unfold _convert_date. rewrite Hr, Hint.
      destruct v; simpl in *; try reflexivity; tauto.
    + apply add_days_eq.
    + apply Qfloor_le.
    + apply Qlt_floor.
  - intros z ->. unfold whole_days, serial_days. simpl.
    split; [reflexivity | apply Qfloor_Z].
  - intros H. unfold _convert_excel_date.
    rewrite (not_serial_range v H). now destruct (isna v).
  - intros H. unfold _convert_date.
    rewrite (not_serial_range v H). now destruct v.
Qed.

(** The boundary values of the design document. *)
Lemma serial_date_rule_witness :
  _convert_excel_date (VInt 20000) = VInt 20000
  /\ _convert_excel_date (VInt 100000) = VInt 100000
  /\ _convert_excel_date (VInt 20001)
     = VTime (midnight (days_from_civil 1954 10 4))
  /\ _convert_excel_date (VInt 99999)
     = VTime (midnight (days_from_civil 2173 10 13))
  /\ _convert_excel_date (VFloat (Fin (45000 # 1)))
     = VTime (add_days excel_epoch (whole_days (VFloat (Fin (45000 # 1))))).
Proof.
  split; [reflexivity |]. split; [reflexivity |].
  split; [reflexivity |]. split; [reflexivity |].
  apply (proj1 (serial_date_rule (midnight 0) (fun _ => Raise ValueError)
                  (VFloat (Fin (45000 # 1))))).
  simpl. split; reflexivity.
Defined.

(** C1, as stated, fails twice.  A float serial with a fraction loses the
    fraction: 20000.5 gives 1899-12-30 plus 20000 days, not plus 20000.5.
    And the analyzer does not return an out-of-range number unchanged:
    20000 becomes the current time. *)
Lemma serial_rule_as_stated_fails :
  ~ serial_rule_as_stated _convert_excel_date
  /\ _convert_excel_date (VFloat (Fin (40001 # 2)))
     = VTime (add_days excel_epoch 20000)
  /\ ~ (add_days excel_epoch 20000 == excel_epoch + (40001 # 2))%Q
  /\ _convert_date (midnight 20454) (fun _ => Raise ValueError) (VInt 20000)
     = Ok (midnight 20454).
Proof.
  assert (Hne : ~ (add_days excel_epoch 20000 == excel_epoch + (40001 # 2))%Q)
    by (vm_compute; discriminate).
  split; [| split; [reflexivity | split; [exact Hne | reflexivity]]].
  intros Hrule.
  destruct (Hrule (VFloat (Fin (40001 # 2)))) as [Hconv _].
  destruct Hconv as [t [Ht Heq]].
  - simpl. split; reflexivity.
  - change (_convert_excel_date (VFloat (Fin (40001 # 2))))
      with (VTime (add_days excel_epoch 20000)) in Ht.
    injection Ht as <-. apply Hne. exact Heq.
Qed.

End SerialDateFacts.

(* --------------------------------------------------------------------- *)
(** ** Template selection of the correlation insight *)
(* --------------------------------------------------------------------- *)

Module InsightFacts.








Lemma templates_for_length corr :
  (0 < Z.of_nat (List.length (templates_for corr)))%Z.
Proof.
  unfold templates_for.
  destruct (gtb (abs corr) (Fin (7 # 10)));
    [| destruct (ltb (abs corr) (Fin (3 # 10)))]; simpl; lia.
Qed.

Lemma getitem_in_range (A : Type) (xs : list A) i :
  (0 <= i < Z.of_nat (List.length xs))%Z ->
  exists x, nth_error xs (Z.to_nat i) = Some x /\ getitem xs i = Ok x.
Proof.
  intros [H0 H1]. unfold getitem.
  destruct (Z.ltb_spec i 0) as [Hlt | _]; [lia |].
  destruct (Z.ltb_spec i 0) as [Hlt | _]; [lia |].
  destruct (nth_error xs (Z.to_nat i)) as [x |] eqn:E.
  - now exists x.
  - apply nth_error_None in E. lia.
Qed.

(** A finite correlation always yields an insight. *)
Lemma generate_insight_total col1 col2 r :
  exists text, _generate_insight col1 col2 (Fin r) = Ok text.
Proof.
  unfold _generate_insight. cbn [mul PyFloat.of_Z to_int bind].
  set (templates := templates_for (Fin r)).
  set (index := ((len col1 + len col2 + Qtrunc (r * inject_Z 100))
                 mod Z.of_nat (List.length templates))%Z).
  assert (Hidx : (0 <= index < Z.of_nat (List.length templates))%Z).
  { apply Z.mod_pos_bound, templates_for_length. }
  destruct (getitem_in_range _ templates _ Hidx) as [t [_ Hg]].
  rewrite Hg. eexists. reflexivity.
Qed.



End InsightFacts.

(* --------------------------------------------------------------------- *)
(** ** The descending stable sort *)
(* --------------------------------------------------------------------- *)

Module SortFacts.

Section Sorting.

Variable A : Type.
Variable key : A -> float.

Lemma insert_desc_perm x l : Permutation (x :: l) (insert_desc key x l).
Proof.
  induction l as [| y l IH]; simpl; [apply Permutation_refl |].
  destruct (gtb (key y) (key x)); [| apply Permutation_refl].
  eapply perm_trans; [apply perm_swap |]. now apply perm_skip.
Qed.

Lemma sort_desc_perm l : Permutation l (sort_desc key l).
Proof.
  induction l as [| x l IH]; simpl; [constructor |].
  eapply perm_trans; [| apply insert_desc_perm]. now apply perm_skip.
Qed.

Lemma key_ge_trans x y z : key_ge key x y -> key_ge key y z -> key_ge key x z.
Proof.
  intros (p & q & Hp & Hq & Hle) (q' & r & Hq' & Hr & Hle').
  rewrite Hq in Hq'. injection Hq' as <-.
  exists p, r. repeat split; try assumption. now apply Qle_trans with q.
Qed.

Lemma insert_desc_sorted x l :
  finite_key key x -> Forall (finite_key key) l ->
  StronglySorted (key_ge key) l -> StronglySorted (key_ge key) (insert_desc key x l).
Proof.
  intros [p Hp] Hfin Hs.
  induction Hs as [| y l Hs IH Hy]; simpl.
  - constructor; constructor.
  - inversion Hfin as [| ? ? [q Hq] Hfin']; subst.
    unfold gtb. rewrite Hp, Hq. simpl.
    destruct (Qltb p q) eqn:E.
    + apply Qltb_lt in E. constructor; [now apply IH |].
      eapply Permutation_Forall; [apply insert_desc_perm |].
      constructor; [| exact Hy].
      exists q, p. repeat split; try assumption. now apply Qlt_le_weak.
    + apply Qltb_ge in E.
      assert (Hxy : key_ge key x y) by (exists p, q; auto).
      constructor; [now constructor |].
      constructor; [exact Hxy |].
      eapply Forall_impl; [| exact Hy].
      intros z Hz. now apply key_ge_trans with y.
Qed.

Lemma sort_desc_sorted l :
  Forall (finite_key key) l -> StronglySorted (key_ge key) (sort_desc key l).
Proof.
  induction 1 as [| x l Hx Hl IH]; simpl; [constructor |].
  apply insert_desc_sorted; [exact Hx | | exact IH].
  eapply Permutation_Forall; [apply sort_desc_perm | exact Hl].
Qed.

End Sorting.

Lemma firstn_In (A : Type) n (l : list A) x : In x (firstn n l) -> In x l.
Proof.
  intros H. rewrite <- (firstn_skipn n l). apply in_or_app. now left.
Qed.

Lemma firstn_sorted (A : Type) (R : A -> A -> Prop) n l :
  StronglySorted R l -> StronglySorted R (firstn n l).
Proof.
  intros Hs. revert n.
  induction Hs as [| x l Hs IH Hx]; intros [| n]; simpl; try constructor.
  - apply IH.
  - rewrite Forall_forall in *. intros y Hy. apply Hx.
    revert Hy. apply firstn_In.
Qed.

End SortFacts.

(* --------------------------------------------------------------------- *)
(** ** Substrings *)
(* --------------------------------------------------------------------- *)

Module SubstringFacts.





End SubstringFacts.

(* --------------------------------------------------------------------- *)
(** ** Pairwise correlations *)
(* --------------------------------------------------------------------- *)

Module CorrelationFacts.

Import SortFacts SubstringFacts PyStrFacts InsightFacts.






Section Visit.

Variable df_columns : list str.
Variable corr_matrix : str -> str -> float.
Hypothesis corr_bounded : forall a b neg, corr_matrix a b <> Inf neg.

Lemma significant_inv a b :
  significant (corr_matrix a b) = true ->
  exists r, corr_matrix a b = Fin r /\ (3 # 10 < Qabs r)%Q.
Proof.
  unfold significant. destruct (corr_matrix a b) as [| neg | r] eqn:E.
  - discriminate.
  - exfalso. exact (corr_bounded _ _ _ E).
  - simpl. unfold gtb. simpl. intros H. apply Qltb_lt in H. now exists r.
Qed.

Lemma foldM_visit ps : forall acc,
  exists found,
    foldM (visit corr_matrix) ps acc = Ok (acc ++ found)
    /\ Forall2 (reported corr_matrix)
         (filter (fun p => significant (corr_matrix (fst p) (snd p))) ps)
         found.
Proof.
  induction ps as [| [a b] ps IH]; intros acc; simpl.
  - exists []. rewrite app_nil_r. split; [reflexivity | constructor].
  - destruct (significant (corr_matrix a b)) eqn:Hs.
    + destruct (significant_inv _ _ Hs) as [r [Hr Habs]].
      destruct (generate_insight_total a b r) as [text Ht].
      rewrite Hr, Ht. simpl.
      set (x := {| feature_a := a; feature_b := b;
                   correlation := Fin (Qround_nd 3 r); insight := text |}).
      destruct (IH (acc ++ [x])) as [found [Hf Hrep]].
      exists (x :: found). split.
      * rewrite Hf, <- app_assoc. reflexivity.
      * constructor; [| exact Hrep].
        exists r. simpl. repeat split; assumption.
    + simpl. apply IH.
Qed.

End Visit.

Lemma reported_finite_key m p x :
  reported m p x -> finite_key (fun y => abs (correlation y)) x.
Proof.
  intros (r & _ & _ & _ & _ & Hc & _). unfold finite_key.
  rewrite Hc. simpl. eauto.
Qed.

Lemma key_ge_not_weaker x y :
  key_ge (fun z => abs (correlation z)) x y -> not_weaker x y.
Proof.
  intros (p & q & Hp & Hq & Hle). unfold not_weaker.
  destruct (correlation x) as [| | p0]; try discriminate.
  destruct (correlation y) as [| | q0]; try discriminate.
  simpl in Hp, Hq. injection Hp as <-. injection Hq as <-.
  exists p0, q0. auto.
Qed.

Lemma sorted_not_weaker l :
  StronglySorted (key_ge (fun z => abs (correlation z))) l ->
  StronglySorted not_weaker l.
Proof.
  induction 1 as [| x l _ IH Hx]; constructor; [exact IH |].
  eapply Forall_impl; [| exact Hx]. intros y. apply key_ge_not_weaker.
Qed.

Lemma Forall2_In_r (A B : Type) (R : A -> B -> Prop) l l' y :
  Forall2 R l l' -> In y l' -> exists x, In x l /\ R x y.
Proof.
  induction 1 as [| a b l l' Hab _ IH]; simpl; [tauto |].
  intros [<- | H].
  - exists a. auto.
  - destruct (IH H) as [x [Hx Hr]]. exists x. auto.
Qed.





Lemma nancorr_bounded xs ys neg : nancorr xs ys <> Inf neg.
Proof.
  unfold nancorr.
  destruct (observations xs ys) as [obs |]; [| discriminate].
  destruct (List.length obs <? 1); [discriminate |].
  cbv zeta. destruct (Qeq_bool _ 0); discriminate.
Qed.

(** A Pearson coefficient is a number or undefined, never infinite. *)
Lemma pearson_matrix_bounded df a b neg : pearson_matrix df a b <> Inf neg.
Proof.
  unfold pearson_matrix.
  destruct (find_column a df); [| discriminate].
  destruct (find_column b df); [| discriminate].
  apply nancorr_bounded.
Qed.


End CorrelationFacts.

(* --------------------------------------------------------------------- *)
(** ** Forecast: trend label and floor at zero *)
(* --------------------------------------------------------------------- *)

Module ForecastFacts.











Lemma mapM_length (A B : Type) (f : A -> result B) xs ys :
  mapM f xs = Ok ys -> List.length ys = List.length xs.
Proof.
  revert ys. induction xs as [| x xs IH]; simpl; intros ys H.
  - injection H as <-. reflexivity.
  - destruct (f x) as [y |]; [| discriminate]. simpl in H.
    destruct (mapM f xs) as [ys' |]; [| discriminate]. simpl in H.
    injection H as <-. simpl. f_equal. now apply IH.
Qed.

Lemma getitem_last (A : Type) (xs : list A) :
  xs <> [] ->
  exists x, getitem xs (-1) = Ok x
            /\ nth_error xs (List.length xs - 1) = Some x.
Proof.
  intros Hne. unfold getitem.
  assert (Hlen : 0 < List.length xs)
    by (destruct xs; [congruence | simpl; lia]).
  change (-1 <? 0)%Z with true. cbv iota.
  destruct (Z.ltb_spec (-1 + Z.of_nat (List.length xs)) 0) as [Hlt | _];
    [lia |].
  replace (Z.to_nat (-1 + Z.of_nat (List.length xs)))
    with (List.length xs - 1) by lia.
  destruct (nth_error xs (List.length xs - 1)) as [x |] eqn:E.
  - now exists x.
  - apply nth_error_None in E. lia.
Qed.



(** A forecast is produced as soon as the sorted frame has three rows
    with numeric values. *)
Lemma forecast_sorted_produced py df_sorted months_ahead :
  3 <= List.length df_sorted ->
  Forall (fun row => forall s, snd row <> VStr s) df_sorted ->
  Forall (fun row => forall t, snd row <> VTime t) df_sorted ->
  exists res,
    forecast_sorted py df_sorted months_ahead = Some res.
Proof.
  intros Hlen Hs Ht. unfold forecast_sorted.
  destruct (Nat.ltb_spec (List.length df_sorted) 3) as [Hlt | _]; [lia |].
  assert (Hy : exists y,
             mapM (astype_float py) (List.map snd df_sorted) = Ok y).
  { clear Hlen. induction df_sorted as [| [d v] rows IH]; simpl.
    - now exists [].
    - inversion Hs as [| ? ? Hs1 Hs2]; inversion Ht as [| ? ? Ht1 Ht2]; subst.
      destruct (IH Hs2 Ht2) as [ys Hys]. rewrite Hys. simpl in Hs1, Ht1.
      destruct v as [b | z | f | s | t]; simpl; eauto.
      + now destruct (Hs1 s).
      + now destruct (Ht1 t). }
  destruct Hy as [y Hy]. rewrite Hy. cbn [bind].
  destruct (linregress y) as [s c].
  destruct (getitem_last _ (List.map fst df_sorted)) as [last [Hget _]].
  { destruct df_sorted; [simpl in Hlen; lia | discriminate]. }
  rewrite Hget. cbn [bind]. eauto.
Qed.

End ForecastFacts.

(* --------------------------------------------------------------------- *)
(** ** The cleaner: what the rules do to a frame *)
(* --------------------------------------------------------------------- *)

Module CleanerFacts.

Import PyStrFacts.

Lemma same_shape_refl df : same_shape df df.
Proof. induction df; constructor; auto. Qed.

Lemma same_shape_trans a b c :
  same_shape a b -> same_shape b c -> same_shape a c.
Proof.
  intros H. revert c. induction H as [| x y a b Hxy _ IH]; intros c Hc.
  - inversion Hc. constructor.
  - inversion Hc as [| ? z ? c' Hyz Hbc]; subst. constructor.
    + congruence.
    + now apply IH.
Qed.

Lemma same_shape_columns a b : same_shape a b -> columns a = columns b.
Proof.
  unfold columns. induction 1 as [| x y a b Hxy _ IH]; simpl; congruence.
Qed.

Lemma same_shape_map (f : column -> column) df :
  (forall c, name (f c) = name c) -> same_shape df (List.map f df).
Proof.
  intros Hf. induction df as [| c df IH]; simpl; constructor; auto.
Qed.

Section Rules.

Variable py : interpreter.

Lemma convert_column_name matches rewrite scale tag c c' l :
  convert_column py matches rewrite scale tag c = Ok (c', l) ->
  name c = name c'.
Proof.
  unfold convert_column. intros H.
  destruct (is_object (dtype_of c)); [| now inversion H].
  destruct (existsb matches _); [| now inversion H].
  destruct (mapM _ _); [| discriminate]. now inversion H; subst.
Qed.

Lemma each_column_shape f df df' logs :
  (forall c c' l, f c = Ok (c', l) -> name c = name c') ->
  each_column f df = Ok (df', logs) -> same_shape df df'.
Proof.
  intros Hf. revert df' logs.
  induction df as [| c df IH]; simpl; intros df' logs H.
  - inversion H; subst. constructor.
  - destruct (f c) as [[c' l] |] eqn:Ec; [| discriminate]. simpl in H.
    destruct (each_column f df) as [[rest l'] |] eqn:Er; [| discriminate].
    simpl in H. inversion H; subst.
    constructor; [eapply Hf; exact Ec | eapply IH; reflexivity].
Qed.

Lemma trim_column_name c : name (trim_column py c) = name c.
Proof. unfold trim_column. now destruct (is_object (dtype_of c)). Qed.

Lemma apply_rule_shape r df logs df' logs' :
  apply_rule py r (df, logs) = Ok (df', logs') -> same_shape df df'.
Proof.
  destruct r; simpl; intros H.
  - destruct (each_column _ df) as [[d l] |] eqn:E; [| discriminate].
    simpl in H. inversion H; subst.
    eapply each_column_shape; [| exact E].
    intros c c' l0. apply convert_column_name.
  - destruct (each_column _ df) as [[d l] |] eqn:E; [| discriminate].
    simpl in H. inversion H; subst.
    eapply each_column_shape; [| exact E].
    intros c c' l0. apply convert_column_name.
  - destruct (0 <? null_count df); inversion H; subst; apply same_shape_refl.
  - inversion H; subst. apply same_shape_map, trim_column_name.
  - inversion H; subst. apply same_shape_refl.
  - inversion H; subst. apply same_shape_refl.
Qed.

Lemma foldM_rules_shape rules : forall df logs df' logs',
  foldM (apply_rule py) rules (df, logs) = Ok (df', logs') ->
  same_shape df df'.
Proof.
  induction rules as [| r rules IH]; intros df logs df' logs' H;
    cbn [foldM] in H.
  - inversion H; subst. apply same_shape_refl.
  - destruct (apply_rule py r (df, logs)) as [[d l] |] eqn:E;
      cbn [bind] in H; [| discriminate].
    eapply same_shape_trans.
    + eapply apply_rule_shape; exact E.
    + eapply IH; exact H.
Qed.

Lemma foldM_app (A S : Type) (f : A -> S -> result S) xs ys s :
  foldM f (xs ++ ys) s = (s' <- foldM f xs s ;; foldM f ys s').
Proof.
  revert s. induction xs as [| x xs IH]; intros s; simpl; [reflexivity |].
  destruct (f x s) as [s1 |]; simpl; [apply IH | reflexivity].
Qed.

(** Every rule set ends with the whitespace-trim rule. *)
Lemma domain_rules_end domain :
  exists front, domain_rules domain = front ++ [trim_whitespace].
Proof.
  unfold domain_rules, general_rules.
  destruct (PyStr.eqb domain (lit "finance")).
  - now exists [remove_currency_symbols; convert_percentages; handle_nulls].
  - destruct (PyStr.eqb domain (lit "hr")).
    + now exists [normalize_names; convert_dates; handle_nulls].
    + now exists [handle_nulls].
Qed.

Lemma dropna_all_shape df : same_shape df (dropna_all df).
Proof. unfold dropna_all. now apply same_shape_map. Qed.

(** What [clean] returns, in terms of the frame the rules produced. *)
Lemma clean_inv df ext filename domain res :
  clean py df ext filename domain = Ok res ->
  exists ruled logs,
    _apply_cleaning_rules py df (domain_rules domain) = Ok (ruled, logs)
    /\ let kept := dropna_all ruled in
       let dates := _detect_date_columns kept in
       dataframe res
       = List.map (fun c => {| name := _standardize_header (name c);
                               dtype_of := dtype_of c; cells := cells c |})
           kept
       /\ rows res = records (dataframe res)
       /\ row_count res = nrows (dataframe res)
       /\ numeric_columns res
          = List.map _standardize_header
              (filter (fun c => negb (mem c dates))
                 (columns (select_dtypes is_number kept)))
       /\ categorical_columns res
          = List.map _standardize_header
              (columns (select_dtypes is_object_or_category kept))
       /\ date_columns res = List.map _standardize_header dates.
Proof.
  unfold clean. intros H.
  destruct (_apply_cleaning_rules py df (domain_rules domain))
    as [[ruled logs] |]; [| discriminate].
  cbn [bind] in H. injection H as <-.
  exists ruled, logs. split; [reflexivity |].
  cbn. repeat split; reflexivity.
Qed.

Lemma apply_cleaning_rules_inv df rules ruled logs :
  _apply_cleaning_rules py df rules = Ok (ruled, logs) ->
  exists logs', foldM (apply_rule py) rules (df, []) = Ok (ruled, logs').
Proof.
  unfold _apply_cleaning_rules. intros H.
  destruct (foldM (apply_rule py) rules (df, [])) as [[d l] |];
    [| discriminate].
  simpl in H. inversion H; subst. now exists l.
Qed.

End Rules.

Lemma NoDup_map_injective (A B : Type) (f : A -> B) l x y :
  NoDup (List.map f l) -> In x l -> In y l -> f x = f y -> x = y.
Proof.
  induction l as [| a l IH]; simpl; [tauto |].
  intros Hnd Hx Hy E. inversion Hnd as [| ? ? Hn Hnd']; subst.
  destruct Hx as [-> | Hx], Hy as [-> | Hy]; auto.
  - exfalso. apply Hn. rewrite E. now apply in_map.
  - exfalso. apply Hn. rewrite <- E. now apply in_map.
Qed.

Lemma columns_In df a :
  In a (columns df) <-> exists c, In c df /\ name c = a.
Proof.
  unfold columns. rewrite in_map_iff. split; intros [c [H1 H2]]; eauto.
Qed.

Lemma select_dtypes_In include df a :
  In a (columns (select_dtypes include df)) <->
  exists c, In c df /\ name c = a /\ include (dtype_of c) = true.
Proof.
  rewrite columns_In. unfold select_dtypes. split.
  - intros [c [Hc Hn]]. apply filter_In in Hc as [Hc Hi]. eauto.
  - intros [c (Hc & Hn & Hi)]. exists c. split; [| exact Hn].
    apply filter_In. auto.
Qed.

(** The column names survive the rules and the removal of rows. *)
Lemma clean_columns py df domain ruled logs :
  _apply_cleaning_rules py df (domain_rules domain) = Ok (ruled, logs) ->
  columns (dropna_all ruled) = columns df.
Proof.
  intros H. apply apply_cleaning_rules_inv in H as [logs' H].
  apply foldM_rules_shape in H. symmetry. apply same_shape_columns.
  eapply same_shape_trans; [exact H | apply dropna_all_shape].
Qed.

(** C5 (amended): when distinct columns keep distinct standardized
    headers, no numeric column of the classification is also a date
    column (date columns take precedence) or a categorical column. *)
Theorem classification_numeric_disjoint (py : interpreter) (df : frame)
    (ext filename domain : str) (res : cleaned) :
  clean py df ext filename domain = Ok res ->
  NoDup (List.map _standardize_header (columns df)) ->
  (forall h, In h (numeric_columns res) -> ~ In h (date_columns res))
  /\ (forall h, In h (numeric_columns res) ->
                ~ In h (categorical_columns res)).
Proof.
  intros Hclean Hnd.
  destruct (clean_inv py df ext filename domain res Hclean)
    as (ruled & logs & Hrules & Hres).
  cbv zeta in Hres. destruct Hres as (_ & _ & _ & Hnum & Hcat & Hdate).
  rewrite <- (clean_columns py df domain ruled logs Hrules) in Hnd.
  set (kept := dropna_all ruled) in *.
  unfold columns in Hnd. rewrite map_map in Hnd.
  assert (Hinj : forall c1 c2, In c1 kept -> In c2 kept ->
            _standardize_header (name c1) = _standardize_header (name c2) ->
            c1 = c2).
  { intros c1 c2 H1 H2 E.
    exact (NoDup_map_injective _ _ _ kept c1 c2 Hnd H1 H2 E). }
  assert (Hnumeric : forall h, In h (numeric_columns res) ->
            exists c, In c kept /\ h = _standardize_header (name c)
                      /\ is_number (dtype_of c) = true
                      /\ ~ In (name c) (_detect_date_columns kept)).
  { intros h Hh. rewrite Hnum in Hh.
    apply in_map_iff in Hh as [a [<- Ha]].
    apply filter_In in Ha as [Ha Hmem].
    apply select_dtypes_In in Ha as [c (Hc & <- & Hi)].
    exists c. repeat split; try assumption.
    intros Hin. apply mem_In in Hin. rewrite Hin in Hmem. discriminate. }
  split; intros h Hh; destruct (Hnumeric h Hh) as [c1 (H1 & -> & Hn1 & Hd1)].
  - rewrite Hdate. intros Hin.
    apply in_map_iff in Hin as [b [E Hb]].
    pose proof Hb as Hb'. unfold _detect_date_columns in Hb'.
    apply columns_In in Hb' as [c2 [H2 <-]].
    apply filter_In in H2 as [H2 _].
    rewrite (Hinj c2 c1 H2 H1 E) in Hb. contradiction.
  - rewrite Hcat. intros Hin.
    apply in_map_iff in Hin as [b [E Hb]].
    apply select_dtypes_In in Hb as [c2 (H2 & <- & Hi)].
    rewrite (Hinj c2 c1 H2 H1 E) in Hi.
    destruct (dtype_of c1); discriminate.
Qed.

Lemma classification_numeric_disjoint_witness :
  NoDup (List.map _standardize_header (columns FrameExample.people))
  /\ exists res,
       clean plain_interpreter FrameExample.people (lit "csv")
         (lit "people.csv") (lit "general") = Ok res
       /\ numeric_columns res = [lit "score"]
       /\ (forall h, In h (numeric_columns res) ->
                     ~ In h (date_columns res)).
Proof.
  assert (Hnd : NoDup (List.map _standardize_header
                         (columns FrameExample.people))).
  { vm_compute. repeat constructor; simpl; intuition discriminate. }
  split; [exact Hnd |].
  eexists. split; [vm_compute; reflexivity |].
  split; [reflexivity |].
  apply (classification_numeric_disjoint plain_interpreter
           FrameExample.people (lit "csv") (lit "people.csv")
           (lit "general") _ eq_refl Hnd).
Defined.

(** C5, as stated, fails: the text column "Order Date" is categorical by
    its storage type and a date column by its name, so the categorical
    and the date sets share "order_date". *)
Lemma categorical_and_date_overlap :
  exists res,
    clean plain_interpreter FrameExample.people (lit "csv")
      (lit "people.csv") (lit "general") = Ok res
    /\ categorical_columns res = [lit "name"; lit "order_date"]
    /\ date_columns res = [lit "order_date"]
    /\ In (lit "order_date") (categorical_columns res)
    /\ In (lit "order_date") (date_columns res).
Proof.
  eexists. split; [vm_compute; reflexivity |].
  split; [reflexivity |]. split; [reflexivity |].
  split; [right; left; reflexivity | left; reflexivity].
Qed.

Lemma select_rows_Forall (P : pyval -> Prop) mask xs :
  Forall P xs -> Forall P (select_rows mask xs).
Proof.
  intros H. revert mask.
  induction H as [| x xs Hx _ IH]; intros [| m mask]; simpl;
    try constructor.
  destruct m; [constructor; [exact Hx | apply IH] | apply IH].
Qed.

Lemma trim_column_cells py c :
  is_object (dtype_of c) = true ->
  cells (trim_column py c)
  = List.map (fun v => VStr (strip (py_str py v))) (cells c)
  /\ is_object (dtype_of (trim_column py c)) = true.
Proof.
  unfold trim_column. intros H. rewrite H. simpl. auto.
Qed.

Lemma trim_column_object py c :
  is_object (dtype_of (trim_column py c)) = is_object (dtype_of c).
Proof.
  unfold trim_column. destruct (is_object (dtype_of c)) eqn:E; simpl; auto.
Qed.

(** After the trim an object column holds text only. *)
Lemma trim_column_text py c :
  is_object (dtype_of (trim_column py c)) = true ->
  Forall (fun v => isna v = false /\ exists s, v = VStr s)
         (cells (trim_column py c)).
Proof.
  rewrite trim_column_object. intros H.
  destruct (trim_column_cells py c H) as [-> _].
  apply Forall_forall. intros v Hv.
  apply in_map_iff in Hv as [w [<- _]]. split; [reflexivity | eauto].
Qed.

(** The rules of a domain are some rules followed by one trim, which
    maps [trim_column] over the frame and leaves the log as it is. *)
Lemma rules_end_with_trim py df domain ruled logs :
  foldM (apply_rule py) (domain_rules domain) (df, []) = Ok (ruled, logs) ->
  exists before,
    foldM (apply_rule py) (removelast (domain_rules domain)) (df, [])
    = Ok (before, logs)
    /\ apply_rule py trim_whitespace (before, logs)
       = Ok (List.map (trim_column py) before, logs)
    /\ ruled = List.map (trim_column py) before.
Proof.
  destruct (domain_rules_end domain) as [front ->].
  rewrite removelast_last, foldM_app. intros H.
  destruct (foldM (apply_rule py) front (df, [])) as [[before l] |];
    cbn [bind foldM apply_rule] in H; [| discriminate].
  inversion H; subst. exists before. auto.
Qed.

(** C10 (amended): for every domain hint, the last rule maps every cell
    of a text-typed column to the stripped text of it, a missing cell to
    the three-character text "nan"; the rule adds no line to the log;
    and in the frame [clean] returns a text-typed column holds text
    only, so no missing value. *)
Theorem trim_turns_missing_into_text (py : interpreter) (df : frame)
    (ext filename domain : str) (res : cleaned) :
  clean py df ext filename domain = Ok res ->
  exists before logs,
    foldM (apply_rule py) (removelast (domain_rules domain)) (df, [])
    = Ok (before, logs)
    /\ apply_rule py trim_whitespace (before, logs)
       = Ok (List.map (trim_column py) before, logs)
    /\ foldM (apply_rule py) (domain_rules domain) (df, [])
       = Ok (List.map (trim_column py) before, logs)
    /\ (forall c, In c before -> is_object (dtype_of c) = true ->
         Forall2 (fun v w => w = VStr (strip (py_str py v))
                             /\ (isna v = true -> w = VStr (lit "nan")))
                 (cells c) (cells (trim_column py c)))
    /\ dataframe res
       = List.map (fun c => {| name := _standardize_header (name c);
                               dtype_of := dtype_of c; cells := cells c |})
           (dropna_all (List.map (trim_column py) before))
    /\ (forall c, In c (dataframe res) -> is_object (dtype_of c) = true ->
         Forall (fun v => isna v = false /\ exists s, v = VStr s) (cells c))
    /\ List.length (lit "nan") = 3.
Proof.
  intros Hclean.
  destruct (clean_inv py df ext filename domain res Hclean)
    as (ruled & logs0 & Hrules & Hres).
  cbv zeta in Hres. destruct Hres as (Hframe & _).
  destruct (apply_cleaning_rules_inv py df _ ruled logs0 Hrules)
    as [logs Hfold].
  destruct (rules_end_with_trim py df domain ruled logs Hfold)
    as (before & Hfront & Htrim & ->).
  exists before, logs.
  split; [exact Hfront |]. split; [exact Htrim |]. split; [exact Hfold |].
  split.
  { intros c _ Hobj. destruct (trim_column_cells py c Hobj) as [-> _].
    induction (cells c) as [| v vs IH]; simpl; constructor; [| exact IH].
    split; [reflexivity |].
    destruct v as [| | [| |] | |]; simpl; try discriminate. reflexivity. }
  split; [exact Hframe |]. split; [| reflexivity].
  intros c Hc Hobj. rewrite Hframe in Hc.
  apply in_map_iff in Hc as [k [<- Hk]]. simpl in *.
  unfold dropna_all in Hk. apply in_map_iff in Hk as [t [<- Ht]].
  simpl in *. apply in_map_iff in Ht as [b [<- Hb]].
  apply select_rows_Forall, trim_column_text, Hobj.
Qed.

(** In the example the missing Name of the empty line comes out as the
    text "nan". *)
Lemma trim_turns_missing_into_text_witness :
  exists res,
    clean plain_interpreter FrameExample.people (lit "csv")
      (lit "people.csv") (lit "general") = Ok res
    /\ nth 1 (rows res) [] = [VStr (lit "nan"); VFloat NaN; VStr (lit "nan")]
    /\ (forall c, In c (dataframe res) -> is_object (dtype_of c) = true ->
         Forall (fun v => isna v = false /\ exists s, v = VStr s) (cells c)).
Proof.
  eexists. split; [vm_compute; reflexivity |]. split; [reflexivity |].
  destruct (trim_turns_missing_into_text plain_interpreter
              FrameExample.people (lit "csv") (lit "people.csv")
              (lit "general") _ eq_refl)
    as (before & logs & _ & _ & _ & _ & _ & Htext & _).
  exact Htext.
Defined.

(** C10, as stated, fails on the length of the text: "nan" has three
    characters, not four. *)
Lemma nan_text_has_three_characters :
  (exists res,
     clean plain_interpreter FrameExample.people (lit "csv")
       (lit "people.csv") (lit "general") = Ok res
     /\ nth 1 (nth 0 (List.map cells (dataframe res)) []) (VInt 0)
        = VStr (lit "nan"))
  /\ py_str plain_interpreter (VFloat NaN) = lit "nan"
  /\ List.length (lit "nan") = 3
  /\ List.length (lit "nan") <> 4.
Proof.
  split; [| repeat split; discriminate].
  eexists. split; [vm_compute; reflexivity | reflexivity].
Qed.

(** The general and the hr rules never raise: [clean] always returns. *)
Lemma clean_returns py df ext filename domain :
  PyStr.eqb domain (lit "finance") = false ->
  exists res, clean py df ext filename domain = Ok res.
Proof.
  intros Hd. unfold clean, _apply_cleaning_rules, domain_rules, general_rules.
  rewrite Hd.
  destruct (PyStr.eqb domain (lit "hr")); cbn [foldM apply_rule bind];
    destruct (0 <? null_count df); cbn [foldM apply_rule bind fst snd];
    eexists; reflexivity.
Qed.

(** ** When nothing is dropped *)

Lemma select_rows_all mask xs :
  Forall (fun b => b = true) mask -> List.length xs <= List.length mask ->
  select_rows mask xs = xs.
Proof.
  intros H. revert xs.
  induction H as [| m mask Hm _ IH]; intros [| x xs] Hlen; simpl in *;
    try reflexivity; try lia.
  rewrite Hm. f_equal. apply IH. lia.
Qed.

Lemma row_has_cell df c i :
  In c df -> In (nth i (cells c) (VFloat NaN)) (row df i).
Proof.
  intros H. unfold row.
  apply (in_map (fun c => nth i (cells c) (VFloat NaN))). exact H.
Qed.

(** A frame with a column free of missing values loses no row. *)
Lemma dropna_all_nothing df c :
  well_formed df -> In c df ->
  Forall (fun v => isna v = false) (cells c) ->
  dropna_all df = df.
Proof.
  intros Hwf Hc Hfull. unfold dropna_all. unfold well_formed in Hwf.
  assert (Hmask : Forall (fun b => b = true)
            (List.map (fun r => negb (all_missing r)) (records df))).
  { apply Forall_forall. intros b Hb.
    apply in_map_iff in Hb as [r [<- Hr]].
    unfold records in Hr. apply in_map_iff in Hr as [i [<- Hi]].
    apply in_seq in Hi. apply negb_true_iff.
    destruct (all_missing (row df i)) eqn:E; [| reflexivity].
    unfold all_missing in E. rewrite forallb_forall in E.
    specialize (E _ (row_has_cell df c i Hc)).
    rewrite Forall_forall in Hfull, Hwf.
    rewrite Hfull in E; [discriminate |].
    apply nth_In. rewrite (Hwf c Hc). lia. }
  assert (Hlen : List.length
                   (List.map (fun r => negb (all_missing r)) (records df))
                 = nrows df).
  { unfold records. now rewrite !length_map, length_seq. }
  etransitivity; [| apply map_id]. apply map_ext_in.
  intros k Hk. rewrite select_rows_all.
  - now destruct k.
  - exact Hmask.
  - rewrite Hlen. rewrite Forall_forall in Hwf. rewrite (Hwf k Hk). lia.
Qed.

Lemma trim_well_formed py df :
  well_formed df -> well_formed (List.map (trim_column py) df).
Proof.
  unfold well_formed. intros H.
  assert (Hn : nrows (List.map (trim_column py) df) = nrows df).
  { destruct df as [| c df]; [reflexivity |]. simpl.
    unfold trim_column. destruct (is_object (dtype_of c)); simpl;
      [apply length_map | reflexivity]. }
  rewrite Hn. apply Forall_forall. intros k Hk.
  apply in_map_iff in Hk as [c [<- Hc]].
  rewrite Forall_forall in H. rewrite <- (H c Hc).
  unfold trim_column. destruct (is_object (dtype_of c)); simpl;
    [apply length_map | reflexivity].
Qed.

Lemma records_renamed (f : str -> str) df :
  records (List.map (fun c => {| name := f (name c);
                                 dtype_of := dtype_of c;
                                 cells := cells c |}) df)
  = records df.
Proof.
  unfold records.
  assert (Hn : nrows (List.map (fun c => {| name := f (name c);
                                              dtype_of := dtype_of c;
                                              cells := cells c |}) df)
               = nrows df) by (destruct df; reflexivity).
  rewrite Hn. apply map_ext. intros i. unfold row. now rewrite map_map.
Qed.

(** Outside the finance rules, a frame with a text column comes out of
    [clean] with all its rows, the empty ones included. *)
Lemma clean_drops_nothing py df ext filename domain res c :
  PyStr.eqb domain (lit "finance") = false ->
  well_formed df -> In c df -> is_object (dtype_of c) = true ->
  clean py df ext filename domain = Ok res ->
  rows res = records (List.map (trim_column py) df)
  /\ row_count res = nrows df.
Proof.
  intros Hd Hwf Hc Hobj Hclean.
  destruct (clean_inv py df ext filename domain res Hclean)
    as (ruled & logs0 & Hrules & Hres).
  cbv zeta in Hres. destruct Hres as (Hframe & Hrows & Hcount & _).
  assert (Hruled : ruled = List.map (trim_column py) df).
  { destruct (apply_cleaning_rules_inv py df _ ruled logs0 Hrules)
      as [logs Hfold].
    unfold domain_rules, general_rules in Hfold. rewrite Hd in Hfold.
    destruct (PyStr.eqb domain (lit "hr"));
      cbn [foldM apply_rule bind] in Hfold;
      destruct (0 <? null_count df);
      cbn [foldM apply_rule bind] in Hfold; now inversion Hfold. }
  subst ruled.
  assert (Hkeep : dropna_all (List.map (trim_column py) df)
                  = List.map (trim_column py) df).
  { apply (dropna_all_nothing _ (trim_column py c)).
    - now apply trim_well_formed.
    - now apply in_map.
    - eapply Forall_impl; [| apply trim_column_text].
      + intros v [Hv _]. exact Hv.
      + now rewrite trim_column_object. }
  rewrite Hkeep in Hframe.
  assert (Hrec : records (dataframe res)
                 = records (List.map (trim_column py) df)).
  { rewrite Hframe. apply records_renamed. }
  split; [now rewrite Hrows |].
  rewrite Hcount, Hframe.
  transitivity (nrows (List.map (trim_column py) df)).
  - destruct (List.map (trim_column py) df); reflexivity.
  - destruct df as [| k df]; [reflexivity |]. simpl.
    unfold trim_column. destruct (is_object (dtype_of k)); simpl;
      [apply length_map | reflexivity].
Qed.

(** C9: the file of [FrameExample.people] has an empty second line.
    [clean] trims before it drops, the missing Name and Order Date have
    become the text "nan", and the line survives: three rows come out.
    Dropping first, as [analyze_file] does, removes it. *)
Theorem empty_row_survives_clean :
  all_missing (row FrameExample.people 1) = true
  /\ (exists res,
        clean plain_interpreter FrameExample.people (lit "csv")
          (lit "people.csv") (lit "general") = Ok res
        /\ row_count res = 3
        /\ rows res
           = [ [VStr (lit "ann"); VFloat (Fin 1); VStr (lit "2024-01-01")];
               [VStr (lit "nan"); VFloat NaN; VStr (lit "nan")];
               [VStr (lit "bob"); VFloat (Fin 2); VStr (lit "2024-02-01")] ]
        /\ ~ In (lit "[CLEAN] Removed 1 invalid/empty rows")
               (cleaning_log res))
  /\ records (dropna_all FrameExample.people)
     = [row FrameExample.people 0; row FrameExample.people 2].
Proof.
  split; [reflexivity |]. split; [| reflexivity].
  eexists. split; [vm_compute; reflexivity |].
  split; [reflexivity |]. split; [reflexivity |].
  vm_compute. intuition discriminate.
Qed.

End CleanerFacts.

(* --------------------------------------------------------------------- *)
(** ** Heatmap aggregation *)
(* --------------------------------------------------------------------- *)

Module HeatmapFacts.

Import Blueprint Charts.

Lemma flat_map_grid_length (A B : Type) (f : A -> A -> B) (rs cs : list A) :
  List.length (flat_map (fun x => List.map (f x) cs) rs)
  = List.length rs * List.length cs.
Proof.
  induction rs as [| r rs IH]; simpl; [reflexivity |].
  now rewrite length_app, length_map, IH.
Qed.

(** Cell [(i, j)] of the grid sits at position [i * n + j]. *)
Lemma flat_map_grid_nth (A B : Type) (f : A -> A -> B) (cs : list A) :
  forall (rs : list A) i j a b,
    nth_error rs i = Some a -> nth_error cs j = Some b ->
    nth_error (flat_map (fun x => List.map (f x) cs) rs)
              (i * List.length cs + j)
    = Some (f a b).
Proof.
  induction rs as [| r rs IH]; intros i j a b Hi Hj.
  - destruct i; discriminate.
  - assert (Hlt : j < List.length cs).
    { apply nth_error_Some. congruence. }
    destruct i as [| i]; simpl in Hi |- *.
    + injection Hi as ->.
      rewrite nth_error_app1 by now rewrite length_map.
      now apply map_nth_error.
    + rewrite nth_error_app2 by (rewrite length_map; lia).
      rewrite length_map.
      replace (List.length cs + i * List.length cs + j - List.length cs)
        with (i * List.length cs + j) by lia.
      now apply IH.
Qed.

Lemma observations_self xs : forall obs,
  observations xs xs = Some obs -> Forall (fun p => fst p = snd p) obs.
Proof.
  induction xs as [| x xs IH]; intros obs H; simpl in H.
  - injection H as <-. constructor.
  - destruct (observations xs xs) as [rest |]; [| discriminate].
    destruct (isna x || isna x).
    + injection H as <-. now apply IH.
    + destruct (num x) as [| | a]; try discriminate.
      injection H as <-. constructor; [reflexivity | now apply IH].
Qed.

Lemma Qsum_squares_nonneg (f : Q * Q -> Q) obs :
  (0 <= Qsum (List.map (fun p => f p * f p) obs))%Q.
Proof.
  induction obs as [| p obs IH]; simpl; [apply Qle_refl |].
  change 0%Q with (0 + 0)%Q. apply Qplus_le_compat; [| exact IH].
  destruct (Qlt_le_dec (f p) 0) as [Hn | Hp].
  - setoid_replace (f p * f p)%Q with ((- f p) * (- f p))%Q by ring.
    apply Qmult_le_0_compat; apply Qlt_le_weak;
      now apply (Qopp_lt_compat (f p) 0).
  - now apply Qmult_le_0_compat.
Qed.

(** Under the model of pandas above, the correlation of a column with
    itself is 1 when it is defined. *)
Lemma nancorr_self xs : nancorr xs xs = Fin 1 \/ nancorr xs xs = NaN.
Proof.
  unfold nancorr.
  destruct (observations xs xs) as [obs |] eqn:E; [| now right].
  destruct (List.length obs <? 1); [now right |].
  apply observations_self in E.
  assert (H1 : List.map snd obs = List.map fst obs).
  { apply map_ext_Forall. eapply Forall_impl; [| exact E].
    intros p Hp. now symmetry. }
  rewrite H1. cbv zeta.
  set (m := Qmean (List.map fst obs)).
  assert (H2 : List.map (fun p => (snd p - m) * (snd p - m))%Q obs
               = List.map (fun p => (fst p - m) * (fst p - m))%Q obs).
  { apply map_ext_Forall. eapply Forall_impl; [| exact E].
    intros p Hp. cbv beta. now rewrite Hp. }
  assert (H3 : List.map (fun p => (fst p - m) * (snd p - m))%Q obs
               = List.map (fun p => (fst p - m) * (fst p - m))%Q obs).
  { apply map_ext_Forall. eapply Forall_impl; [| exact E].
    intros p Hp. cbv beta. now rewrite Hp. }
  rewrite H2, H3.
  set (s := Qsum (List.map (fun p => (fst p - m) * (fst p - m))%Q obs)).
  assert (Hs : (0 <= s)%Q)
    by apply (Qsum_squares_nonneg (fun p => (fst p - m)%Q)).
  destruct (Qeq_bool (s * s) 0) eqn:Ez; [now right | left].
  apply Qeq_bool_neq in Ez.
  assert (Hneg : Qltb s 0 = false) by now apply Qltb_ge.
  rewrite Hneg. f_equal. unfold Qsqrt15.
  assert (Hone : (s * s / (s * s) * inject_Z (10 ^ 30)
                  == inject_Z (10 ^ 30))%Q).
  { unfold Qdiv. rewrite (Qmult_inv_r _ Ez). apply Qmult_1_l. }
  rewrite (Qfloor_comp _ _ Hone), Qfloor_Z.
  vm_compute. reflexivity.
Qed.

Lemma pearson_matrix_diagonal df x :
  pearson_matrix df x x = Fin 1 \/ pearson_matrix df x x = NaN.
Proof.
  unfold pearson_matrix.
  destruct (find_column x df) as [c |]; [apply nancorr_self | now right].
Qed.

Lemma nan_to_zero_number v : isnan (nan_to_zero v) = false.
Proof. unfold nan_to_zero. destruct v; reflexivity. Qed.

(** C7 (amended): a heatmap request uses the first six numeric columns
    at most, whatever columns the request names; with fewer than two
    numeric columns the result is empty; otherwise it has n*n cells
    (n = min(6, number of numeric columns), so at most 36), cell (i, j)
    holding the two names and the correlation rounded to two decimals,
    a NaN being replaced by 0; so every diagonal cell is there, with
    value 1 where the self-correlation is 1 and 0 where it is NaN. *)
Theorem heatmap_cells (corr_matrix : str -> str -> float)
    (other_row : Type)
    (aggregate : frame -> ChartRecommendation -> result (list other_row))
    (df : frame) (req : ChartRecommendation) :
  chart_type req = lit "heatmap" ->
  let names := columns (select_dtypes is_number df) in
  let cols := firstn 6 names in
  let n := Nat.min 6 (List.length names) in
  let cells := heatmap_data corr_matrix df in
  calculate_chart_data corr_matrix aggregate df req = Ok (List.map inl cells)
  /\ List.length cols = n
  /\ (List.length names < 2 -> cells = [])
  /\ (2 <= List.length names ->
      List.length cells = n * n
      /\ n * n <= 36
      /\ (forall i j x y,
            nth_error cols i = Some x -> nth_error cols j = Some y ->
            nth_error cells (i * n + j)
            = Some {| heat_x := x; heat_y := y;
                      heat_value :=
                        nan_to_zero (round_nd 2 (corr_matrix x y)) |})
      /\ (forall i x,
            nth_error cols i = Some x ->
            exists c,
              nth_error cells (i * n + i) = Some c
              /\ heat_x c = x /\ heat_y c = x
              /\ (corr_matrix x x = Fin 1 -> heat_value c = Fin 1)
              /\ (corr_matrix x x = NaN -> heat_value c = Fin 0)))
  /\ (forall c, In c cells ->
        isnan (heat_value c) = false
        /\ In (heat_x c) cols /\ In (heat_y c) cols).
Proof.
  intros Hreq names cols n cells.
  assert (Hn : List.length cols = n) by apply length_firstn.
  assert (Hcells : 2 <= List.length names ->
            cells = flat_map
                      (fun x => List.map
                         (fun y => {| heat_x := x; heat_y := y;
                                      heat_value :=
                                        nan_to_zero
                                          (round_nd 2 (corr_matrix x y)) |})
                         cols) cols).
  { intros H2. unfold cells, heatmap_data. fold names. fold cols.
    destruct (Nat.ltb_spec (List.length cols) 2) as [Hlt | _]; [| reflexivity].
    rewrite Hn in Hlt. unfold n in Hlt. lia. }
  split.
  { unfold calculate_chart_data. rewrite Hreq. reflexivity. }
  split; [exact Hn |]. split.
  { intros Hlt. unfold cells, heatmap_data. fold names. fold cols.
    destruct (Nat.ltb_spec (List.length cols) 2) as [_ | Hge]; [reflexivity |].
    rewrite Hn in Hge. unfold n in Hge. lia. }
  split.
  - intros H2. rewrite (Hcells H2).
    split; [now rewrite flat_map_grid_length, Hn |].
    split; [unfold n; nia |].
    split.
    + intros i j x y Hi Hj. rewrite <- Hn.
      now apply (flat_map_grid_nth _ _
                   (fun x y => {| heat_x := x; heat_y := y;
                                  heat_value :=
                                    nan_to_zero
                                      (round_nd 2 (corr_matrix x y)) |})).
    + intros i x Hi. eexists. split.
      * rewrite <- Hn.
        apply (flat_map_grid_nth _ _
                 (fun x y => {| heat_x := x; heat_y := y;
                                heat_value :=
                                  nan_to_zero
                                    (round_nd 2 (corr_matrix x y)) |}));
          exact Hi.
      * cbn [heat_x heat_y heat_value].
        repeat split; intros ->; reflexivity.
  - intros c Hc. unfold cells, heatmap_data in Hc.
    fold names in Hc. fold cols in Hc.
    destruct (List.length cols <? 2); [contradiction |].
    apply in_flat_map in Hc as [x [Hx Hc]].
    apply in_map_iff in Hc as [y [<- Hy]]. cbn [heat_x heat_y heat_value].
    split; [apply nan_to_zero_number | auto].
Qed.

(** The two numeric columns of [constant_frame] give four cells. *)
Lemma heatmap_cells_witness :
  chart_type heatmap_request = lit "heatmap"
  /\ calculate_chart_data constant_matrix
       (fun _ _ => Ok ([] : list unit)) constant_frame heatmap_request
     = Ok (List.map inl (heatmap_data constant_matrix constant_frame))
  /\ List.length (heatmap_data constant_matrix constant_frame) = 4.
Proof.
  split; [reflexivity |].
  destruct (heatmap_cells constant_matrix unit (fun _ _ => Ok [])
              constant_frame heatmap_request eq_refl)
    as (Hcalc & _ & _ & Hgrid & _).
  split; [exact Hcalc |].
  destruct (Hgrid (le_n 2)) as [Hlen _]. exact Hlen.
Defined.

(** C7, as stated, fails on the diagonal: a constant column has no
    self-correlation, and its diagonal cell carries 0, not 1. *)
Lemma heatmap_diagonal_not_one :
  heatmap_data constant_matrix constant_frame
  = [ {| heat_x := lit "a"; heat_y := lit "a"; heat_value := Fin 0 |};
      {| heat_x := lit "a"; heat_y := lit "b"; heat_value := Fin 0 |};
      {| heat_x := lit "b"; heat_y := lit "a"; heat_value := Fin 0 |};
      {| heat_x := lit "b"; heat_y := lit "b"; heat_value := Fin 1 |} ]
  /\ (exists c,
        nth_error (heatmap_data constant_matrix constant_frame) 0 = Some c
        /\ heat_x c = heat_y c
        /\ heat_value c <> Fin 1).
Proof.
  split; [reflexivity |].
  eexists. split; [reflexivity |]. split; [reflexivity | discriminate].
Qed.

End HeatmapFacts.

(* --------------------------------------------------------------------- *)
(** ** The recommendation engine: fences and fallback *)
(* --------------------------------------------------------------------- *)

Module SOPFacts.

Import Blueprint SOP.










Example validate_sales_document :
  exists b, validate_blueprint sales_document = Ok b
            /\ domain b = lit "Sales"
            /\ List.map chart_type (recommended_charts b) = [lit "bar"].
Proof. eexists. split; [reflexivity |]. split; reflexivity. Qed.

Example validate_rejects_unknown_domain :
  validate_blueprint
    (JObj [ (lit "domain", JStr (lit "Marketing"));
            (lit "primary_grain", JStr (lit "id"));
            (lit "numeric_columns", JArr []);
            (lit "categorical_columns", JArr []);
            (lit "recommended_charts", JArr []);
            (lit "summary_insight", JStr []) ])
  = Raise ValidationError.
Proof. reflexivity. Qed.

Example validate_rejects_array :
  validate_blueprint (JArr []) = Raise TypeError.
Proof. reflexivity. Qed.

End SOPFacts.

(* --------------------------------------------------------------------- *)
(** ** Exceptions in loops *)
(* --------------------------------------------------------------------- *)

Module RaiseFacts.

(** A comprehension raises as soon as one of its elements does. *)
Lemma mapM_raises (A B : Type) (f : A -> result B) xs :
  Exists (fun x => exists e, f x = Raise e) xs ->
  exists e, mapM f xs = Raise e.
Proof.
  induction 1 as [x xs [e He] | x xs _ [e IH]]; simpl.
  - rewrite He. now exists e.
  - destruct (f x) as [y |]; simpl; [| eauto].
    rewrite IH. simpl. now exists e.
Qed.

End RaiseFacts.

(* --------------------------------------------------------------------- *)
(** ** Domain detection *)
(* --------------------------------------------------------------------- *)

Module DetectorFacts.

Import Detector.

(** [max] returns the first of the entries with the largest value. *)
Lemma max_from_split best rest :
  exists before after,
    best :: rest = before ++ max_from best rest :: after
    /\ Forall (fun x => snd x < snd (max_from best rest)) before
    /\ Forall (fun x => snd x <= snd (max_from best rest)) after.
Proof.
  revert best. induction rest as [| x rest IH]; intros best; simpl.
  - exists [], []. repeat split; constructor.
  - destruct (Nat.ltb_spec (snd best) (snd x)) as [Hlt | Hge].
    + destruct (IH x) as (before & after & E & Hb & Ha).
      exists (best :: before), after. rewrite E. split; [reflexivity |].
      split; [| exact Ha]. constructor; [| exact Hb].
      destruct before as [| y before]; simpl in E.
      * injection E as E _. rewrite <- E. exact Hlt.
      * injection E as E _. subst y. inversion Hb; subst. lia.
    + destruct (IH best) as (before & after & E & Hb & Ha).
      remember (max_from best rest) as m eqn:Em. clear Em.
      destruct before as [| y before]; simpl in E.
      * injection E as E1 E2. exists [], (x :: after).
        subst m rest. split; [reflexivity |].
        split; [constructor |]. constructor; [exact Hge | exact Ha].
      * injection E as E1 E2. subst y rest.
        exists (best :: x :: before), after.
        split; [reflexivity |]. split; [| exact Ha].
        inversion Hb; subst.
        constructor; [assumption |]. constructor; [lia | assumption].
Qed.

Lemma score_no_headers patterns : score patterns [] = 0.
Proof.
  unfold score. induction patterns as [| p ps IH]; simpl; [reflexivity |].
  exact IH.
Qed.

(** The order of the headers does not change a count. *)
Lemma count_headers_perm pattern h1 h2 :
  Permutation h1 h2 ->
  forall s, count_headers pattern h1 s = count_headers pattern h2 s.
Proof.
  unfold count_headers.
  induction 1 as [| x l l' _ IH | x y l | l l' l'' _ IH1 _ IH2];
    intros s; simpl.
  - reflexivity.
  - apply IH.
  - destruct (contains pattern x), (contains pattern y); reflexivity.
  - now rewrite IH1.
Qed.

Lemma score_perm patterns h1 h2 :
  Permutation h1 h2 -> score patterns h1 = score patterns h2.
Proof.
  intros H. unfold score. generalize 0.
  induction patterns as [| p ps IH]; intros s; simpl; [reflexivity |].
  rewrite (count_headers_perm p _ _ H). apply IH.
Qed.

(** X1: [detect] answers [general] exactly when no domain scores two
    or more (in particular without headers); otherwise it answers the
    domain with the highest score, the first one in the order of
    [DOMAIN_PATTERNS] when several domains tie. *)
Theorem detect_first_best (headers : list str) :
  let hs := List.map lower headers in
  (detect headers = lit "general"
   /\ Forall (fun dp => score (snd dp) hs < 2) DOMAIN_PATTERNS)
  \/ (exists before ps after,
        DOMAIN_PATTERNS = before ++ (detect headers, ps) :: after
        /\ 2 <= score ps hs
        /\ Forall (fun dp => score (snd dp) hs < score ps hs) before
        /\ Forall (fun dp => score (snd dp) hs <= score ps hs) after).
Proof.
  intros hs. unfold detect. fold hs.
  destruct hs as [| h hs'] eqn:Ehs.
  - left. split; [reflexivity |].
    apply Forall_forall. intros dp _. rewrite score_no_headers. lia.
  - cbn [is_nil]. rewrite <- Ehs. clear Ehs h hs'.
    set (g := fun dp : str * list str => (fst dp, score (snd dp) hs)).
    destruct DOMAIN_PATTERNS as [| d ds] eqn:Edp; [discriminate |].
    cbn [List.map].
    destruct (max_from_split (g d) (List.map g ds))
      as (before' & after' & E & Hb & Ha).
    change (g d :: List.map g ds) with (List.map g (d :: ds)) in E.
    apply map_eq_app in E as (before & rest & Esplit & Eb & Er).
    apply map_eq_cons in Er as (dp & after & Erest & Edp' & Eafter).
    subst rest before' after'.
    rewrite <- Edp' in *. unfold g in Hb, Ha |- *. cbn [fst snd] in *.
    rewrite Forall_map in Hb, Ha. cbn [snd] in Hb, Ha.
    destruct (Nat.leb_spec 2 (score (snd dp) hs)) as [Hge | Hlt].
    + right. exists before, (snd dp), after.
      rewrite Esplit. destruct dp as [name ps]. cbn [fst snd] in *.
      repeat split; assumption.
    + left. split; [reflexivity |]. rewrite Esplit.
      apply Forall_app. split.
      * eapply Forall_impl; [| exact Hb]. cbn beta. intros a Ha'. lia.
      * constructor; [exact Hlt |].
        eapply Forall_impl; [| exact Ha]. cbn beta. intros a Ha'. lia.
Qed.

(** X2: the answer of [detect] depends neither on the order of the
    headers nor on their letter case. *)
Theorem detect_order_and_case (h1 h2 : list str) :
  Permutation (List.map lower h1) (List.map lower h2) ->
  detect h1 = detect h2.
Proof.
  intros H. unfold detect.
  assert (Hnil : is_nil (List.map lower h1) = is_nil (List.map lower h2)).
  { apply Permutation_length in H.
    destruct (List.map lower h1), (List.map lower h2);
      simpl in H; try reflexivity; discriminate. }
  rewrite Hnil.
  assert (Hs : List.map (fun dp : str * list str =>
                           (fst dp, score (snd dp) (List.map lower h1)))
                        DOMAIN_PATTERNS
               = List.map (fun dp : str * list str =>
                             (fst dp, score (snd dp) (List.map lower h2)))
                          DOMAIN_PATTERNS).
  { apply map_ext. intros dp. f_equal. now apply score_perm. }
  now rewrite Hs.
Qed.

Lemma detect_order_and_case_witness :
  Permutation (List.map lower [lit "Net Revenue"; lit "COST"])
              (List.map lower [lit "cost"; lit "net revenue"])
  /\ detect [lit "Net Revenue"; lit "COST"] = lit "finance"
  /\ detect [lit "Net Revenue"; lit "COST"]
     = detect [lit "cost"; lit "net revenue"].
Proof.
  assert (H : Permutation (List.map lower [lit "Net Revenue"; lit "COST"])
                          (List.map lower [lit "cost"; lit "net revenue"]))
    by apply perm_swap.
  split; [exact H |]. split; [reflexivity |].
  exact (detect_order_and_case _ _ H).
Defined.

End DetectorFacts.

(* --------------------------------------------------------------------- *)
(** ** Reading a workbook *)
(* --------------------------------------------------------------------- *)

Module ExcelParserFacts.

Import ExcelParser ExcelDate ConvertDate.

Lemma scan_found rows : forall i j,
  scan i rows = Some j ->
  exists k row,
    j = i + k /\ nth_error rows k = Some row /\ 3 <= non_empty row
    /\ forall k' r, k' < k -> nth_error rows k' = Some r -> non_empty r < 3.
Proof.
  induction rows as [| row rows IH]; intros i j; cbn [scan];
    [discriminate |].
  destruct (3 <=? non_empty row) eqn:Hc; intros E.
  - apply Nat.leb_le in Hc. injection E as <-. exists 0, row.
    repeat split; [lia | assumption | intros; lia].
  - apply Nat.leb_gt in Hc.
    apply IH in E as (k & r & -> & Hn & Hr & Hbefore).
    exists (S k), r. repeat split; [lia | exact Hn | exact Hr |].
    intros [| k'] r' Hk Hn'; simpl in Hn'.
    + injection Hn' as <-. exact Hc.
    + apply (Hbefore k'); [lia | exact Hn'].
Qed.

Lemma scan_none rows : forall i,
  scan i rows = None -> Forall (fun r => non_empty r < 3) rows.
Proof.
  induction rows as [| row rows IH]; intros i; cbn [scan]; [constructor |].
  destruct (3 <=? non_empty row) eqn:Hc; [discriminate |].
  apply Nat.leb_gt in Hc.
  intros E. constructor; [exact Hc | eapply IH; exact E].
Qed.

Lemma nth_error_first5 (A : Type) (l : list A) k x :
  nth_error (firstn 5 l) k = Some x -> k < 5 /\ nth_error l k = Some x.
Proof.
  rewrite nth_error_firstn.
  destruct (Nat.ltb_spec k 5); [auto | discriminate].
Qed.

(** X3: the header row of a workbook is the first of its first five
    rows that has three cells or more; it is row 0 when none of them
    has. *)
Theorem header_row_first_full (raw_rows : list (list pyval)) :
  let h := header_row raw_rows in
  h < 5
  /\ ((exists row,
         nth_error raw_rows h = Some row /\ 3 <= non_empty row
         /\ forall i r, i < h -> nth_error raw_rows i = Some r ->
                        non_empty r < 3)
      \/ (h = 0
          /\ forall i r, i < 5 -> nth_error raw_rows i = Some r ->
                         non_empty r < 3)).
Proof.
  unfold header_row.
  destruct (scan 0 (firstn 5 raw_rows)) as [j |] eqn:E.
  - apply scan_found in E as (k & row & -> & Hn & Hr & Hbefore).
    apply nth_error_first5 in Hn as [Hk Hn]. simpl.
    split; [exact Hk |]. left. exists row.
    split; [exact Hn |]. split; [exact Hr |].
    intros i r Hi Hni. apply (Hbefore i); [exact Hi |].
    rewrite nth_error_firstn.
    destruct (Nat.ltb_spec i 5); [exact Hni | lia].
  - apply scan_none in E. split; [lia |]. right. split; [reflexivity |].
    intros i r Hi Hni. rewrite Forall_forall in E. apply E.
    apply nth_error_In with i. rewrite nth_error_firstn.
    destruct (Nat.ltb_spec i 5); [exact Hni | lia].
Qed.

(** A title and an empty row above the header: the header is row 2. *)
Example header_row_budget_sheet : header_row budget_sheet = 2.
Proof. reflexivity. Qed.

(** A converted cell is no longer a serial number. *)
Lemma converted_not_serial v :
  is_int_or_float (_convert_excel_date v)
  && serial_range (_convert_excel_date v) = false.
Proof.
  unfold _convert_excel_date.
  destruct (isna v) eqn:Hna.
  - destruct v as [b | z | [| neg | q] | s | t]; try discriminate.
    reflexivity.
  - destruct (is_int_or_float v && serial_range v) eqn:Hr; [| exact Hr].
    destruct v as [b | z | [| neg | q] | s | t]; try discriminate;
      try reflexivity.
    destruct neg; discriminate.
Qed.

(** X4: converting a cell twice gives what converting it once gives,
    and the date the analyzer reads from a cell is the same whether or
    not the workbook reader converted the cell before. *)
Theorem convert_date_after_excel_date (now : datetime)
    (to_datetime : str -> result datetime) (v : pyval) :
  _convert_excel_date (_convert_excel_date v) = _convert_excel_date v
  /\ _convert_date now to_datetime (_convert_excel_date v)
     = _convert_date now to_datetime v.
Proof.
  split.
  - pose proof (converted_not_serial v) as H.
    unfold _convert_excel_date at 1.
    destruct (isna (_convert_excel_date v)); [reflexivity |].
    now rewrite H.
  - unfold _convert_excel_date.
    destruct (isna v) eqn:Hna; [reflexivity |].
    destruct (is_int_or_float v && serial_range v) eqn:Hr; [| reflexivity].
    destruct v as [b | z | [| neg | q] | s | t]; try discriminate.
    + destruct b; discriminate.
    + unfold _convert_date. rewrite Hr. reflexivity.
    + destruct neg; discriminate.
    + unfold _convert_date. rewrite Hr. reflexivity.
Qed.

Lemma serials_converted_name infer_dtype c :
  name (serials_converted infer_dtype c) = name c.
Proof.
  unfold serials_converted.
  now destruct (contains (lit "date") (lower (name c))).
Qed.

(** X5: the frame read from a workbook has the columns of the sheet
    whose name contains neither [Unnamed] nor [__EMPTY], in the order
    of the sheet; in a column whose lowercased name contains [date] no
    cell is a number strictly between 20000 and 100000 any more, and
    every other column is the one of the sheet. *)
Theorem parse_excel_smart_columns (read_excel : nat -> frame)
    (infer_dtype : list pyval -> dtype) (raw_rows : list (list pyval)) :
  let sheet := read_excel (header_row raw_rows) in
  let df := _parse_excel_smart read_excel infer_dtype raw_rows in
  columns df = filter (fun c => negb (unnamed c)) (columns sheet)
  /\ Forall (fun c => contains (lit "Unnamed") (name c) = false
                      /\ contains (lit "__EMPTY") (name c) = false) df
  /\ Forall (fun c =>
               if contains (lit "date") (lower (name c))
               then Forall (fun v => is_int_or_float v && serial_range v
                                     = false) (cells c)
               else In c sheet) df.
Proof.
  intros sheet df. unfold df, _parse_excel_smart. fold sheet.
  split; [| split].
  - unfold columns. rewrite map_map.
    rewrite (map_ext _ name (serials_converted_name infer_dtype)).
    now rewrite filter_map_swap.
  - apply Forall_forall. intros c Hc.
    apply in_map_iff in Hc as (c0 & <- & Hc0).
    apply filter_In in Hc0 as [_ Hu].
    rewrite serials_converted_name.
    apply negb_true_iff in Hu. unfold unnamed in Hu.
    now apply orb_false_iff in Hu.
  - apply Forall_forall. intros c Hc.
    apply in_map_iff in Hc as (c0 & <- & Hc0).
    apply filter_In in Hc0 as [Hin _].
    rewrite serials_converted_name. unfold serials_converted.
    destruct (contains (lit "date") (lower (name c0))); [| exact Hin].
    cbn [cells]. apply Forall_forall. intros v Hv.
    apply in_map_iff in Hv as (v0 & <- & _). apply converted_not_serial.
Qed.

End ExcelParserFacts.

(* --------------------------------------------------------------------- *)
(** ** The analyzer: models and the columns of a forecast *)
(* --------------------------------------------------------------------- *)

Module AnalyzerFacts.

Import Analyzer SortFacts PyStrFacts CorrelationFacts RaiseFacts.

Lemma first_with_found pattern cols :
  match first_with pattern cols None with
  | Some v =>
      exists before after,
        cols = before ++ v :: after
        /\ contains pattern (lower v) = true
        /\ unmatched before pattern
  | None => unmatched cols pattern
  end.
Proof.
  unfold unmatched. induction cols as [| c cols IH]; simpl; [constructor |].
  destruct (contains pattern (lower c)) eqn:E.
  - exists [], cols. repeat split; [exact E | constructor].
  - destruct (first_with pattern cols None) as [v |].
    + destruct IH as (before & after & -> & Hv & Hb).
      exists (c :: before), after. repeat split; [exact Hv |].
      now constructor.
    + now constructor.
Qed.

Lemma contains_nonempty p s :
  p <> [] -> contains p (lower s) = true -> s <> [].
Proof.
  intros Hp H ->. simpl in H. destruct p; [congruence | discriminate].
Qed.

Lemma preferred_found patterns cols :
  Forall (fun p => p <> []) patterns ->
  match preferred patterns cols None with
  | Some v =>
      truthy (Some v) = true
      /\ exists earlier p later before after,
           patterns = earlier ++ p :: later
           /\ cols = before ++ v :: after
           /\ contains p (lower v) = true
           /\ unmatched before p
           /\ Forall (unmatched cols) earlier
  | None => Forall (unmatched cols) patterns
  end.
Proof.
  induction 1 as [| p ps Hp _ IH]; cbn [preferred]; [constructor |].
  pose proof (first_with_found p cols) as Hf.
  destruct (first_with p cols None) as [v |].
  - destruct Hf as (before & after & Hc & Hv & Hb).
    assert (Ht : truthy (Some v) = true).
    { pose proof (contains_nonempty _ _ Hp Hv) as Hne.
      destruct v; [congruence | reflexivity]. }
    rewrite Ht. split; [exact Ht |].
    exists [], p, ps, before, after. repeat split; try assumption.
    constructor.
  - cbn [truthy].
    destruct (preferred ps cols None) as [v |].
    + destruct IH as (Ht & earlier & q & later & before & after
                      & -> & Hc & Hv & Hb & He).
      split; [exact Ht |].
      exists (p :: earlier), q, later, before, after.
      repeat split; try assumption. now constructor.
    + now constructor.
Qed.

Lemma priority_patterns_nonempty :
  Forall (fun p : str => p <> []) priority_patterns.
Proof. repeat constructor; discriminate. Qed.

(** X6: when [forecast] goes on, its date column is the first date
    column and its value column is a numeric column, both present in
    the frame; the value column is the first numeric column whose
    lowercased name contains the earliest priority pattern that occurs
    in any numeric column, and the first numeric column when no pattern
    occurs. *)
Theorem forecast_columns_priority
    (df_columns date_cols numeric_cols : list str) (d v : str) :
  forecast_columns df_columns date_cols numeric_cols = Some (d, v) ->
  hd_error date_cols = Some d
  /\ In d df_columns /\ In v df_columns /\ In v numeric_cols
  /\ ((exists earlier p later before after,
         priority_patterns = earlier ++ p :: later
         /\ numeric_cols = before ++ v :: after
         /\ contains p (lower v) = true
         /\ unmatched before p
         /\ Forall (unmatched numeric_cols) earlier)
      \/ (hd_error numeric_cols = Some v
          /\ Forall (unmatched numeric_cols) priority_patterns)).
Proof.
  unfold forecast_columns.
  destruct date_cols as [| date_col dates]; [discriminate |].
  destruct numeric_cols as [| first rest] eqn:En; [discriminate |].
  rewrite <- En.
  pose proof (preferred_found priority_patterns numeric_cols
                priority_patterns_nonempty) as Hp.
  destruct (preferred priority_patterns numeric_cols None) as [w |].
  - destruct Hp as [Ht Hp]. rewrite Ht. cbn [negb orb]. rewrite Ht.
    destruct (mem date_col df_columns) eqn:Hd; cbn [negb orb];
      [| discriminate].
    destruct (mem w df_columns) eqn:Hw; cbn [negb orb]; [| discriminate].
    intros E. injection E as <- <-.
    apply mem_In in Hd, Hw.
    split; [reflexivity |]. split; [exact Hd |]. split; [exact Hw |].
    split; [| left; exact Hp].
    destruct Hp as (_ & _ & _ & before & after & _ & -> & _).
    apply in_or_app. right. now left.
  - change (truthy None) with false. cbn [negb].
    destruct (truthy (Some first)) eqn:Ht; cbn [negb orb];
      [| discriminate].
    destruct (mem date_col df_columns) eqn:Hd; cbn [negb orb];
      [| discriminate].
    destruct (mem first df_columns) eqn:Hw; cbn [negb orb];
      [| discriminate]. intros E. injection E as <- <-.
    apply mem_In in Hd, Hw.
    split; [reflexivity |]. split; [exact Hd |]. split; [exact Hw |].
    split; [rewrite En; now left |].
    right. split; [rewrite En; reflexivity | exact Hp].
Qed.

(** The priority of the patterns wins over the order of the columns:
    [revenue] is preferred to [total_cost], which comes first. *)
Lemma forecast_columns_priority_witness :
  forecast_columns [lit "day"; lit "total_cost"; lit "revenue"]
                   [lit "day"] [lit "total_cost"; lit "revenue"]
  = Some (lit "day", lit "revenue")
  /\ In (lit "revenue") [lit "total_cost"; lit "revenue"].
Proof.
  assert (E : forecast_columns [lit "day"; lit "total_cost"; lit "revenue"]
                [lit "day"] [lit "total_cost"; lit "revenue"]
              = Some (lit "day", lit "revenue"))
    by (vm_compute; reflexivity).
  split; [exact E |].
  exact (proj1 (proj2 (proj2 (proj2
           (forecast_columns_priority _ _ _ _ _ E))))).
Defined.

(** X7: [forecast] gives nothing for fewer than three dated values, and
    nothing as soon as one value cannot be read as a number. *)
Theorem forecast_sorted_nothing (py : interpreter)
    (df_sorted : list (pyval * pyval)) (months_ahead : nat) :
  List.length df_sorted < 3
  \/ Exists (fun row => exists e, astype_float py (snd row) = Raise e)
            df_sorted ->
  forecast_sorted py df_sorted months_ahead = None.
Proof.
  intros H. unfold forecast_sorted.
  destruct (Nat.ltb_spec (List.length df_sorted) 3) as [Hlt | Hge];
    [reflexivity |].
  destruct H as [H | H]; [lia |].
  assert (Hex : Exists (fun v => exists e, astype_float py v = Raise e)
                       (List.map snd df_sorted)).
  { apply Exists_exists in H as (row & Hin & He).
    apply Exists_exists. exists (snd row). split; [now apply in_map | exact He]. }
  apply mapM_raises in Hex as [e He]. rewrite He. reflexivity.
Qed.

(** One text among four values: no forecast. *)
Lemma forecast_sorted_nothing_witness :
  forecast_sorted plain_interpreter
    (revenue_example ++ [(VTime (midnight 0), VStr (lit "n/a"))])
    default_months_ahead
  = None.
Proof.
  apply forecast_sorted_nothing. right.
  apply Exists_exists. exists (VTime (midnight 0), VStr (lit "n/a")).
  split; [apply in_or_app; right; now left |].
  exists ValueError. reflexivity.
Defined.

Lemma sorted_nth (A : Type) (R : A -> A -> Prop) l :
  StronglySorted R l ->
  forall j k x y, j < k -> nth_error l j = Some x -> nth_error l k = Some y ->
                  R x y.
Proof.
  induction 1 as [| a l _ IH Ha]; intros j k x y Hjk Hj Hk.
  - destruct j; discriminate.
  - destruct k as [| k]; [lia |]. simpl in Hk.
    destruct j as [| j]; simpl in Hj.
    + injection Hj as <-. rewrite Forall_forall in Ha. apply Ha.
      eapply nth_error_In; exact Hk.
    + apply (IH j k); [lia | assumption | assumption].
Qed.

(** The list of correlations is ranked. *)
Lemma calculate_correlations_ranked df_columns corr_matrix numeric_cols cs :
  (forall a b neg, corr_matrix a b <> Inf neg) ->
  _calculate_correlations df_columns corr_matrix numeric_cols = Ok cs ->
  StronglySorted not_weaker cs.
Proof.
  intros Hb. unfold _calculate_correlations.
  destruct (List.length (filter (meaningful df_columns) numeric_cols) <? 2).
  - intros E. injection E as <-. constructor.
  - destruct (foldM_visit corr_matrix Hb
                (pairs (filter (meaningful df_columns) numeric_cols)) [])
      as [found [Hfold Hrep]].
    simpl in Hfold. rewrite Hfold. cbn [bind]. intros E.
    assert (Ecs : cs = firstn 10 (sort_desc (fun x => abs (correlation x))
                                            found)) by congruence.
    rewrite Ecs.
    apply firstn_sorted, sorted_not_weaker, sort_desc_sorted.
    apply Forall_forall. intros x Hx.
    destruct (Forall2_In_r _ _ _ _ _ _ Hrep Hx) as [p [_ Hp]].
    eapply reported_finite_key, Hp.
Qed.

(** X8: the models of an analysis are its five strongest correlations
    (all of them when there are fewer), in rank order: model [k] names
    the pair of correlation [k] as [a<->b] with its coefficient and
    insight, and no correlation that follows it is stronger. *)
Theorem build_models_strongest (df_columns : list str)
    (corr_matrix : str -> str -> float) (numeric_cols : list str)
    (cs : list correlation_record) :
  (forall a b neg, corr_matrix a b <> Inf neg) ->
  _calculate_correlations df_columns corr_matrix numeric_cols = Ok cs ->
  let ms := _build_models cs in
  List.length ms = Nat.min 5 (List.length cs)
  /\ forall k m, nth_error ms k = Some m ->
       exists c,
         nth_error cs k = Some c
         /\ feature m = feature_a c ++ lit "<->" ++ feature_b c
         /\ model_correlation m = correlation c
         /\ model_insight m = insight c
         /\ model_type m = lit "correlation"
         /\ forall j c', k < j -> nth_error cs j = Some c' ->
                         not_weaker c c'.
Proof.
  intros Hb Hcs ms. unfold ms, _build_models.
  split; [now rewrite length_map, length_firstn |].
  intros k m Hk. rewrite nth_error_map in Hk.
  destruct (nth_error (firstn 5 cs) k) as [c |] eqn:Hc; [| discriminate].
  injection Hk as <-. rewrite nth_error_firstn in Hc.
  destruct (k <? 5); [| discriminate].
  exists c. repeat split; try assumption.
  intros j c' Hj Hc'.
  apply (sorted_nth _ _ _ (calculate_correlations_ranked _ _ _ _ Hb Hcs)
           k j); assumption.
Qed.

Lemma build_models_strongest_witness :
  exists cs,
    _calculate_correlations (columns CorrelationExample.data)
      (pearson_matrix CorrelationExample.data) CorrelationExample.numeric
    = Ok cs
    /\ List.map feature (_build_models cs)
       = [lit "x<->z"; lit "x<->y"; lit "y<->z"]
    /\ List.length (_build_models cs) = Nat.min 5 (List.length cs).
Proof.
  eexists. split; [vm_compute; reflexivity |].
  split; [vm_compute; reflexivity |].
  match goal with
  | |- List.length (_build_models ?cs) = _ =>
      assert (E : _calculate_correlations (columns CorrelationExample.data)
                    (pearson_matrix CorrelationExample.data)
                    CorrelationExample.numeric
                  = Ok cs) by (vm_compute; reflexivity);
      exact (proj1 (build_models_strongest _ _ _ _
                      (pearson_matrix_bounded CorrelationExample.data) E))
  end.
Defined.

End AnalyzerFacts.

(* --------------------------------------------------------------------- *)
(** ** The alphabet of a standardized header *)
(* --------------------------------------------------------------------- *)

Module HeaderShapeFacts.

Import HeaderShape HeaderFacts.

Lemma ascii_table_snake :
  forallb lowers_to_snake (List.map N.of_nat (seq 0 128)) = true.
Proof. vm_compute. reflexivity. Qed.

Lemma ascii_lowers_to_snake c :
  is_ascii c = true -> lowers_to_snake c = true.
Proof.
  unfold is_ascii. intros H. apply N.ltb_lt in H.
  pose proof ascii_table_snake as T.
  rewrite forallb_forall in T. apply T.
  apply in_map_iff. exists (N.to_nat c). split.
  - apply N2Nat.id.
  - apply in_seq. lia.
Qed.

(** X9: the standardized form of an ASCII header is written with
    lowercase letters, digits and underscores only. *)
Theorem standardize_header_alphabet (h : str) :
  Forall (fun c => is_ascii c = true) h ->
  Forall (fun c => snake c = true) (_standardize_header h).
Proof.
  intros H. unfold _standardize_header, lower.
  set (s := sub_ws false (drop_nonword (strip h))).
  assert (Hw : Forall (fun c => isword c = true /\ isspace c = false) s)
    by apply sub_ws_word.
  assert (Ha : Forall (fun c => is_ascii c = true) s).
  { apply sub_ws_Forall; [reflexivity |].
    apply drop_nonword_Forall, strip_Forall, H. }
  clearbody s. induction s as [| c s IH]; simpl; [constructor |].
  inversion Hw as [| ? ? [Hc1 Hc2] Hw']; subst.
  inversion Ha as [| ? ? Hc3 Ha']; subst.
  apply Forall_app. split; [| now apply IH].
  apply ascii_lowers_to_snake in Hc3. unfold lowers_to_snake in Hc3.
  rewrite Hc1, Hc2 in Hc3. simpl in Hc3.
  apply Forall_forall. now apply forallb_forall.
Qed.

Lemma standardize_header_alphabet_witness :
  Forall (fun c => is_ascii c = true) (lit " Unit Price (USD) ")
  /\ _standardize_header (lit " Unit Price (USD) ") = lit "unit_price_usd"
  /\ Forall (fun c => snake c = true)
            (_standardize_header (lit " Unit Price (USD) ")).
Proof.
  assert (H : Forall (fun c => is_ascii c = true) (lit " Unit Price (USD) ")).
  { repeat constructor. }
  split; [exact H |]. split; [reflexivity |].
  exact (standardize_header_alphabet _ H).
Defined.

End HeaderShapeFacts.

(* --------------------------------------------------------------------- *)
(** ** Rows of a frame by position *)
(* --------------------------------------------------------------------- *)

Module FrameRowsFacts.

Import FrameRows.

Lemma marked_from_S k mask :
  marked_from (S k) mask = List.map S (marked_from k mask).
Proof.
  revert k. induction mask as [| m mask IH]; intros k; simpl;
    [reflexivity |].
  destruct m; simpl; now rewrite IH.
Qed.

Lemma take_shift (A : Type) (d x : A) positions xs :
  take d (List.map S positions) (x :: xs) = take d positions xs.
Proof. unfold take. rewrite map_map. reflexivity. Qed.

Lemma marked_from_bound mask : forall k i,
  In i (marked_from k mask) -> k <= i < k + List.length mask.
Proof.
  induction mask as [| m mask IH]; intros k i; simpl; [tauto |].
  destruct m; simpl.
  - intros [<- | H]; [lia |]. apply IH in H. lia.
  - intros H. apply IH in H. lia.
Qed.

(** Selecting by a mask is taking the marked positions. *)
Lemma select_rows_marked mask : forall xs,
  List.length mask = List.length xs ->
  select_rows mask xs = take (VFloat NaN) (marked mask) xs.
Proof.
  unfold marked.
  induction mask as [| m mask IH]; intros [| x xs] Hlen;
    try discriminate; [reflexivity |].
  simpl in Hlen. injection Hlen as Hlen.
  cbn [select_rows marked_from]. rewrite marked_from_S.
  destruct m.
  - change (take (VFloat NaN) (0 :: List.map S (marked_from 0 mask)) (x :: xs))
      with (x :: take (VFloat NaN) (List.map S (marked_from 0 mask)) (x :: xs)).
    rewrite take_shift. f_equal. now apply IH.
  - rewrite take_shift. now apply IH.
Qed.

Lemma filter_marked (A : Type) (p : A -> bool) (d : A) xs :
  filter p xs = take d (marked (List.map p xs)) xs.
Proof.
  unfold marked. induction xs as [| x xs IH]; [reflexivity |].
  cbn [filter List.map marked_from]. rewrite marked_from_S.
  destruct (p x).
  - change (take d (0 :: List.map S (marked_from 0 (List.map p xs))) (x :: xs))
      with (x :: take d (List.map S (marked_from 0 (List.map p xs))) (x :: xs)).
    rewrite take_shift. now f_equal.
  - now rewrite take_shift.
Qed.

Lemma map_nth_seq (A B : Type) (g : A -> B) (d : A) l :
  List.map (fun j => g (nth j l d)) (seq 0 (List.length l)) = List.map g l.
Proof.
  induction l as [| x l IH]; [reflexivity |].
  cbn [List.length seq List.map nth]. f_equal.
  rewrite <- seq_shift, map_map. exact IH.
Qed.

Lemma length_records df : List.length (records df) = nrows df.
Proof. unfold records. now rewrite length_map, length_seq. Qed.

Lemma nth_records df i :
  i < nrows df -> nth i (records df) [] = row df i.
Proof.
  intros Hi. unfold records.
  rewrite (nth_indep _ [] (row df 0)) by now rewrite length_map, length_seq.
  rewrite map_nth. now rewrite seq_nth.
Qed.

(** The records of the rows taken are the records at these positions. *)
Lemma records_take_rows positions df :
  df <> [] ->
  records (take_rows positions df) = List.map (row df) positions.
Proof.
  intros Hne. unfold records.
  assert (Hn : nrows (take_rows positions df) = List.length positions).
  { destruct df as [| c df]; [congruence |].
    simpl. unfold take. now rewrite length_map. }
  rewrite Hn. rewrite <- (map_nth_seq _ _ (row df) 0 positions).
  apply map_ext_in. intros j Hj. apply in_seq in Hj.
  unfold row, take_rows. rewrite map_map. apply map_ext. intros c.
  cbn [cells]. unfold take.
  rewrite (nth_indep _ (VFloat NaN) (nth 0 (cells c) (VFloat NaN)))
    by (rewrite length_map; lia).
  now rewrite (map_nth (fun i => nth i (cells c) (VFloat NaN))).
Qed.

Lemma take_in_range (A : Type) (d : A) (f : nat -> A) positions xs :
  (forall i, In i positions -> nth i xs d = f i) ->
  take d positions xs = List.map f positions.
Proof. intros H. unfold take. now apply map_ext_in. Qed.

(** X10: [dropna(how='all')] keeps exactly the rows that have a cell,
    in their order. *)
Theorem dropna_all_records (df : frame) :
  well_formed df ->
  records (dropna_all df)
  = filter (fun r => negb (all_missing r)) (records df).
Proof.
  intros Hwf. destruct df as [| c0 df0] eqn:Edf; [reflexivity |].
  rewrite <- Edf in *.
  set (p := fun r => negb (all_missing r)).
  set (mask := List.map p (records df)).
  assert (Hlen : List.length mask = nrows df).
  { unfold mask. now rewrite length_map, length_records. }
  assert (Hdrop : dropna_all df = take_rows (marked mask) df).
  { unfold dropna_all, take_rows. fold p. fold mask.
    apply map_ext_in. intros c Hc. f_equal.
    apply select_rows_marked. rewrite Hlen. symmetry.
    unfold well_formed in Hwf. rewrite Forall_forall in Hwf.
    now apply Hwf. }
  rewrite Hdrop, records_take_rows by (rewrite Edf; discriminate).
  rewrite (filter_marked _ p [] (records df)). fold mask.
  symmetry. apply take_in_range. intros i Hi.
  apply marked_from_bound in Hi. apply nth_records. lia.
Qed.

(** The file [Name,Score,Order Date] whose second line is empty. *)
Lemma dropna_all_records_witness :
  well_formed FrameExample.people
  /\ List.length (records FrameExample.people) = 3
  /\ List.length (records (dropna_all FrameExample.people)) = 2
  /\ records (dropna_all FrameExample.people)
     = filter (fun r => negb (all_missing r)) (records FrameExample.people).
Proof.
  assert (H : well_formed FrameExample.people) by (repeat constructor).
  split; [exact H |]. split; [reflexivity |]. split; [reflexivity |].
  exact (dropna_all_records _ H).
Defined.

End FrameRowsFacts.

(* --------------------------------------------------------------------- *)
(** ** The cleaner: failure of a finance rule, shape of the result *)
(* --------------------------------------------------------------------- *)

Module CleanerShapeFacts.

Import PyStrFacts RaiseFacts CleanerFacts.

Lemma each_column_raises f df :
  Exists (fun c => exists e, f c = Raise e) df ->
  exists e, each_column f df = Raise e.
Proof.
  induction 1 as [c df [e He] | c df _ [e IH]]; simpl.
  - rewrite He. now exists e.
  - destruct (f c) as [r |]; simpl; [| eauto].
    rewrite IH. simpl. now exists e.
Qed.

(** X11: under the finance rules a text column with one currency
    amount and one cell that is not a number after the currency signs
    and commas are removed makes [clean] raise: nothing is returned for
    the file. *)
Theorem finance_rules_all_or_nothing (py : interpreter) (df : frame)
    (ext filename : str) (c : column) :
  In c df ->
  is_object (dtype_of c) = true ->
  Exists (fun v => currency_match (py_str py v) = true) (cells c) ->
  Exists (fun v => exists e,
              float_of_str py (strip_currency (py_str py v)) = Raise e)
         (cells c) ->
  exists e, clean py df ext filename (lit "finance") = Raise e.
Proof.
  intros Hin Hobj Hmatch Hbad.
  assert (Hcol : exists e,
             convert_column py currency_match strip_currency (fun f => f)
               (lit "[CURRENCY] Converted currency in ") c = Raise e).
  { unfold convert_column. rewrite Hobj.
    assert (Hex : existsb currency_match (List.map (py_str py) (cells c))
                  = true).
    { apply Exists_exists in Hmatch as (v & Hv & Hm).
      apply existsb_exists. exists (py_str py v).
      split; [now apply in_map | exact Hm]. }
    rewrite Hex.
    destruct (mapM_raises _ _
                (fun s => float_of_str py (strip_currency s))
                (List.map (py_str py) (cells c))) as [e He].
    { apply Exists_exists in Hbad as (v & Hv & Hb).
      apply Exists_exists. exists (py_str py v).
      split; [now apply in_map | exact Hb]. }
    rewrite He. now exists e. }
  destruct (each_column_raises
              (convert_column py currency_match strip_currency (fun f => f)
                 (lit "[CURRENCY] Converted currency in ")) df) as [e He].
  { apply Exists_exists. now exists c. }
  exists e. unfold clean, _apply_cleaning_rules.
  change (domain_rules (lit "finance"))
    with [remove_currency_symbols; convert_percentages; handle_nulls;
          trim_whitespace].
  cbn [foldM apply_rule]. rewrite He. reflexivity.
Qed.

(** A price list with the cells [$1,200.50] and [TBD]. *)
Lemma finance_rules_all_or_nothing_witness :
  exists e,
    clean plain_interpreter PriceExample.prices (lit "csv")
          (lit "prices.csv") (lit "finance") = Raise e.
Proof.
  apply (finance_rules_all_or_nothing plain_interpreter PriceExample.prices
           (lit "csv") (lit "prices.csv")
           {| name := lit "Price"; dtype_of := DObject;
              cells := [VStr (lit "$1,200.50"); VStr (lit "TBD")] |}).
  - right. now left.
  - reflexivity.
  - apply Exists_cons_hd. reflexivity.
  - apply Exists_cons_tl, Exists_cons_hd. now exists ValueError.
Defined.

(** ** The rules keep the number of rows *)

Import FrameRows.

Lemma same_lengths_refl df : same_lengths df df.
Proof. induction df; constructor; auto. Qed.

Lemma same_lengths_trans a b c :
  same_lengths a b -> same_lengths b c -> same_lengths a c.
Proof.
  intros H. revert c. induction H as [| x y a b Hxy _ IH]; intros c Hc.
  - inversion Hc. constructor.
  - inversion Hc as [| ? z ? c' Hyz Hbc]; subst. constructor.
    + congruence.
    + now apply IH.
Qed.

Lemma same_lengths_map (f : column -> column) df :
  (forall c, List.length (cells (f c)) = List.length (cells c)) ->
  same_lengths df (List.map f df).
Proof.
  intros Hf. induction df as [| c df IH]; simpl; constructor; auto.
Qed.

Lemma same_lengths_nrows a b : same_lengths a b -> nrows a = nrows b.
Proof. destruct 1; simpl; auto. Qed.

Lemma same_lengths_length a b :
  same_lengths a b -> List.length a = List.length b.
Proof. induction 1; simpl; auto. Qed.

Section Rules.

Variable py : interpreter.

Lemma convert_column_length matches rewrite scale tag c c' l :
  convert_column py matches rewrite scale tag c = Ok (c', l) ->
  List.length (cells c) = List.length (cells c').
Proof.
  unfold convert_column. intros H.
  destruct (is_object (dtype_of c)); [| now inversion H].
  destruct (existsb matches _); [| now inversion H].
  destruct (mapM _ _) as [floats |] eqn:E; [| discriminate].
  apply ForecastFacts.mapM_length in E. rewrite length_map in E.
  inversion H; subst. cbn [cells]. now rewrite length_map.
Qed.

Lemma each_column_lengths f df df' logs :
  (forall c c' l, f c = Ok (c', l) ->
                  List.length (cells c) = List.length (cells c')) ->
  each_column f df = Ok (df', logs) -> same_lengths df df'.
Proof.
  intros Hf. revert df' logs.
  induction df as [| c df IH]; simpl; intros df' logs H.
  - inversion H; subst. constructor.
  - destruct (f c) as [[c' l] |] eqn:Ec; [| discriminate]. simpl in H.
    destruct (each_column f df) as [[rest l'] |] eqn:Er; [| discriminate].
    simpl in H. inversion H; subst.
    constructor; [eapply Hf; exact Ec | eapply IH; reflexivity].
Qed.

Lemma apply_rule_lengths r df logs df' logs' :
  apply_rule py r (df, logs) = Ok (df', logs') -> same_lengths df df'.
Proof.
  destruct r; simpl; intros H.
  - destruct (each_column _ df) as [[d l] |] eqn:E; [| discriminate].
    simpl in H. inversion H; subst.
    eapply each_column_lengths; [| exact E].
    intros c c' l0. apply convert_column_length.
  - destruct (each_column _ df) as [[d l] |] eqn:E; [| discriminate].
    simpl in H. inversion H; subst.
    eapply each_column_lengths; [| exact E].
    intros c c' l0. apply convert_column_length.
  - destruct (0 <? null_count df); inversion H; subst;
      apply same_lengths_refl.
  - inversion H; subst. apply same_lengths_map. intros c.
    unfold trim_column. destruct (is_object (dtype_of c)); [| reflexivity].
    cbn [cells]. apply length_map.
  - inversion H; subst. apply same_lengths_refl.
  - inversion H; subst. apply same_lengths_refl.
Qed.

Lemma foldM_rules_lengths rules : forall df logs df' logs',
  foldM (apply_rule py) rules (df, logs) = Ok (df', logs') ->
  same_lengths df df'.
Proof.
  induction rules as [| r rules IH]; intros df logs df' logs' H;
    cbn [foldM] in H.
  - inversion H; subst. apply same_lengths_refl.
  - destruct (apply_rule py r (df, logs)) as [[d l] |] eqn:E;
      cbn [bind] in H; [| discriminate].
    eapply same_lengths_trans.
    + eapply apply_rule_lengths; exact E.
    + eapply IH; exact H.
Qed.

End Rules.

Lemma select_rows_length mask : forall xs,
  List.length (select_rows mask xs) <= List.length xs.
Proof.
  induction mask as [| m mask IH]; intros [| x xs]; simpl; try lia.
  specialize (IH xs). destruct m; simpl; lia.
Qed.

Lemma dropna_all_nrows df : nrows (dropna_all df) <= nrows df.
Proof.
  unfold dropna_all. destruct df as [| c df]; [reflexivity |].
  cbn [List.map nrows cells]. apply select_rows_length.
Qed.

Lemma columns_renamed (f : str -> str) df :
  columns (List.map (fun c => {| name := f (name c);
                                 dtype_of := dtype_of c;
                                 cells := cells c |}) df)
  = List.map f (columns df).
Proof. unfold columns. now rewrite !map_map. Qed.

Lemma nrows_renamed (f : str -> str) df :
  nrows (List.map (fun c => {| name := f (name c);
                               dtype_of := dtype_of c;
                               cells := cells c |}) df)
  = nrows df.
Proof. now destruct df. Qed.

(** X12: [clean] keeps the columns and never adds a row: the headers
    are the standardized names of the columns of the file, in their
    order; every column reported as numeric, categorical or date is one
    of the headers; the row count is the number of rows returned and is
    at most the number of rows read. *)
Theorem clean_keeps_columns (py : interpreter) (df : frame)
    (ext filename domain : str) (res : cleaned) :
  clean py df ext filename domain = Ok res ->
  headers res = List.map _standardize_header (columns df)
  /\ column_count res = List.length df
  /\ row_count res = List.length (rows res)
  /\ row_count res <= nrows df
  /\ incl (numeric_columns res) (headers res)
  /\ incl (categorical_columns res) (headers res)
  /\ incl (date_columns res) (headers res).
Proof.
  unfold clean. intros H.
  destruct (_apply_cleaning_rules py df (domain_rules domain))
    as [[ruled logs] |] eqn:Er; [| discriminate].
  cbn [bind] in H. injection H as <-.
  cbn [headers column_count row_count rows numeric_columns
       categorical_columns date_columns].
  pose proof (clean_columns py df domain ruled logs Er) as Hcols.
  apply apply_cleaning_rules_inv in Er as [logs' Er].
  pose proof (foldM_rules_lengths py _ _ _ _ _ Er) as Hlen.
  rewrite columns_renamed, nrows_renamed, Hcols.
  split; [reflexivity |].
  split.
  { rewrite length_map. unfold dropna_all. rewrite length_map.
    symmetry. apply same_lengths_length, Hlen. }
  split.
  { unfold records. rewrite length_map, length_seq.
    now rewrite nrows_renamed. }
  split.
  { rewrite (same_lengths_nrows _ _ Hlen). apply dropna_all_nrows. }
  rewrite <- Hcols.
  split; [| split]; intros x Hx; apply in_map_iff in Hx as (a & <- & Ha);
    apply in_map.
  - apply filter_In in Ha as [Ha _].
    apply select_dtypes_In in Ha as (c & Hc & <- & _).
    now apply in_map.
  - apply select_dtypes_In in Ha as (c & Hc & <- & _).
    now apply in_map.
  - unfold _detect_date_columns in Ha.
    apply columns_In in Ha as (c & Hc & <-).
    apply filter_In in Hc as [Hc _]. now apply in_map.
Qed.

(** The file [Name,Score,Order Date]: three headers and three rows. *)
Lemma clean_keeps_columns_witness :
  exists res,
    clean plain_interpreter FrameExample.people (lit "csv")
          (lit "people.csv") (lit "general") = Ok res
    /\ headers res = [lit "name"; lit "score"; lit "order_date"]
    /\ row_count res = 3
    /\ column_count res = 3.
Proof.
  eexists. split; [vm_compute; reflexivity |].
  split; [reflexivity |]. split; [reflexivity |].
  match goal with
  | |- column_count ?res = _ =>
      assert (E : clean plain_interpreter FrameExample.people (lit "csv")
                    (lit "people.csv") (lit "general") = Ok res)
        by (vm_compute; reflexivity);
      exact (proj1 (proj2 (clean_keeps_columns _ _ _ _ _ _ E)))
  end.
Defined.

End CleanerShapeFacts.

(* --------------------------------------------------------------------- *)
(** ** The language-model factory *)
(* --------------------------------------------------------------------- *)

Module LLMFacts.

Import LLM SubstringFacts PyStrFacts.

(** *** Stripping twice *)







(** *** Pieces of a text *)











Section Providers.

Variable _chat_openai _chat_claude _chat_gemini _chat_ollama
  : LLMFactory -> str -> result str.


(** [chat] returns a text whatever the client does. *)
Lemma chat_answers self prompt :
  exists text,
    chat _chat_openai _chat_claude _chat_gemini _chat_ollama self prompt
    = Ok text.
Proof.
  unfold LLM.chat, try_except.
  destruct (if PyStr.eqb (provider self) (lit "openai") then _ else _);
    eauto.
Qed.


(** X14: when [LLM_PROVIDER] names none of the providers the factory
    knows, [chat] gives the mock reply without calling any client, but
    [generate_executive_summary] reports a missing API key. *)
Theorem unknown_provider_chats_without_summary
    (getenv : str -> option str) (prompt filename : str)
    (stats : stats_dict) (domain : str) :
  let self := __init__ getenv in
  mem (provider self)
      [lit "openai"; lit "claude"; lit "gemini"; lit "ollama"; lit "mock"]
  = false ->
  chat _chat_openai _chat_claude _chat_gemini _chat_ollama self prompt
  = Ok mock_reply
  /\ generate_executive_summary _chat_openai _chat_claude _chat_gemini
      _chat_ollama self filename stats domain
     = Ok (_error_response
             (lit "Missing API Key for " ++ upper (provider self)
              ++ lit ". Check .env file.")).
Proof.
  intros self H.
  cbn [mem existsb] in H.
  repeat (apply orb_false_iff in H; destruct H as [? H]).
  assert (Hp : provider self
               = lower (getenv_or getenv (lit "LLM_PROVIDER") (lit "mock"))).
  { unfold self, __init__.
    repeat match goal with
           | |- context [if ?b then _ else _] => destruct b
           end; reflexivity. }
  assert (Hkey : api_key self = None).
  { unfold self, __init__. fold (provider self) in *.
    rewrite <- Hp.
    repeat match goal with
           | H : PyStr.eqb ?a ?b = false |- context [PyStr.eqb ?a ?b] =>
               rewrite H
           end.
    reflexivity. }
  split.
  - unfold LLM.chat.
    repeat match goal with
           | H : PyStr.eqb ?a ?b = false |- context [PyStr.eqb ?a ?b] =>
               rewrite H
           end.
    reflexivity.
  - unfold LLM.generate_executive_summary.
    rewrite Hkey. cbn [mem existsb falsy].
    repeat match goal with
           | H : PyStr.eqb ?a ?b = false |- context [PyStr.eqb ?a ?b] =>
               rewrite H
           end.
    reflexivity.
Qed.

End Providers.

(** [LLM_PROVIDER=Llama]: the mock reply, and no summary. *)
Lemma unknown_provider_chats_without_summary_witness :
  provider (__init__ llama_env) = lit "llama"
  /\ chat offline offline offline offline (__init__ llama_env) (lit "hello")
     = Ok mock_reply.
Proof.
  split; [reflexivity |].
  exact (proj1 (unknown_provider_chats_without_summary
                  offline offline offline offline llama_env (lit "hello")
                  (lit "sales.csv")
                  {| rowCount := None; numericColumns := None |}
                  (lit "Sales") eq_refl)).
Defined.

End LLMFacts.

(* --------------------------------------------------------------------- *)
(** ** Slices and pages *)
(* --------------------------------------------------------------------- *)

Module PageFacts.

Import Api FrameRows FrameRowsFacts PyStrFacts.

Lemma firstn_seq m : forall a n, firstn m (seq a n) = seq a (Nat.min m n).
Proof.
  induction m as [| m IH]; intros a [| n]; simpl; try reflexivity.
  f_equal. apply IH.
Qed.

Lemma list_as_take (A : Type) (d : A) xs :
  xs = take d (seq 0 (List.length xs)) xs.
Proof.
  unfold take. symmetry.
  rewrite (map_nth_seq A A (fun x => x) d xs). apply map_id.
Qed.

(** A slice takes the positions of its range. *)
Lemma slice_take (A : Type) (d : A) xs start stop :
  slice xs start stop = take d (slice_range (List.length xs) start stop) xs.
Proof.
  unfold slice, slice_range.
  set (n := List.length xs).
  set (lo := Z.to_nat (slice_bound (Z.of_nat n) start)).
  set (m := Z.to_nat (slice_bound (Z.of_nat n) stop
                      - slice_bound (Z.of_nat n) start)).
  transitivity (firstn m (skipn lo (take d (seq 0 n) xs))).
  { f_equal. f_equal. apply list_as_take. }
  unfold take. rewrite skipn_map, firstn_map, skipn_seq, firstn_seq.
  reflexivity.
Qed.

Lemma slice_range_bound n start stop i :
  In i (slice_range n start stop) -> i < n.
Proof. unfold slice_range. intros H. apply in_seq in H. lia. Qed.

(** The records of a slice of a frame are the slice of its records. *)
Lemma records_iloc df start stop :
  well_formed df ->
  records (iloc df start stop) = slice (records df) start stop.
Proof.
  intros Hwf. destruct df as [| c0 df0] eqn:Edf.
  { unfold slice. cbn [records nrows seq List.map iloc].
    now rewrite skipn_nil, firstn_nil. }
  rewrite <- Edf in *.
  assert (Hiloc : iloc df start stop
                  = take_rows (slice_range (nrows df) start stop) df).
  { unfold iloc, take_rows. apply map_ext_in. intros c Hc. f_equal.
    rewrite (slice_take _ (VFloat NaN)). f_equal. f_equal.
    unfold well_formed in Hwf. rewrite Forall_forall in Hwf.
    now apply Hwf. }
  rewrite Hiloc, records_take_rows by (rewrite Edf; discriminate).
  rewrite (slice_take _ []), length_records.
  symmetry. apply take_in_range. intros i Hi.
  apply nth_records. now apply slice_range_bound in Hi.
Qed.

(** A slice that starts at [s >= 0] and has [len >= 0] elements. *)
Lemma slice_from (A : Type) (xs : list A) s len :
  (0 <= s)%Z -> (0 <= len)%Z ->
  slice xs s (s + len)
  = firstn (Z.to_nat len) (skipn (Z.to_nat s) xs).
Proof.
  intros Hs Hl. unfold slice, slice_bound.
  set (n := Z.of_nat (List.length xs)).
  destruct (Z.ltb_spec s 0) as [? | _]; [lia |].
  destruct (Z.ltb_spec (s + len) 0) as [? | _]; [lia |].
  destruct (Z.le_gt_cases n s) as [Hge | Hlt].
  - rewrite !skipn_all2 by (unfold n in *; lia).
    now rewrite !firstn_nil.
  - replace (Z.to_nat (Z.min s n)) with (Z.to_nat s) by lia.
    replace (Z.to_nat (Z.min (s + len) n - Z.min s n))
      with (Nat.min (Z.to_nat len) (List.length (skipn (Z.to_nat s) xs)))
      by (rewrite length_skipn; unfold n in *; lia).
    rewrite <- (firstn_firstn (skipn (Z.to_nat s) xs)).
    now rewrite firstn_all.
Qed.

Lemma firstn_plus (A : Type) (l : list A) a b :
  firstn (a + b) l = firstn a l ++ firstn b (skipn a l).
Proof.
  revert l. induction a as [| a IH]; intros [| x l]; simpl;
    try reflexivity.
  - now rewrite firstn_nil.
  - f_equal. apply IH.
Qed.

(** X15: for a stored frame and a positive page size, page [p >= 1]
    holds the rows [(p-1)*limit] to [p*limit - 1] of the frame with the
    total number of rows; the pages 1 to [k] put end to end are the
    first [k*limit] rows, hence all rows as soon as [k*limit] reaches
    the total. *)
Theorem get_data_page_partitions (SESSION_STORE : session_store)
    (session_id : str) (df : frame) (limit : Z) :
  session_get session_id SESSION_STORE = Some df ->
  well_formed df ->
  (0 < limit)%Z ->
  let per_page := Z.to_nat limit in
  (forall p, 1 <= p ->
     get_data_page SESSION_STORE session_id (Z.of_nat p) limit
     = Return {| page := Z.of_nat p; limit := limit;
                 total_rows := nrows df;
                 data := firstn per_page
                           (skipn ((p - 1) * per_page) (records df)) |})
  /\ (forall k,
        List.concat (List.map (page_rows SESSION_STORE session_id limit) (seq 1 k))
        = firstn (k * per_page) (records df))
  /\ (forall k, nrows df <= k * per_page ->
        List.concat (List.map (page_rows SESSION_STORE session_id limit) (seq 1 k))
        = records df).
Proof.
  intros Hget Hwf Hpos per_page.
  assert (Hpage : forall p, 1 <= p ->
            get_data_page SESSION_STORE session_id (Z.of_nat p) limit
            = Return {| page := Z.of_nat p; limit := limit;
                        total_rows := nrows df;
                        data := firstn per_page
                                  (skipn ((p - 1) * per_page)
                                         (records df)) |}).
  { intros p Hp. unfold get_data_page. rewrite Hget.
    rewrite (records_iloc _ _ _ Hwf).
    assert (Hstart : (0 <= (Z.of_nat p - 1) * limit)%Z)
      by (apply Z.mul_nonneg_nonneg; lia).
    rewrite slice_from by lia.
    do 3 f_equal. unfold per_page.
    rewrite Z2Nat.inj_mul by lia. f_equal. lia. }
  assert (Hcat : forall k,
            List.concat (List.map (page_rows SESSION_STORE session_id limit)
                             (seq 1 k))
            = firstn (k * per_page) (records df)).
  { induction k as [| k IH]; [reflexivity |].
    rewrite seq_S, map_app, concat_app, IH. cbn [List.map List.concat].
    rewrite app_nil_r. unfold page_rows.
    rewrite (Hpage (1 + k)) by lia. cbn [data].
    replace (1 + k - 1) with k by lia.
    replace (S k * per_page) with (k * per_page + per_page) by lia.
    symmetry. apply firstn_plus. }
  split; [exact Hpage |]. split; [exact Hcat |].
  intros k Hk. rewrite Hcat. apply firstn_all2.
  now rewrite length_records.
Qed.

(** Seven rows in pages of three: 3, 3 and 1 rows, seven in all. *)
Lemma get_data_page_partitions_witness :
  session_get (lit "s1") one_session = Some seven
  /\ well_formed seven
  /\ List.map (fun p => List.length (page_rows one_session (lit "s1") 3 p))
              [1; 2; 3; 4]
     = [3; 3; 1; 0]
  /\ List.concat (List.map (page_rows one_session (lit "s1") 3) (seq 1 3))
     = records seven.
Proof.
  assert (Hg : session_get (lit "s1") one_session = Some seven)
    by reflexivity.
  assert (Hw : well_formed seven) by (repeat constructor).
  split; [exact Hg |]. split; [exact Hw |].
  split; [vm_compute; reflexivity |].
  apply (proj2 (proj2 (get_data_page_partitions one_session (lit "s1")
                         seven 3 Hg Hw eq_refl)) 3).
  simpl. lia.
Defined.

End PageFacts.

(* --------------------------------------------------------------------- *)
(** ** The chart loop and the waterfall *)
(* --------------------------------------------------------------------- *)

Module EngineFacts.

Import Blueprint Api.

Section ExecuteSOP.

Variable row : Type.
Variable calculate : ChartRecommendation -> result (list row).

Lemma add_chart_spec acc r :
  add_chart calculate acc r
  = if gives_rows calculate r
    then acc ++ [ {| chart_id := lit "chart_" ++ PyStr.of_Z (Z.of_nat (List.length acc));
                     chart_title := title r; chart_kind := chart_type r;
                     chart_data := match calculate r with
                                   | Ok rows => rows
                                   | Raise _ => []
                                   end;
                     chart_insight := reasoning r;
                     x_key := x_axis_col r; y_key := y_axis_col r |} ]
    else acc.
Proof.
  unfold add_chart, gives_rows.
  destruct (calculate r) as [[| x rows] | e]; reflexivity.
Qed.

Lemma fold_add_chart recommended : forall acc,
  List.map (@chart_id row) acc
  = List.map (fun i => lit "chart_" ++ PyStr.of_Z (Z.of_nat i)) (seq 0 (List.length acc)) ->
  let cs := fold_left (add_chart calculate) recommended acc in
  List.map (@chart_id row) cs
  = List.map (fun i => lit "chart_" ++ PyStr.of_Z (Z.of_nat i))
             (seq 0 (List.length cs))
  /\ List.map (fun c => (chart_title c, chart_kind c, chart_data c,
                         chart_insight c, x_key c, y_key c)) cs
     = List.map (fun c => (chart_title c, chart_kind c, chart_data c,
                         chart_insight c, x_key c, y_key c)) acc
       ++ List.map (fun r => (title r, chart_type r,
                             match calculate r with
                             | Ok rows => rows
                             | Raise _ => []
                             end,
                             reasoning r, x_axis_col r, y_axis_col r))
                  (filter (gives_rows calculate) recommended).
Proof.
  induction recommended as [| r rest IH]; intros acc Hacc; cbn [fold_left].
  - cbn zeta. split; [exact Hacc |]. cbn [filter List.map].
    now rewrite app_nil_r.
  - rewrite add_chart_spec. cbn [filter].
    destruct (gives_rows calculate r).
    + set (c := {| chart_id := lit "chart_" ++ PyStr.of_Z (Z.of_nat (List.length acc));
                   chart_title := title r; chart_kind := chart_type r;
                   chart_data := match calculate r with
                                   | Ok rows => rows
                                   | Raise _ => []
                                   end; chart_insight := reasoning r;
                   x_key := x_axis_col r; y_key := y_axis_col r |}).
      destruct (IH (acc ++ [c])) as [H1 H2].
      { rewrite map_app, length_app, Hacc. cbn [List.length List.map].
        rewrite Nat.add_1_r, seq_S, map_app. reflexivity. }
      split; [exact H1 |]. rewrite H2, map_app, <- app_assoc. reflexivity.
    + now apply IH.
Qed.

(** X16: the charts of a response are the recommendations whose
    calculation returned rows, in the order of the blueprint and with
    their rows; a recommendation whose calculation raised or returned
    nothing is left out; and the charts are numbered [chart_0],
    [chart_1], ... without a gap. *)
Theorem execute_sop_numbering (recommended : list ChartRecommendation) :
  let cs := execute_sop calculate recommended in
  List.map (@chart_id row) cs
  = List.map (fun i => lit "chart_" ++ PyStr.of_Z (Z.of_nat i))
             (seq 0 (List.length cs))
  /\ List.map (fun c => (chart_title c, chart_kind c, chart_data c,
                         chart_insight c, x_key c, y_key c)) cs
     = List.map (fun r => (title r, chart_type r,
                           match calculate r with
                           | Ok rows => rows
                           | Raise _ => []
                           end,
                           reasoning r, x_axis_col r, y_axis_col r))
                (filter (gives_rows calculate) recommended)
  /\ List.length cs <= List.length recommended.
Proof.
  intros cs.
  destruct (fold_add_chart recommended [] eq_refl) as [H1 H2].
  fold (execute_sop calculate recommended) in H1, H2. fold cs in H1, H2.
  split; [exact H1 |]. split; [exact H2 |].
  cbn [List.map app] in H2.
  apply (f_equal (@List.length _)) in H2.
  rewrite !length_map in H2. rewrite H2.
  apply filter_length_le.
Qed.

End ExecuteSOP.

Section Waterfall.

Variable py : interpreter.

Lemma floating_bars_chain agg : forall cumulative,
  let bars := floating_bars py cumulative agg in
  List.map displayValue bars = List.map snd agg
  /\ List.map bar_name bars = List.map (fun r => py_str py (fst r)) agg
  /\ (forall b, hd_error bars = Some b -> fst (bar_value b) = cumulative)
  /\ (forall i b b', nth_error bars i = Some b ->
                     nth_error bars (S i) = Some b' ->
                     fst (bar_value b') = snd (bar_value b))
  /\ Forall (fun b =>
               snd (bar_value b) = add (fst (bar_value b)) (displayValue b)
               /\ isNegative b = ltb (displayValue b) (PyFloat.of_Z 0))
            bars.
Proof.
  induction agg as [| [category val] rest IH]; intros cumulative;
    cbn [floating_bars].
  - cbn zeta. repeat split; try constructor.
    + intros b H. discriminate.
    + intros [| i] b b' H; discriminate.
  - destruct (IH (add cumulative val)) as (H1 & H2 & H3 & H4 & H5).
    cbn zeta. cbn [List.map fst snd displayValue bar_name].
    split; [now rewrite H1 |]. split; [now rewrite H2 |].
    split.
    { intros b H. injection H as <-. reflexivity. }
    split.
    { intros [| i] b b' Hb Hb'; cbn [nth_error] in Hb, Hb'.
      - injection Hb as <-. cbn [bar_value snd].
        apply H3. destruct (floating_bars py (add cumulative val) rest);
          [discriminate | exact Hb'].
      - now apply (H4 i). }
    constructor; [split; reflexivity | exact H5].
Qed.

(** X17: a waterfall has at most six bars, one per category in the
    order given; the first bar starts at zero, every other bar starts
    where the one before it ends, each bar ends at its start plus its
    value, and it is marked negative exactly when its value is below
    zero. *)
Theorem waterfall_bars_chain (sorted_sums : list (pyval * float)) :
  let bars := waterfall_data py sorted_sums in
  List.length bars = Nat.min 6 (List.length sorted_sums)
  /\ List.map displayValue bars = List.map snd (firstn 6 sorted_sums)
  /\ List.map bar_name bars
     = List.map (fun r => py_str py (fst r)) (firstn 6 sorted_sums)
  /\ (forall b, hd_error bars = Some b ->
                fst (bar_value b) = PyFloat.of_Z 0)
  /\ (forall i b b', nth_error bars i = Some b ->
                     nth_error bars (S i) = Some b' ->
                     fst (bar_value b') = snd (bar_value b))
  /\ Forall (fun b =>
               snd (bar_value b) = add (fst (bar_value b)) (displayValue b)
               /\ isNegative b = ltb (displayValue b) (PyFloat.of_Z 0))
            bars.
Proof.
  intros bars. unfold bars, waterfall_data.
  destruct (floating_bars_chain (firstn 6 sorted_sums) (PyFloat.of_Z 0))
    as (H1 & H2 & H3 & H4 & H5).
  split.
  { apply (f_equal (@List.length _)) in H1.
    rewrite !length_map, length_firstn in H1. exact H1. }
  repeat split; assumption.
Qed.

End Waterfall.

End EngineFacts.

(* --------------------------------------------------------------------- *)
(** ** The handlers *)
(* --------------------------------------------------------------------- *)

Module HandlerFacts.

Import Blueprint LLM Api PyStrFacts LLMFacts.

Lemma mapM_Forall2 (A B : Type) (f : A -> result B) (P : A -> B -> Prop) xs :
  (forall x y, f x = Ok y -> P x y) ->
  forall ys, mapM f xs = Ok ys -> Forall2 P xs ys.
Proof.
  intros Hf. induction xs as [| x xs IH]; simpl; intros ys H.
  - injection H as <-. constructor.
  - destruct (f x) as [y |] eqn:Ex; [| discriminate]. simpl in H.
    destruct (mapM f xs) as [ys' |]; [| discriminate]. simpl in H.
    injection H as <-. constructor; auto.
Qed.

Lemma fillna0_filled xs : Forall (fun v => isna v = false) (fillna0 xs).
Proof.
  unfold fillna0. apply Forall_forall. intros v Hv.
  apply in_map_iff in Hv as (v0 & <- & _).
  destruct (isna v0) eqn:E; [reflexivity | exact E].
Qed.

Section CleanDataTypes.

Variable to_numeric : column -> result (dtype * list pyval).
Variable to_datetime : column -> result (dtype * list pyval).

Lemma typed_column_filled c c' :
  typed_column to_numeric to_datetime c = Ok c' ->
  name c = name c'
  /\ (hints_number (name c') = true -> hints_date (name c') = false ->
      Forall (fun v => isna v = false) (cells c')).
Proof.
  unfold typed_column.
  destruct (hints_number (name c)) eqn:Hn.
  - destruct (to_numeric c) as [[d xs] |]; [| discriminate].
    cbn [bind fst snd name].
    destruct (hints_date (name c)) eqn:Hd.
    + destruct (to_datetime _) as [[d' xs'] |]; [| discriminate].
      cbn [bind fst snd]. intros H. injection H as <-. cbn [name cells].
      split; [reflexivity |]. congruence.
    + intros H. injection H as <-. cbn [name cells].
      split; [reflexivity |]. intros _ _. apply fillna0_filled.
  - cbn [bind].
    destruct (hints_date (name c)) eqn:Hd.
    + destruct (to_datetime c) as [[d' xs'] |]; [| discriminate].
      cbn [bind fst snd]. intros H. injection H as <-. cbn [name cells].
      split; [reflexivity |]. congruence.
    + intros H. injection H as <-. split; [reflexivity |]. congruence.
Qed.

(** X18: [clean_data_types] keeps the columns and their order, and a
    column whose name suggests a number and no date or time has no
    missing cell afterwards: a cell that is not a number counts as
    zero. *)
Theorem clean_data_types_fills (df df' : frame) :
  clean_data_types to_numeric to_datetime df = Ok df' ->
  columns df' = columns df
  /\ Forall (fun c => hints_number (name c) = true ->
                      hints_date (name c) = false ->
                      Forall (fun v => isna v = false) (cells c)) df'.
Proof.
  unfold clean_data_types. intros H.
  apply (mapM_Forall2 _ _ _
           (fun c c' =>
              name c = name c'
              /\ (hints_number (name c') = true ->
                  hints_date (name c') = false ->
                  Forall (fun v => isna v = false) (cells c')))
           df typed_column_filled) in H.
  unfold columns. induction H as [| c c' df df' [Hc1 Hc2] _ [IH1 IH2]].
  - split; constructor.
  - cbn [List.map]. split; [now rewrite Hc1, IH1 |].
    constructor; assumption.
Qed.

End CleanDataTypes.

(** A rating that is a text and a rating that is missing both become
    zero. *)
Lemma clean_data_types_fills_witness :
  clean_data_types text_to_nan as_datetime rated
  = Ok [ {| name := lit "Rating"; dtype_of := DFloat;
            cells := [VInt 4; VFloat (Fin 0); VFloat (Fin 0)] |} ]
  /\ columns [ {| name := lit "Rating"; dtype_of := DFloat;
                  cells := [VInt 4; VFloat (Fin 0); VFloat (Fin 0)] |} ]
     = columns rated.
Proof.
  assert (E : clean_data_types text_to_nan as_datetime rated
              = Ok [ {| name := lit "Rating"; dtype_of := DFloat;
                        cells := [VInt 4; VFloat (Fin 0);
                                  VFloat (Fin 0)] |} ])
    by (vm_compute; reflexivity).
  split; [exact E |].
  exact (proj1 (clean_data_types_fills text_to_nan as_datetime _ _ E)).
Defined.

Lemma session_get_set session_id df store :
  session_get session_id (session_set session_id df store) = Some df.
Proof.
  induction store as [| [k old] rest IH]; cbn [session_set session_get].
  - assert (E : PyStr.eqb session_id session_id = true)
      by now apply eqb_eq.
    now rewrite E.
  - destruct (PyStr.eqb k session_id) eqn:E; cbn [session_get];
      rewrite E; [reflexivity | exact IH].
Qed.

Section Handlers.

Variable bytes : Type.
Variable read_csv read_excel : bytes -> result frame.
Variable to_numeric : column -> result (dtype * list pyval).
Variable to_datetime : column -> result (dtype * list pyval).
Variable llm_service : LLMFactory.
Variable _chat_openai _chat_claude _chat_gemini _chat_ollama
  : LLMFactory -> str -> result str.
Variable sop_prompt : frame -> str -> str.
Variable json_loads : str -> result json.
Variable corr : frame -> str -> str -> float.
Variable other_row : Type.
Variable aggregate : frame -> ChartRecommendation -> result (list other_row).
Variable str_of_exception : raised -> str.
Variable response : Type.
Variable JSONResponse : analysis (chart_row other_row) -> result response.
Variable describe : frame -> result str.

(** What a successful analysis went through. *)
Lemma analyze_file_returns store file_name contents uuid store' resp :
  analyze_file read_csv read_excel to_numeric to_datetime llm_service
    _chat_openai _chat_claude _chat_gemini _chat_ollama sop_prompt
    json_loads corr aggregate str_of_exception JSONResponse
    store file_name contents uuid
  = (store', Return resp) ->
  exists df0 df bp content,
    load read_csv read_excel file_name contents = Return df0
    /\ clean_data_types to_numeric to_datetime (dropna_all df0) = Ok df
    /\ sop_engine llm_service _chat_openai _chat_claude _chat_gemini
         _chat_ollama sop_prompt json_loads df file_name = Ok bp
    /\ store' = session_set uuid df store
    /\ JSONResponse content = Ok resp
    /\ session_id content = uuid
    /\ stats_rowCount (analysis_stats content) = nrows df
    /\ preview_rows content = records (head 100 df)
    /\ blueprint content = bp
    /\ narrative_title content = domain bp ++ lit " Analysis"
    /\ narrative_summary content = [summary_insight bp]
    /\ charts content
       = execute_sop (Charts.calculate_chart_data (corr df) aggregate df)
                     (recommended_charts bp).
Proof.
  unfold analyze_file, analyze_body.
  destruct (load read_csv read_excel file_name contents) as [df0 | r]
    eqn:E1; [| discriminate].
  destruct (clean_data_types to_numeric to_datetime (dropna_all df0))
    as [df |] eqn:E2; [| discriminate].
  destruct (sop_engine llm_service _chat_openai _chat_claude _chat_gemini
              _chat_ollama sop_prompt json_loads df file_name)
    as [bp |] eqn:E3; [| discriminate].
  match goal with
  | |- context [JSONResponse ?c] =>
      set (content := c); destruct (JSONResponse content) as [r |] eqn:Er
  end; cbn [lift]; [| discriminate].
  intros H. injection H as <- <-.
  exists df0, df, bp, content.
  split; [reflexivity |]. split; [exact E2 |]. split; [exact E3 |].
  split; [reflexivity |]. split; [exact Er |].
  repeat split; reflexivity.
Qed.

(** X19: a file whose name ends in none of [.csv], [.xls] and [.xlsx]
    (in lowercase) is answered with status 500: the [HTTPException]
    with status 400 that the handler raises inside its own [try] is
    caught and its text becomes the detail; no session is stored. *)
Theorem analyze_file_unsupported_format (store : session_store)
    (file_name : str) (contents : bytes) (uuid : str) :
  endswith (lit ".csv") file_name = false ->
  endswith (lit ".xls") file_name = false ->
  endswith (lit ".xlsx") file_name = false ->
  analyze_file read_csv read_excel to_numeric to_datetime llm_service
    _chat_openai _chat_claude _chat_gemini _chat_ollama sop_prompt
    json_loads corr aggregate str_of_exception JSONResponse
    store file_name contents uuid
  = (store,
     Throw (HTTPException 500
              (str_of_exception
                 (HTTPException 400 (lit "Unsupported file format"))))).
Proof.
  intros H1 H2 H3. unfold analyze_file, analyze_body, load.
  now rewrite H1, H2, H3.
Qed.

(** X20: after a successful analysis the frame is stored under the
    session id of the response, and the first page of the pagination
    endpoint with the default size of 100 returns the preview rows of
    the response and the row count of its statistics. *)
Theorem analyze_then_first_page (store : session_store) (file_name : str)
    (contents : bytes) (uuid : str) (store' : session_store)
    (resp : response) :
  analyze_file read_csv read_excel to_numeric to_datetime llm_service
    _chat_openai _chat_claude _chat_gemini _chat_ollama sop_prompt
    json_loads corr aggregate str_of_exception JSONResponse
    store file_name contents uuid
  = (store', Return resp) ->
  exists df content,
    JSONResponse content = Ok resp
    /\ session_id content = uuid
    /\ session_get uuid store' = Some df
    /\ get_data_page store' uuid 1 100
       = Return {| page := 1; limit := 100;
                   total_rows := stats_rowCount (analysis_stats content);
                   data := preview_rows content |}.
Proof.
  intros H.
  apply analyze_file_returns in H
    as (df0 & df & bp & content & _ & _ & _ & -> & Hr & Hid & Hn & Hp & _).
  exists df, content.
  split; [exact Hr |]. split; [exact Hid |].
  split; [apply session_get_set |].
  unfold get_data_page. rewrite session_get_set, Hn, Hp. reflexivity.
Qed.

(** X21: with a provider that is none of [openai], [claude], [gemini]
    and [ollama] (the default [mock] is one), and [json.loads]
    rejecting the mock reply, the blueprint of every frame is the
    fallback one; an analysis that succeeds then has no chart and says
    that the AI analysis failed. *)
Theorem mock_provider_gives_fallback (store : session_store)
    (file_name : str) (contents : bytes) (uuid : str)
    (store' : session_store) (resp : response) :
  mem (provider llm_service)
      [lit "openai"; lit "claude"; lit "gemini"; lit "ollama"] = false ->
  (exists e, json_loads mock_reply = Raise e) ->
  analyze_file read_csv read_excel to_numeric to_datetime llm_service
    _chat_openai _chat_claude _chat_gemini _chat_ollama sop_prompt
    json_loads corr aggregate str_of_exception JSONResponse
    store file_name contents uuid
  = (store', Return resp) ->
  (forall df name,
      sop_engine llm_service _chat_openai _chat_claude _chat_gemini
        _chat_ollama sop_prompt json_loads df name
      = Ok (SOP._get_fallback_blueprint (columns df)))
  /\ exists content,
       JSONResponse content = Ok resp
       /\ charts content = []
       /\ narrative_title content = lit "General Analysis"
       /\ narrative_summary content
          = [lit "AI analysis failed. Using raw data view."].
Proof.
  intros Hp [e He] H.
  assert (Hsop : forall df name,
             sop_engine llm_service _chat_openai _chat_claude _chat_gemini
               _chat_ollama sop_prompt json_loads df name
             = Ok (SOP._get_fallback_blueprint (columns df))).
  { intros df name. unfold sop_engine, chat.
    cbn [mem existsb] in Hp.
    repeat (apply orb_false_iff in Hp; destruct Hp as [? Hp]).
    repeat match goal with
           | H : PyStr.eqb ?a ?b = false |- context [PyStr.eqb ?a ?b] =>
               rewrite H
           end.
    cbn [try_except bind].
    unfold SOP.analyze_dataset_structure, SOP.parse_response.
    assert (Hc : SOP.clean_json mock_reply = mock_reply)
      by (vm_compute; reflexivity).
    rewrite Hc, He. reflexivity. }
  split; [exact Hsop |].
  apply analyze_file_returns in H
    as (df0 & df & bp & content & _ & _ & Hbp & _ & Hr & _ & _ & _ & _
        & Ht & Hs & Hc).
  rewrite Hsop in Hbp. injection Hbp as <-.
  exists content. split; [exact Hr |].
  split; [rewrite Hc; reflexivity |].
  split; [rewrite Ht; reflexivity | rewrite Hs; reflexivity].
Qed.

(** X22: the chat endpoint answers an unknown session with status 404;
    for a known session it returns the text of [chat], which never
    raises, so the handler's own status 500 is never sent; only the
    statistics, computed before the [try], can make it fail. *)
Theorem chat_with_data_outcomes (store : session_store)
    (session_id message : str) :
  match session_get session_id store with
  | None =>
      chat_with_data llm_service _chat_openai _chat_claude _chat_gemini
        _chat_ollama describe store session_id message
      = Throw (HTTPException 404 (lit "Session expired. Please re-upload."))
  | Some df =>
      match describe df with
      | Raise e =>
          chat_with_data llm_service _chat_openai _chat_claude _chat_gemini
            _chat_ollama describe store session_id message
          = Throw (PyError e)
      | Ok stats_context =>
          exists text,
            chat _chat_openai _chat_claude _chat_gemini _chat_ollama
                 llm_service
                 (chat_prompt (join (lit ", ") (columns df)) stats_context
                              message)
            = Ok text
            /\ chat_with_data llm_service _chat_openai _chat_claude
                 _chat_gemini _chat_ollama describe store session_id message
               = Return text
      end
  end.
Proof.
  unfold chat_with_data.
  destruct (session_get session_id store) as [df |]; [| reflexivity].
  destruct (describe df) as [stats_context |]; [| reflexivity].
  destruct (chat_answers _chat_openai _chat_claude _chat_gemini _chat_ollama
              llm_service
              (chat_prompt (join (lit ", ") (columns df)) stats_context
                           message)) as [text Ht].
  exists text. rewrite Ht. split; reflexivity.
Qed.

End Handlers.

(** An upload named [DATA.CSV]: the comparison of the extension is
    case-sensitive. *)
Lemma analyze_file_unsupported_format_witness :
  demo_analyze_file [] (lit "DATA.CSV") tt (lit "s1")
  = ([], Throw (HTTPException 500 [])).
Proof.
  unfold demo_analyze_file.
  apply analyze_file_unsupported_format; reflexivity.
Defined.

Lemma analyze_then_first_page_witness :
  exists store' resp,
    demo_analyze_file [] (lit "seven.csv") tt (lit "s1")
    = (store', Return resp)
    /\ exists df content,
         Ok content = Ok resp
         /\ session_id content = lit "s1"
         /\ session_get (lit "s1") store' = Some df
         /\ get_data_page store' (lit "s1") 1 100
            = Return {| page := 1; limit := 100;
                        total_rows := stats_rowCount (analysis_stats content);
                        data := preview_rows content |}.
Proof.
  assert (E : exists store' resp,
             demo_analyze_file [] (lit "seven.csv") tt (lit "s1")
             = (store', Return resp)).
  { eexists. eexists. vm_compute. reflexivity. }
  destruct E as (store' & resp & E).
  exists store', resp.
  split.
  - exact E.
  - unfold demo_analyze_file in E.
    exact (analyze_then_first_page _ _ _ _ _ _ _ _ _ _ _ _ _ _ _ _ _ _
             _ _ _ _ _ _ E).
Defined.

(** The development machine: the default provider is the mock one. *)
Lemma mock_provider_gives_fallback_witness :
  exists store' resp,
    demo_analyze_file [] (lit "seven.csv") tt (lit "s1")
    = (store', Return resp)
    /\ exists content,
         Ok content = Ok resp
         /\ charts content = []
         /\ narrative_title content = lit "General Analysis"
         /\ narrative_summary content
            = [lit "AI analysis failed. Using raw data view."].
Proof.
  assert (E : exists store' resp,
             demo_analyze_file [] (lit "seven.csv") tt (lit "s1")
             = (store', Return resp)).
  { eexists. eexists. vm_compute. reflexivity. }
  destruct E as (store' & resp & E).
  exists store', resp.
  split.
  - exact E.
  - unfold demo_analyze_file in E.
    eapply proj2, mock_provider_gives_fallback; revgoals.
    + exact E.
    + now exists JSONDecodeError.
    + reflexivity.
Defined.

End HandlerFacts.

(* --------------------------------------------------------------------- *)
(** ** Configuration and the in-memory database *)
(* --------------------------------------------------------------------- *)

Module DatabaseFacts.

Import Blueprint Database PyStrFacts SortFacts.

(** X23: without [SUPABASE_URL] or without [SUPABASE_KEY] (unset or
    empty) the client is created on the mock configuration and starts
    connected, with one organization on the [pro] plan and one [admin]
    user who belongs to it, and with no report and no audit entry. *)
Theorem get_db_falls_back_to_mock (getenv : str -> option str)
    (org_uuid org_now user_uuid user_now : str) :
  LLM.falsy (getenv (lit "SUPABASE_URL")) = true
  \/ LLM.falsy (getenv (lit "SUPABASE_KEY")) = true ->
  exists db,
    get_db getenv org_uuid org_now user_uuid user_now = Ok db
    /\ config db = mock
    /\ _connected db = true
    /\ organizations db
       = [ {| Org.id := org_uuid; Org.name := lit "Demo Organization";
              Org.slug := lit "demo"; Org.plan := lit "pro";
              Org.row_quota := 100000; Org.rows_used := 0;
              Org.created_at := org_now |} ]
    /\ users db
       = [ {| User.id := user_uuid; User.org_id := org_uuid;
              User.email := lit "demo@integralq.ai";
              User.full_name := lit "Demo User"; User.role := lit "admin";
              User.created_at := user_now |} ]
    /\ reports db = []
    /\ audit_logs db = [].
Proof.
  intros H.
  assert (Hc : get_config getenv = Ok mock).
  { unfold get_config, from_env, LLM.falsy in *.
    destruct (getenv (lit "SUPABASE_URL")) as [[| c u] |];
      destruct (getenv (lit "SUPABASE_KEY")) as [[| d k] |];
      try reflexivity.
    destruct H; discriminate. }
  unfold get_db, __init__. rewrite Hc. cbn [bind].
  eexists. split; [reflexivity |].
  unfold _connect. cbn [config].
  change (startswith (lit "http://localhost") (url mock)) with true.
  cbv iota. unfold _setup_mock_data.
  cbn [config _connected organizations users reports audit_logs app Org.id].
  repeat split; reflexivity.
Qed.

Lemma get_db_falls_back_to_mock_witness :
  LLM.falsy (no_env (lit "SUPABASE_URL")) = true
  /\ exists db,
       get_db no_env (lit "org-1") (lit "2025-01-01T09:00:00")
              (lit "user-1") (lit "2025-01-01T09:00:00") = Ok db
       /\ config db = mock.
Proof.
  split; [reflexivity |].
  destruct (get_db_falls_back_to_mock no_env (lit "org-1")
              (lit "2025-01-01T09:00:00") (lit "user-1")
              (lit "2025-01-01T09:00:00") (or_introl eq_refl))
    as (db & Hdb & Hc & _).
  exists db. split; assumption.
Defined.

(** *** Lookup after insertion *)

Lemma find_snoc (A : Type) (test : A -> bool) l x :
  find test (l ++ [x])
  = match find test l with
    | Some y => Some y
    | None => if test x then Some x else None
    end.
Proof.
  induction l as [| y l IH]; simpl; [reflexivity |].
  destruct (test y); [reflexivity | exact IH].
Qed.

(** X24: a record that is created never changes what an id (or an
    email) already resolved to; a lookup that found nothing before
    finds the new record exactly when it asks for its id (or email).
    An organization gets a quota of 10000 rows on the [free] plan and
    100000 on any other. *)
Theorem lookup_after_create (self : SupabaseClient) (uuid now : str) :
  (forall name slug plan wanted,
     let (db, org) := create_organization uuid now self name slug plan in
     get_organization db wanted
     = match get_organization self wanted with
       | Some old => Some old
       | None => if PyStr.eqb uuid wanted then Some org else None
       end
     /\ Org.row_quota org
        = (if PyStr.eqb plan (lit "free") then 10000 else 100000)%Z
     /\ Org.rows_used org = 0%Z)
  /\ (forall email org_id full_name role wanted,
        let (db, user) :=
          create_user uuid now self email org_id full_name role in
        get_user db wanted
        = match get_user self wanted with
          | Some old => Some old
          | None => if PyStr.eqb uuid wanted then Some user else None
          end
        /\ get_user_by_email db wanted
           = match get_user_by_email self wanted with
             | Some old => Some old
             | None => if PyStr.eqb email wanted then Some user else None
             end)
  /\ (forall user_id org_id title domain file_names row_count column_count
             summary charts stats forecast cleaning_log wanted,
        let (db, report) :=
          save_report uuid now self user_id org_id title domain file_names
            row_count column_count summary charts stats forecast
            cleaning_log in
        get_report db wanted
        = match get_report self wanted with
          | Some old => Some old
          | None => if PyStr.eqb uuid wanted then Some report else None
          end).
Proof.
  split; [| split]; intros; cbn zeta.
  - unfold get_organization, first_where, create_organization.
    cbn [organizations Org.row_quota Org.rows_used].
    rewrite find_snoc. cbn [Org.id]. repeat split; reflexivity.
  - unfold get_user, get_user_by_email, first_where, create_user.
    cbn [users]. rewrite !find_snoc. cbn [User.id User.email].
    split; reflexivity.
  - unfold get_report, first_where, save_report. cbn [reports].
    rewrite find_snoc. cbn [Report.id]. reflexivity.
Qed.

(** *** The rows an organization has used *)

Lemma find_add_rows_used org_id row_count orgs wanted :
  find (fun org => PyStr.eqb (Org.id org) wanted)
       (add_rows_used org_id row_count orgs)
  = if PyStr.eqb org_id wanted
    then option_map
           (fun org => with_rows_used org (Org.rows_used org + row_count)%Z)
           (find (fun org => PyStr.eqb (Org.id org) wanted) orgs)
    else find (fun org => PyStr.eqb (Org.id org) wanted) orgs.
Proof.
  induction orgs as [| org rest IH]; cbn [add_rows_used find].
  - now destruct (PyStr.eqb org_id wanted).
  - destruct (PyStr.eqb (Org.id org) org_id) eqn:E1.
    + apply eqb_eq in E1. cbn [find with_rows_used Org.id]. rewrite E1.
      destruct (PyStr.eqb org_id wanted) eqn:E2; [reflexivity |].
      reflexivity.
    + cbn [find]. destruct (PyStr.eqb (Org.id org) wanted) eqn:E2.
      * apply eqb_eq in E2.
        destruct (PyStr.eqb org_id wanted) eqn:E3; [| reflexivity].
        apply eqb_eq in E3. rewrite E2, <- E3 in E1.
        assert (E : PyStr.eqb org_id org_id = true) by now apply eqb_eq.
        congruence.
      * exact IH.
Qed.

(** X25: saving a report appends it to the reports and adds its row
    count to the rows used by the organization it names, whatever the
    quota of the organization; no other organization changes, and for
    an unknown organization the report is stored all the same. *)
Theorem save_report_counts_rows (self : SupabaseClient) (uuid now : str)
    (user_id org_id title domain : str) (file_names : list str)
    (row_count column_count : Z) (summary : str)
    (charts stats forecast : option json)
    (cleaning_log : option (list str)) :
  let (db, report) :=
    save_report uuid now self user_id org_id title domain file_names
      row_count column_count summary charts stats forecast cleaning_log in
  reports db = reports self ++ [report]
  /\ Report.row_count report = row_count
  /\ Report.org_id report = org_id
  /\ users db = users self
  /\ audit_logs db = audit_logs self
  /\ List.map Org.id (organizations db) = List.map Org.id (organizations self)
  /\ forall wanted,
       get_organization db wanted
       = if PyStr.eqb org_id wanted
         then option_map
                (fun org =>
                   with_rows_used org (Org.rows_used org + row_count)%Z)
                (get_organization self wanted)
         else get_organization self wanted.
Proof.
  cbn zeta. unfold save_report, get_organization, first_where.
  cbn [reports users audit_logs organizations Report.row_count
       Report.org_id].
  repeat split; try reflexivity.
  - induction (organizations self) as [| org rest IH];
      cbn [add_rows_used List.map]; [reflexivity |].
    destruct (PyStr.eqb (Org.id org) org_id); cbn [List.map];
      [reflexivity | now rewrite IH].
  - intros wanted. apply find_add_rows_used.
Qed.

End DatabaseFacts.

(* --------------------------------------------------------------------- *)
(** ** Audit entries *)
(* --------------------------------------------------------------------- *)

Module AuditFacts.

Import Blueprint Database Audit PyStrFacts SortFacts.

(** *** The order of time stamps *)

Lemma str_ltb_cotrans a : forall b c,
  str_ltb a c = true -> str_ltb a b = true \/ str_ltb b c = true.
Proof.
  induction a as [| x a IH]; intros b c H.
  - destruct c as [| z c]; [discriminate |].
    destruct b as [| y b]; [now right | now left].
  - destruct c as [| z c]; [discriminate |].
    destruct b as [| y b]; [now right |].
    cbn [str_ltb] in *.
    destruct (N.ltb_spec x z) as [Hxz | Hxz]; cbn [orb] in H.
    + destruct (N.ltb_spec x y) as [Hxy | Hxy]; [now left |].
      right. destruct (N.ltb_spec y z); [reflexivity | lia].
    + destruct (N.eqb_spec x z) as [-> | Hne]; [| discriminate].
      cbn [andb] in H.
      destruct (N.ltb_spec z y) as [Hzy | Hzy]; [now left |].
      destruct (N.ltb_spec y z) as [Hyz | Hyz]; [now right |].
      assert (y = z) by lia. subst y.
      rewrite N.eqb_refl. cbn [orb andb]. now apply IH.
Qed.

Lemma str_ltb_asym a : forall b,
  str_ltb a b = true -> str_ltb b a = false.
Proof.
  induction a as [| x a IH]; intros [| y b] H; try reflexivity;
    try discriminate.
  cbn [str_ltb] in *.
  destruct (N.ltb_spec x y) as [Hxy | Hxy]; cbn [orb] in H.
  - destruct (N.ltb_spec y x); [lia |].
    destruct (N.eqb_spec y x); [lia | reflexivity].
  - destruct (N.eqb_spec x y) as [-> | Hne]; [| discriminate].
    cbn [andb] in H. rewrite N.ltb_irrefl, N.eqb_refl. cbn [orb andb].
    now apply IH.
Qed.

Section Newest.

Variable A : Type.
Variable key : A -> str.

Lemma not_older_trans x y z :
  not_older key x y -> not_older key y z -> not_older key x z.
Proof.
  unfold not_older. intros Hxy Hyz.
  destruct (str_ltb (key x) (key z)) eqn:E; [| reflexivity].
  destruct (str_ltb_cotrans _ (key y) _ E); congruence.
Qed.

Lemma insert_newest_perm x l : Permutation (x :: l) (insert_newest key x l).
Proof.
  induction l as [| y l IH]; simpl; [apply Permutation_refl |].
  destruct (str_ltb (key x) (key y)); [| apply Permutation_refl].
  eapply perm_trans; [apply perm_swap |]. now apply perm_skip.
Qed.

Lemma sorted_newest_perm l : Permutation l (sorted_newest key l).
Proof.
  induction l as [| x l IH]; simpl; [constructor |].
  eapply perm_trans; [| apply insert_newest_perm]. now apply perm_skip.
Qed.

Lemma insert_newest_sorted x l :
  StronglySorted (not_older key) l ->
  StronglySorted (not_older key) (insert_newest key x l).
Proof.
  induction 1 as [| y l Hs IH Hy]; simpl.
  - constructor; constructor.
  - destruct (str_ltb (key x) (key y)) eqn:E.
    + constructor; [exact IH |].
      eapply Permutation_Forall; [apply insert_newest_perm |].
      constructor; [| exact Hy].
      unfold not_older. now apply str_ltb_asym.
    + constructor; [now constructor |].
      constructor; [exact E |].
      eapply Forall_impl; [| exact Hy].
      intros z Hz. now apply not_older_trans with y.
Qed.

Lemma sorted_newest_sorted l :
  StronglySorted (not_older key) (sorted_newest key l).
Proof.
  induction l as [| x l IH]; simpl; [constructor |].
  now apply insert_newest_sorted.
Qed.

(** [xs[:limit]] is a prefix, of at most [limit] elements when the
    limit is not negative, and the whole list when the limit reaches
    its length. *)
Lemma up_to_firstn limit (xs : list A) :
  exists k,
    up_to limit xs = firstn k xs
    /\ ((0 <= limit)%Z -> k <= Z.to_nat limit)
    /\ ((Z.of_nat (List.length xs) <= limit)%Z -> List.length xs <= k).
Proof.
  unfold up_to, Api.slice, Api.slice_bound.
  set (n := Z.of_nat (List.length xs)).
  assert (H0 : (0 <? 0)%Z = false) by reflexivity. rewrite H0.
  replace (Z.to_nat (Z.min 0 n)) with 0 by (unfold n; lia).
  cbn [skipn].
  eexists. split; [reflexivity |].
  split; intros H.
  - destruct (Z.ltb_spec limit 0); unfold n in *; lia.
  - destruct (Z.ltb_spec limit 0); unfold n in *; lia.
Qed.

End Newest.

(** X26: the entries [get_audit_logs] returns all belong to the
    organization asked for and pass the two filters (a filter that is
    [None] or empty passes everything); they are entries of the log,
    ordered from the newest to the oldest time stamp, and at most
    [limit] of them when the limit is not negative. *)
Theorem get_audit_logs_selects (self : SupabaseClient) (org_id : str)
    (limit : Z) (action resource_type : option str) :
  let logs := get_audit_logs self org_id limit action resource_type in
  Forall (fun l => Log.org_id l = Some org_id
                   /\ passes action (Log.action l) = true
                   /\ passes resource_type (Log.resource_type l) = true
                   /\ In l (audit_logs self)) logs
  /\ StronglySorted (not_older Log.created_at) logs
  /\ ((0 <= limit)%Z -> List.length logs <= Z.to_nat limit).
Proof.
  intros logs. unfold logs, get_audit_logs.
  set (kept := filter (fun l => passes resource_type (Log.resource_type l))
                 (filter (fun l => passes action (Log.action l))
                    (filter (of_org org_id) (audit_logs self)))).
  destruct (up_to_firstn _ limit (sorted_newest Log.created_at kept))
    as (k & -> & Hk & _).
  split; [| split].
  - apply Forall_forall. intros l Hl. apply firstn_In in Hl.
    apply (Permutation_in _ (Permutation_sym
                               (sorted_newest_perm _ Log.created_at kept)))
      in Hl.
    unfold kept in Hl.
    apply filter_In in Hl as [Hl H3]. apply filter_In in Hl as [Hl H2].
    apply filter_In in Hl as [Hl H1].
    repeat split; try assumption.
    unfold of_org in H1. destruct (Log.org_id l) as [o |]; [| discriminate].
    apply eqb_eq in H1. now subst.
  - apply firstn_sorted, sorted_newest_sorted.
  - intros H. specialize (Hk H). rewrite length_firstn. lia.
Qed.

Lemma filter_everything (A : Type) (xs : list A) :
  filter (fun _ => true) xs = xs.
Proof. induction xs as [| x xs IH]; simpl; congruence. Qed.

(** *** Numbering *)

Lemma log_action_appends now db user_id org_id action resource_type
      resource_id details ip_address user_agent :
  let (db', entry) := log_action now db user_id org_id action resource_type
                        resource_id details ip_address user_agent in
  audit_logs db' = audit_logs db ++ [entry]
  /\ Log.id entry = (Z.of_nat (List.length (audit_logs db)) + 1)%Z
  /\ Log.user_id entry = user_id
  /\ Log.org_id entry = org_id
  /\ organizations db' = organizations db
  /\ users db' = users db.
Proof. cbn. repeat split; reflexivity. Qed.

Lemma perform_audit_logs db c :
  audit_logs (perform db c) = audit_logs db
  \/ exists entry,
       audit_logs (perform db c) = audit_logs db ++ [entry]
       /\ Log.id entry = (Z.of_nat (List.length (audit_logs db)) + 1)%Z.
Proof.
  destruct c; cbn [perform];
    try (left; reflexivity);
    right; eexists; split; reflexivity.
Qed.

(** X27: on a client that starts without audit entries, whatever
    organizations, users, reports and audit entries are created
    afterwards, the audit entries are numbered 1, 2, 3, ... in the
    order in which they were logged. *)
Theorem audit_ids_are_positions (db : SupabaseClient) (calls : list call) :
  audit_logs db = [] ->
  let logs := audit_logs (history db calls) in
  List.map Log.id logs = List.map Z.of_nat (seq 1 (List.length logs)).
Proof.
  intros Hempty. cbn zeta. unfold history.
  assert (Hinv : List.map Log.id (audit_logs db)
                 = List.map Z.of_nat (seq 1 (List.length (audit_logs db))))
    by now rewrite Hempty.
  clear Hempty. revert db Hinv.
  induction calls as [| c calls IH]; intros db Hinv; cbn [fold_left];
    [exact Hinv |].
  apply IH.
  destruct (perform_audit_logs db c) as [-> | (entry & -> & Hid)];
    [exact Hinv |].
  rewrite map_app, length_app, Hinv. cbn [List.length List.map].
  rewrite Nat.add_1_r, seq_S, map_app. cbn [List.map].
  rewrite Hid. do 3 f_equal. lia.
Qed.

Lemma audit_ids_are_positions_witness :
  audit_logs demo_client = []
  /\ List.map Log.id (audit_logs (history demo_client demo_calls))
     = [1; 2]%Z.
Proof.
  split; [reflexivity |].
  exact (audit_ids_are_positions demo_client demo_calls eq_refl).
Defined.

(** X28: the logger attributes an action without a user or without an
    organization to the first user and the first organization of the
    tables; the entry is appended with the next number.  [get_logs]
    shows the entries of the first organization only: an entry logged
    for another organization is never returned, and an entry logged
    without an organization is returned as soon as the limit reaches
    the number of entries. *)
Theorem audit_log_attribution (now : str) (db : SupabaseClient)
    (action resource_type : str) (user_id org_id resource_id : option str)
    (details : option json) (ip_address user_agent : option str)
    (o : Org.t) (orgs : list Org.t) (u : User.t) (us : list User.t) :
  organizations db = o :: orgs ->
  users db = u :: us ->
  let (db', entry) :=
    log now db action resource_type user_id org_id resource_id details
        ip_address user_agent in
  audit_logs db' = audit_logs db ++ [entry]
  /\ Log.id entry = (Z.of_nat (List.length (audit_logs db)) + 1)%Z
  /\ Log.user_id entry
     = (if LLM.falsy user_id then Some (User.id u) else user_id)
  /\ Log.org_id entry
     = (if LLM.falsy org_id then Some (Org.id o) else org_id)
  /\ (forall limit wanted_action wanted_type,
        In entry (get_logs db' limit wanted_action wanted_type) ->
        Log.org_id entry = Some (Org.id o))
  /\ (LLM.falsy org_id = true ->
      forall limit,
        (Z.of_nat (List.length (audit_logs db')) <= limit)%Z ->
        In entry (get_logs db' limit None None)).
Proof.
  intros Ho Hu. unfold log. rewrite Ho, Hu.
  set (uid := if LLM.falsy user_id then Some (User.id u) else user_id).
  set (oid := if LLM.falsy org_id then Some (Org.id o) else org_id).
  pose proof (log_action_appends now db uid oid action resource_type
                resource_id details ip_address user_agent) as H.
  destruct (log_action now db uid oid action resource_type resource_id
              details ip_address user_agent) as [db' entry].
  destruct H as (Hlogs & Hid & Huid & Hoid & Horgs & _).
  split; [exact Hlogs |]. split; [exact Hid |].
  split; [exact Huid |]. split; [exact Hoid |].
  assert (Hget : forall limit a t,
             get_logs db' limit a t
             = get_audit_logs db' (Org.id o) limit a t).
  { intros. unfold get_logs. now rewrite Horgs, Ho. }
  split.
  - intros limit a t Hin. rewrite Hget in Hin.
    pose proof (get_audit_logs_selects db' (Org.id o) limit a t) as [Hall _].
    cbn zeta in Hall. rewrite Forall_forall in Hall.
    now apply Hall in Hin.
  - intros Hf limit Hlimit. rewrite Hget. unfold get_audit_logs.
    cbn [passes]. rewrite !filter_everything.
    set (kept := filter (of_org (Org.id o)) (audit_logs db')).
    destruct (up_to_firstn _ limit (sorted_newest Log.created_at kept))
      as (k & -> & _ & Hk).
    assert (Hlen : List.length (sorted_newest Log.created_at kept)
                   <= List.length (audit_logs db')).
    { rewrite <- (Permutation_length
                    (sorted_newest_perm _ Log.created_at kept)).
      apply filter_length_le. }
    rewrite firstn_all2 by lia.
    apply (Permutation_in _ (sorted_newest_perm _ Log.created_at kept)).
    unfold kept. apply filter_In. split.
    + rewrite Hlogs. apply in_or_app. right. now left.
    + unfold of_org. rewrite Hoid. unfold oid. rewrite Hf.
      now apply eqb_eq.
Qed.

(** An upload on the development client is attributed to the demo
    user and the demo organization. *)
Lemma audit_log_attribution_witness :
  organizations demo_client
  = [ {| Org.id := lit "org-1"; Org.name := lit "Demo Organization";
         Org.slug := lit "demo"; Org.plan := lit "pro";
         Org.row_quota := 100000; Org.rows_used := 0;
         Org.created_at := lit "2025-01-01T09:00:00" |} ]
  /\ Log.org_id
       (snd (log (lit "2025-01-02T10:00:01") demo_client ACTION_UPLOAD
                 RESOURCE_FILE None None None None None None))
     = Some (lit "org-1").
Proof.
  split; [reflexivity |].
  pose proof (audit_log_attribution (lit "2025-01-02T10:00:01") demo_client
                ACTION_UPLOAD RESOURCE_FILE None None None None None None
                _ _ _ _ eq_refl eq_refl) as H.
  destruct (log (lit "2025-01-02T10:00:01") demo_client ACTION_UPLOAD
                RESOURCE_FILE None None None None None None) as [db' entry].
  exact (proj1 (proj2 (proj2 (proj2 H)))).
Defined.

End AuditFacts.
